(** * Time-tracking session lifecycle: server controller and desktop agent

    A shallow embedding of the session lifecycle of the time tracking
    platform:

    - [src/models/TimeEntry.ts]: the [TimeEntry] schema, its pre-save hook
      and its instance methods ([stop], [addScreenshot],
      [updateDescription]);
    - [src/controllers/timeTrackingController.ts]: [startTimeTracking],
      [stopTimeTracking], [getActiveTimeEntries];
    - [src/services/screenshotService.ts]: [captureScreenshot];
    - [desktop/src/services/TimeTrackingService.ts]: the agent's
      [initialize], [startTracking], [stopTracking], [getActiveEntry],
      the capture timer and the [trackingDuration] getter.

    Timestamps are milliseconds since the epoch ([Z]); every reading of the
    system clock ([new Date()], [Date.now()]) is an explicit argument.
    MongoDB collections are lists in insertion order; ObjectIds are natural
    numbers and a new document receives an id larger than every id of its
    collection. *)

From Stdlib Require Import ZArith List String Ascii Bool Lia PeanoNat.
From Stdlib Require Import DecimalString.
Import ListNotations.

Set Implicit Arguments.

Local Open Scope string_scope.
Local Open Scope list_scope.
Local Open Scope Z_scope.

(** ** JavaScript values *)

Module Js.

(** [!s] on a possibly undefined string: undefined and the empty string
    are falsy. *)
Definition truthy (s : option string) : option string :=
  match s with
  | Some EmptyString => None
  | Some v => Some v
  | None => None
  end.

(** [xs.includes(x)] on an array of strings. *)
Definition includes (x : string) (xs : list string) : bool :=
  existsb (String.eqb x) xs.

(** [n || d] on a number: [0] is falsy. *)
Definition or_default (n d : Z) : Z := if Z.eqb n 0 then d else n.

(** [v ?? d]: only null and undefined fall through. *)
Definition nullish {A : Type} (v : option A) (d : A) : A :=
  match v with Some x => x | None => d end.

(** [xs[0] || null] on an array of objects. *)
Definition first_or_null {A : Type} (xs : list A) : option A :=
  match xs with x :: _ => Some x | [] => None end.

Definition is_space (c : ascii) : bool :=
  Ascii.eqb c " " || Ascii.eqb c "009" || Ascii.eqb c "010"
  || Ascii.eqb c "011" || Ascii.eqb c "012" || Ascii.eqb c "013".

Fixpoint trimStart (s : string) : string :=
  match s with
  | String c r => if is_space c then trimStart r else s
  | EmptyString => EmptyString
  end.

Definition reverse (s : string) : string :=
  string_of_list_ascii (rev (list_ascii_of_string s)).

(** [s.trim()], on the ASCII white space characters. *)
Definition trim (s : string) : string :=
  reverse (trimStart (reverse (trimStart s))).

End Js.

(** ** Exceptions and the handler monad *)

Inductive Exn : Type :=
| ValidationError (path : string)
| CaptureFailure (step : string).

(** How an express handler wrapped in [asyncHandler] leaves:
    [next(createError(message, statusCode))] or a rejected [await]
    forwarded to [next]. *)
Inductive Halt : Type :=
| NextError (message : string) (statusCode : Z)
| Uncaught (e : Exn).

(** [res.status(status).json({ success: true, data, message })]. *)
Record ApiResponse (A : Type) : Type := mkResponse {
  status : Z;
  data : A;
  message : option string
}.

Definition ObjectId : Type := nat.

Definition fresh_id (ids : list ObjectId) : ObjectId := S (list_max ids).

Definition has_id (x : ObjectId) (ids : list ObjectId) : bool :=
  existsb (Nat.eqb x) ids.

(** ** Documents *)

Record DeviceInfo : Type := mkDeviceInfo {
  ipAddress : string;
  macAddress : string;
  userAgent : string;
  platform : string;
  os : string;
  osVersion : string;
  browser : option string;
  browserVersion : option string;
  screenResolution : string;
  timezone : string;
  language : string
}.

Record ScreenshotSettings : Type := mkScreenshotSettings {
  screenshotEnabled : bool;
  interval : Z;
  quality : Z;
  maxSize : string
}.

Module Project.
Record t : Type := mk {
  _id : string;
  name : string;
  employees : list string;
  screenshotSettings : option ScreenshotSettings
}.

Definition findById (id : string) (ps : list t) : option t :=
  find (fun p => String.eqb (_id p) id) ps.
End Project.

Module Task.
Record t : Type := mk {
  _id : string;
  name : string;
  projectId : string;
  employees : list string
}.

Definition findById (id : string) (ts : list t) : option t :=
  find (fun k => String.eqb (_id k) id) ts.
End Task.

Module Employee.
Record t : Type := mk {
  _id : string;
  email : string;
  name : string
}.

Definition findById (id : string) (es : list t) : option t :=
  find (fun e => String.eqb (_id e) id) es.
End Employee.

Module Screenshot.
Record t : Type := mk {
  _id : ObjectId;
  employeeId : string;
  timeEntryId : ObjectId;
  projectId : string;
  taskId : string;
  fileSize : Z;
  width : Z;
  height : Z;
  hasPermission : bool;
  takenAt : Z
}.
End Screenshot.

(** ** The TimeEntry model ([src/models/TimeEntry.ts]) *)

Module TimeEntry.

Record t : Type := mk {
  _id : ObjectId;
  employeeId : string;
  projectId : string;
  taskId : string;
  startTime : Z;
  endTime : option Z;
  duration : Z;
  description : option string;
  isActive : bool;
  screenshots : list ObjectId;
  deviceInfo : DeviceInfo
}.

Definition set_endTime (v : option Z) (d : t) : t :=
  mk (_id d) (employeeId d) (projectId d) (taskId d) (startTime d) v
     (duration d) (description d) (isActive d) (screenshots d)
     (deviceInfo d).

Definition set_duration (v : Z) (d : t) : t :=
  mk (_id d) (employeeId d) (projectId d) (taskId d) (startTime d)
     (endTime d) v (description d) (isActive d) (screenshots d)
     (deviceInfo d).

Definition set_description (v : option string) (d : t) : t :=
  mk (_id d) (employeeId d) (projectId d) (taskId d) (startTime d)
     (endTime d) (duration d) v (isActive d) (screenshots d)
     (deviceInfo d).

Definition set_isActive (v : bool) (d : t) : t :=
  mk (_id d) (employeeId d) (projectId d) (taskId d) (startTime d)
     (endTime d) (duration d) (description d) v (screenshots d)
     (deviceInfo d).

Definition set_screenshots (v : list ObjectId) (d : t) : t :=
  mk (_id d) (employeeId d) (projectId d) (taskId d) (startTime d)
     (endTime d) (duration d) (description d) (isActive d) v
     (deviceInfo d).

(** Schema validators run by [save] before the pre-save hook:
    [duration: { min: 0 }].  The other validators ([required] ids,
    [maxlength: 500]) are already enforced on the request by the route's
    Joi schema. *)
Definition validate (d : t) : option Exn :=
  if Z.ltb (duration d) 0 then Some (ValidationError "duration") else None.

(** [TimeEntrySchema.pre('save', ...)].  [now] is the hook's reading of
    [Date.now()].  The [description] path has the schema setter
    [trim: true], so trimming it again here is the identity on every
    stored description. *)
Definition pre_save (now : Z) (d : t) : t :=
  let d1 :=
    match endTime d with
    | Some e => set_isActive false (set_duration (e - startTime d) d)
    | None =>
        if isActive d then set_duration (now - startTime d) d else d
    end in
  set_description (option_map Js.trim (description d1)) d1.

Definition ids (c : list t) : list ObjectId := map _id c.

(** [collection.insertOne(doc)]. *)
Definition insertOne (d : t) (c : list t) : list t := c ++ [d].

(** [collection.updateOne({ _id: doc._id }, { $set: ... })]. *)
Definition updateOne (d : t) (c : list t) : list t :=
  map (fun x => if Nat.eqb (_id x) (_id d) then d else x) c.

(** [TimeEntry.findOne({ employeeId, isActive: true })]. *)
Definition findOneActive (employee : string) (c : list t) : option t :=
  find (fun x => String.eqb (employeeId x) employee && isActive x) c.

(** [TimeEntry.findOne({ _id, employeeId, isActive: true })]. *)
Definition findOneActiveById (id : ObjectId) (employee : string)
    (c : list t) : option t :=
  find (fun x => Nat.eqb (_id x) id && String.eqb (employeeId x) employee
                 && isActive x) c.

(** [TimeEntrySchema.statics.findActiveEntries]. *)
Definition findActiveEntries (employee : option string) (c : list t)
    : list t :=
  match Js.truthy employee with
  | Some e =>
      filter (fun x => isActive x && String.eqb (employeeId x) e) c
  | None => filter isActive c
  end.

End TimeEntry.

(** Instance methods and [save], on the [timeentries] collection.  A
    rejected [save] leaves the collection as it was. *)
Module TimeEntryMethods.
Import TimeEntry.

(** [doc.save()]: validation, then the pre-save hook, then the write
    ([insertOne] for a document made by [new TimeEntry], [updateOne] for
    one that was loaded). *)
Definition save (isNew : bool) (now : Z) (d : t) (c : list t)
    : (t + Exn) * list t :=
  match validate d with
  | Some e => (inr e, c)
  | None =>
      let d' := pre_save now d in
      (inl d', if isNew then insertOne d' c else updateOne d' c)
  end.

(** [TimeEntrySchema.methods.stop]: [endTime || new Date()]. *)
Definition stop (endTime : option Z) (now : Z) (d : t) (c : list t)
    : (t + Exn) * list t :=
  let e := Js.nullish endTime now in
  let d1 := set_endTime (Some e) d in
  let d2 := set_isActive false d1 in
  let d3 := set_duration (e - startTime d2) d2 in
  save false now d3 c.

(** [TimeEntrySchema.methods.addScreenshot]. *)
Definition addScreenshot (screenshotId : ObjectId) (now : Z) (d : t)
    (c : list t) : (t + Exn) * list t :=
  let d1 :=
    if has_id screenshotId (screenshots d) then d
    else set_screenshots (screenshots d ++ [screenshotId]) d in
  save false now d1 c.

(** [TimeEntrySchema.methods.updateDescription]. *)
Definition updateDescription (text : string) (now : Z) (d : t)
    (c : list t) : (t + Exn) * list t :=
  save false now (set_description (Some (Js.trim text)) d) c.

End TimeEntryMethods.

(** ** Server state and the handler monad *)

Inductive MailKind : Type := MailStart | MailStop | MailReminder.

Record Mail : Type := mkMail {
  mail_to : string;
  mail_name : string;
  mail_kind : MailKind;
  mail_sent : bool
}.

Record Server : Type := mkServer {
  timeentries : list TimeEntry.t;
  projects : list Project.t;
  tasks : list Task.t;
  employees : list Employee.t;
  screenshots : list Screenshot.t;
  outbox : list Mail
}.

Definition with_timeentries (c : list TimeEntry.t) (s : Server) : Server :=
  mkServer c (projects s) (tasks s) (employees s) (screenshots s) (outbox s).

Definition with_screenshots (c : list Screenshot.t) (s : Server) : Server :=
  mkServer (timeentries s) (projects s) (tasks s) (employees s) c (outbox s).

Definition with_outbox (o : list Mail) (s : Server) : Server :=
  mkServer (timeentries s) (projects s) (tasks s) (employees s)
           (screenshots s) o.

(** A handler body: it reads and writes the server state and either
    reaches its end with a value or leaves through [next].  Writes made
    before it leaves stay. *)
Definition Handler (A : Type) : Type := Server -> (A + Halt) * Server.

Definition ret {A : Type} (a : A) : Handler A := fun s => (inl a, s).

Definition bind {A B : Type} (m : Handler A) (k : A -> Handler B)
    : Handler B :=
  fun s =>
    match m s with
    | (inl a, s') => k a s'
    | (inr h, s') => (inr h, s')
    end.

Definition next {A : Type} (h : Halt) : Handler A := fun s => (inr h, s).

Definition createError (message : string) (statusCode : Z) : Halt :=
  NextError message statusCode.

Definition reads {A : Type} (f : Server -> A) : Handler A :=
  fun s => (inl (f s), s).

(** An awaited model method on the [timeentries] collection; a rejection
    is forwarded by [asyncHandler]. *)
Definition await_entries {A : Type}
    (f : list TimeEntry.t -> (A + Exn) * list TimeEntry.t) : Handler A :=
  fun s =>
    match f (timeentries s) with
    | (inl a, c) => (inl a, with_timeentries c s)
    | (inr e, c) => (inr (Uncaught e), with_timeentries c s)
    end.

Declare Scope handler_scope.
Delimit Scope handler_scope with handler.
Notation "x <- m ;; k" := (bind m (fun x => k))
  (at level 61, m at next level, right associativity) : handler_scope.
Notation "m ;;; k" := (bind m (fun _ => k))
  (at level 61, right associativity) : handler_scope.

(** ** The screenshot service ([src/services/screenshotService.ts]) *)

Definition Buffer : Type := list Byte.byte.

(** An awaited promise of the capture pipeline. *)
Inductive Attempt (A : Type) : Type :=
| Resolves (a : A)
| Rejects (e : Exn).

Arguments Resolves {A} a.
Arguments Rejects {A} e.

Definition and_then {A B : Type} (m : Attempt A) (k : A -> Attempt B)
    : Attempt B :=
  match m with
  | Resolves a => k a
  | Rejects e => Rejects e
  end.

(** [try { body } catch (error) { handler }]. *)
Definition try_catch {A : Type} (body : Attempt A) (handler : Exn -> A)
    : Attempt A :=
  match body with
  | Resolves a => Resolves a
  | Rejects e => Resolves (handler e)
  end.

(** What the operating system, [sharp], the file system and the
    [screenshots] collection answer during one capture. *)
Record CaptureEnv : Type := mkCaptureEnv {
  grab : Attempt Buffer;
  sharp_resize : Attempt Buffer;
  writeFile : Attempt unit;
  sharp_thumbnail : Attempt unit;
  stat_size : Attempt Z;
  sharp_metadata : Attempt (option Z * option Z);
  record_save : Attempt unit;
  capture_clock : Z
}.

Module ScreenshotService.

(** [processScreenshot]: the original image when processing fails. *)
Definition processScreenshot (env : CaptureEnv) (img : Buffer)
    : Attempt Buffer :=
  try_catch (sharp_resize env) (fun _ => img).

(** [createThumbnail]: failures are logged. *)
Definition createThumbnail (env : CaptureEnv) : Attempt unit :=
  try_catch (sharp_thumbnail env) (fun _ => tt).

Definition dimension (v : option Z) : Z :=
  Js.or_default (Js.nullish v 0) 0.

(** The body of the [try] block of [captureScreenshot]: the record to
    insert, when every awaited step resolves. *)
Definition capture_body (env : CaptureEnv) (employeeId : string)
    (timeEntryId : ObjectId) (projectId taskId : string)
    (existing : list Screenshot.t) : Attempt Screenshot.t :=
  and_then (grab env) (fun img =>
  and_then (processScreenshot env img) (fun processedImg =>
  and_then (writeFile env) (fun _ =>
  and_then (createThumbnail env) (fun _ =>
  and_then (stat_size env) (fun size =>
  and_then (sharp_metadata env) (fun imageInfo =>
  let screenshotRecord :=
    Screenshot.mk (fresh_id (map Screenshot._id existing))
      employeeId timeEntryId projectId taskId size
      (dimension (fst imageInfo)) (dimension (snd imageInfo))
      true (capture_clock env) in
  and_then (record_save env) (fun _ =>
  Resolves screenshotRecord))))))).

(** [captureScreenshot]: the [try] block, with [catch] returning
    [null]; the record is in the collection when its [save] resolved. *)
Definition captureScreenshot (env : CaptureEnv) (employeeId : string)
    (timeEntryId : ObjectId) (projectId taskId : string)
    (existing : list Screenshot.t)
    : Attempt (option ObjectId) * list Screenshot.t :=
  let body :=
    capture_body env employeeId timeEntryId projectId taskId existing in
  (try_catch
     (and_then body (fun r => Resolves (Some (Screenshot._id r))))
     (fun _ => None),
   match body with
   | Resolves r => existing ++ [r]
   | Rejects _ => existing
   end).

End ScreenshotService.

(** ** The controller ([src/controllers/timeTrackingController.ts]) *)

Module StartTimeTrackingRequest.
Record t : Type := mk {
  userId : option string;
  projectId : string;
  taskId : string;
  description : option string
}.
End StartTimeTrackingRequest.

Module StopTimeTrackingRequest.
Record t : Type := mk {
  userId : option string;
  timeEntryId : ObjectId;
  description : option string
}.
End StopTimeTrackingRequest.

(** What one run of [startTimeTracking] reads from outside the database:
    the clock at [new Date()], at the pre-save hook of the first [save] and
    at the one of [addScreenshot]; the probed device; the capture pipeline;
    whether the mail transport delivers. *)
Record StartEnv : Type := mkStartEnv {
  at_new : Z;
  at_save : Z;
  at_addScreenshot : Z;
  device : DeviceInfo;
  capture : CaptureEnv;
  smtp : bool
}.

Local Open Scope handler_scope.

(** [emailService.sendTimeTrackingNotification]: it catches its own
    failures and resolves to whether the mail was sent. *)
Definition sendTimeTrackingNotification (delivers : bool) (kind : MailKind)
    (e : Employee.t) : Handler bool :=
  fun s =>
    (inl delivers,
     with_outbox
       (outbox s ++ [mkMail (Employee.email e) (Employee.name e) kind
                       delivers]) s).

Definition notify (delivers : bool) (kind : MailKind) (employeeId : string)
    : Handler unit :=
  employee <- reads (fun s => Employee.findById employeeId (employees s)) ;;
  match employee with
  | Some e => sendTimeTrackingNotification delivers kind e ;;; ret tt
  | None => ret tt
  end.

(** The awaited [screenshotService.captureScreenshot]. *)
Definition await_capture (env : CaptureEnv) (employeeId : string)
    (timeEntryId : ObjectId) (projectId taskId : string)
    : Handler (option ObjectId) :=
  fun s =>
    match ScreenshotService.captureScreenshot env employeeId timeEntryId
            projectId taskId (screenshots s) with
    | (Resolves r, c) => (inl r, with_screenshots c s)
    | (Rejects e, c) => (inr (Uncaught e), with_screenshots c s)
    end.

(** [project.screenshotSettings.interval || 300000]. *)
Definition start_interval (st : ScreenshotSettings) : Z :=
  Js.or_default (interval st) 300000.

(** What [startTimeTracking] holds once its checks have passed. *)
Record Cleared : Type := mkCleared {
  cleared_employee : string;
  cleared_project : Project.t;
  cleared_task : Task.t
}.

(** [startTimeTracking], from the token to the last membership check. *)
Definition start_checks (req : StartTimeTrackingRequest.t)
    : Handler Cleared :=
  let projectId := StartTimeTrackingRequest.projectId req in
  let taskId := StartTimeTrackingRequest.taskId req in
  match Js.truthy (StartTimeTrackingRequest.userId req) with
  | None => next (createError "Employee ID not found in token" 401)
  | Some employeeId =>
  activeEntry <-
    reads (fun s => TimeEntry.findOneActive employeeId (timeentries s)) ;;
  match activeEntry with
  | Some _ =>
      next (createError "Employee already has an active time entry" 400)
  | None =>
  project <- reads (fun s => Project.findById projectId (projects s)) ;;
  match project with
  | None => next (createError "Project not found" 404)
  | Some project =>
  if negb (Js.includes employeeId (Project.employees project))
  then next (createError "Employee not assigned to project" 403)
  else
  task <- reads (fun s => Task.findById taskId (tasks s)) ;;
  match task with
  | None => next (createError "Task not found" 404)
  | Some task =>
  if negb (Js.includes employeeId (Task.employees task))
  then next (createError "Employee not assigned to task" 403)
  else ret (mkCleared employeeId project task)
  end end end end.

(** [startTimeTracking], the block under "Start screenshot capture if
    enabled": one capture, appended to the entry when it produced an id. *)
Definition capture_if_enabled (env : StartEnv)
    (req : StartTimeTrackingRequest.t) (c : Cleared)
    (timeEntry : TimeEntry.t) : Handler TimeEntry.t :=
  match Project.screenshotSettings (cleared_project c) with
  | Some settings =>
      if screenshotEnabled settings then
        let interval := start_interval settings in
        screenshotId <-
          await_capture (capture env) (cleared_employee c)
            (TimeEntry._id timeEntry)
            (StartTimeTrackingRequest.projectId req)
            (StartTimeTrackingRequest.taskId req) ;;
        match screenshotId with
        | Some sid =>
            await_entries
              (TimeEntryMethods.addScreenshot sid (at_addScreenshot env)
                 timeEntry)
        | None => ret timeEntry
        end
      else ret timeEntry
  | None => ret timeEntry
  end.

(** [new TimeEntry({ ... })] with the ObjectId [oid]. *)
Definition new_entry (env : StartEnv) (req : StartTimeTrackingRequest.t)
    (c : Cleared) (oid : ObjectId) : TimeEntry.t :=
  TimeEntry.mk oid (cleared_employee c)
    (StartTimeTrackingRequest.projectId req)
    (StartTimeTrackingRequest.taskId req) (at_new env) None 0
    (StartTimeTrackingRequest.description req) true [] (device env).

(** [startTimeTracking], from the device probe to the response. *)
Definition start_create (env : StartEnv) (req : StartTimeTrackingRequest.t)
    (c : Cleared) : Handler (ApiResponse TimeEntry.t) :=
  oid <- reads (fun s => fresh_id (TimeEntry.ids (timeentries s))) ;;
  timeEntry <-
    await_entries
      (TimeEntryMethods.save true (at_save env) (new_entry env req c oid)) ;;
  timeEntry <- capture_if_enabled env req c timeEntry ;;
  notify (smtp env) MailStart (cleared_employee c) ;;;
  ret (mkResponse 201 timeEntry (Some "Time tracking started successfully")).

(** [POST /api/v1/time-tracking/start]. *)
Definition startTimeTracking (env : StartEnv)
    (req : StartTimeTrackingRequest.t)
    : Handler (ApiResponse TimeEntry.t) :=
  c <- start_checks req ;;
  start_create env req c.

(** [POST /api/v1/time-tracking/stop].  [now] is the [new Date()] of
    [TimeEntry.stop]. *)
Definition stopTimeTracking (now : Z) (delivers : bool)
    (req : StopTimeTrackingRequest.t)
    : Handler (ApiResponse TimeEntry.t) :=
  match Js.truthy (StopTimeTrackingRequest.userId req) with
  | None => next (createError "Employee ID not found in token" 401)
  | Some employeeId =>
  timeEntry <-
    reads (fun s =>
      TimeEntry.findOneActiveById (StopTimeTrackingRequest.timeEntryId req)
        employeeId (timeentries s)) ;;
  match timeEntry with
  | None => next (createError "Active time entry not found" 404)
  | Some timeEntry =>
  timeEntry <- await_entries (TimeEntryMethods.stop None now timeEntry) ;;
  timeEntry <-
    (match Js.truthy (StopTimeTrackingRequest.description req) with
     | Some text =>
         await_entries (TimeEntryMethods.updateDescription text now timeEntry)
     | None => ret timeEntry
     end) ;;
  notify delivers MailStop employeeId ;;;
  ret (mkResponse 200 timeEntry (Some "Time tracking stopped successfully"))
  end end.

(** [GET /api/v1/time-tracking/active]: the response carries the result of
    the first query. *)
Definition getActiveTimeEntries (userId : option string)
    : Handler (ApiResponse (list TimeEntry.t)) :=
  match Js.truthy userId with
  | None => next (createError "Employee ID not found in token" 401)
  | Some employeeId =>
  timeEntries <-
    reads (fun s =>
      TimeEntry.findActiveEntries (Some employeeId) (timeentries s)) ;;
  ret (mkResponse 200 timeEntries None)
  end.

Local Close Scope handler_scope.

(** ** The desktop agent ([desktop/src/services/TimeTrackingService.ts]) *)

(** What [ApiService] gives back: [response.data.data], or the message of
    the [Error] it throws. *)
Definition ApiResult (A : Type) : Type := (A + string)%type.

(** [ApiService] over the server's handler: axios rejects every reply that
    is not a 2xx, and [ApiService] rethrows it with the reply's message. *)
Definition api_of_reply {A : Type} (fallback : string)
    (r : ApiResponse A + Halt) : ApiResult A :=
  match r with
  | inl resp => inl (data resp)
  | inr (NextError m _) => inr m
  | inr (Uncaught _) => inr fallback
  end.

(** [StoreSchema.settings]; a stored object may lack the key. *)
Module Settings.
Record t : Type := mk {
  screenshotInterval : option Z
}.
End Settings.

(** The keys of the [electron-store] file that the service reads. *)
Record StoreService : Type := mkStore {
  auth_token : option string;
  activeTimeEntry : option TimeEntry.t;
  settings : option Settings.t
}.

(** A live [setInterval] handle and the delay it was created with. *)
Record Timeout : Type := mkTimeout { delay : Z }.

Inductive UpdateType : Type := started | stopped.

(** What the service does that is seen from outside. *)
Inductive AgentEvent : Type :=
| ApiStartTimeTracking
| ApiStopTimeTracking (timeEntryId : ObjectId)
| ApiGetActiveTimeEntry
| CaptureBegins (timeEntryId : ObjectId)
| ApiUploadScreenshot (timeEntryId : ObjectId)
| EmitTimeTrackingUpdate (type : UpdateType)
| EmitScreenshotCaptured (timeEntryId : ObjectId).

Module TimeTrackingService.

Record t : Type := mk {
  activeEntry : option TimeEntry.t;
  screenshotInterval : option Timeout;
  isInitialized : bool;
  storeService : StoreService;
  trace : list AgentEvent
}.

Definition set_activeEntry (v : option TimeEntry.t) (a : t) : t :=
  mk v (screenshotInterval a) (isInitialized a) (storeService a) (trace a).

Definition set_screenshotInterval (v : option Timeout) (a : t) : t :=
  mk (activeEntry a) v (isInitialized a) (storeService a) (trace a).

Definition set_isInitialized (v : bool) (a : t) : t :=
  mk (activeEntry a) (screenshotInterval a) v (storeService a) (trace a).

Definition set_storeService (v : StoreService) (a : t) : t :=
  mk (activeEntry a) (screenshotInterval a) (isInitialized a) v (trace a).

Definition emit (e : AgentEvent) (a : t) : t :=
  mk (activeEntry a) (screenshotInterval a) (isInitialized a)
     (storeService a) (trace a ++ [e]).

(** [storeService.set('activeTimeEntry', v)] and
    [storeService.delete('activeTimeEntry')] (back to the default,
    [null]). *)
Definition store_activeTimeEntry (v : option TimeEntry.t) (a : t) : t :=
  set_storeService
    (mkStore (auth_token (storeService a)) v (settings (storeService a)))
    a.

(** [this.activeEntry && this.activeEntry.isActive]. *)
Definition entry_is_active (e : option TimeEntry.t) : bool :=
  match e with
  | Some x => TimeEntry.isActive x
  | None => false
  end.

(** [settings?.screenshotInterval ?? 300000]. *)
Definition capture_interval (s : StoreService) : Z :=
  Js.nullish
    (match settings s with
     | Some st => Settings.screenshotInterval st
     | None => None
     end)
    300000.

(** [startScreenshotCapture]. *)
Definition startScreenshotCapture (a : t) : t :=
  match screenshotInterval a with
  | Some _ => a
  | None =>
      set_screenshotInterval
        (Some (mkTimeout (capture_interval (storeService a)))) a
  end.

(** [stopScreenshotCapture]: [clearInterval]. *)
Definition stopScreenshotCapture (a : t) : t :=
  match screenshotInterval a with
  | Some _ => set_screenshotInterval None a
  | None => a
  end.

(** [initialize]. *)
Definition initialize (a : t) : t :=
  if isInitialized a then a
  else
    let a1 :=
      match Js.truthy (auth_token (storeService a)) with
      | Some _ =>
          let a' :=
            set_activeEntry (activeTimeEntry (storeService a)) a in
          if entry_is_active (activeEntry a')
          then startScreenshotCapture a'
          else a'
      | None => a
      end in
    set_isInitialized true a1.

(** [startTracking]; [api] is the outcome of
    [apiService.startTimeTracking(data)]. *)
Definition startTracking (api : ApiResult TimeEntry.t) (a : t)
    : (TimeEntry.t + string) * t :=
  match activeEntry a with
  | Some _ => (inr "Time tracking is already active", a)
  | None =>
      let a0 := emit ApiStartTimeTracking a in
      match api with
      | inr msg => (inr msg, a0)
      | inl entry =>
          let a1 := set_activeEntry (Some entry) a0 in
          let a2 := store_activeTimeEntry (activeEntry a1) a1 in
          let a3 := startScreenshotCapture a2 in
          let a4 := emit (EmitTimeTrackingUpdate started) a3 in
          (inl entry, a4)
      end
  end.

(** [stopTracking]; [api] is the outcome of
    [apiService.stopTimeTracking(timeEntryId)]. *)
Definition stopTracking (api : ApiResult TimeEntry.t)
    (timeEntryId : ObjectId) (a : t) : (TimeEntry.t + string) * t :=
  match activeEntry a with
  | None => (inr "No active time entry found", a)
  | Some current =>
      if negb (Nat.eqb (TimeEntry._id current) timeEntryId)
      then (inr "No active time entry found", a)
      else
        let a0 := emit (ApiStopTimeTracking timeEntryId) a in
        match api with
        | inr msg => (inr msg, a0)
        | inl entry =>
            let a1 := set_activeEntry (Some entry) a0 in
            let a2 := stopScreenshotCapture a1 in
            let a3 := store_activeTimeEntry None a2 in
            let a4 := emit (EmitTimeTrackingUpdate stopped) a3 in
            let stoppedEntry := entry in
            (inl stoppedEntry, set_activeEntry None a4)
        end
  end.

(** [getActiveEntry]; [api] is the outcome of
    [apiService.getActiveTimeEntry()]. *)
Definition getActiveEntry (api : ApiResult (list TimeEntry.t)) (a : t)
    : (option TimeEntry.t + string) * t :=
  match activeEntry a with
  | Some e => (inl (Some e), a)
  | None =>
      let a0 := emit ApiGetActiveTimeEntry a in
      match api with
      | inr msg => (inr msg, a0)
      | inl entries =>
          let a1 := set_activeEntry (Js.first_or_null entries) a0 in
          (inl (activeEntry a1), a1)
      end
  end.

(** The private [captureScreenshot]: [shot] is what the desktop
    [ScreenshotService.captureScreenshot] resolves to ([null] on
    failure). *)
Definition captureScreenshot (shot : option Buffer) (a : t) : t :=
  match activeEntry a with
  | None => a
  | Some e =>
      let a1 := emit (CaptureBegins (TimeEntry._id e)) a in
      match shot with
      | Some _ =>
          emit (EmitScreenshotCaptured (TimeEntry._id e))
            (emit (ApiUploadScreenshot (TimeEntry._id e)) a1)
      | None => a1
      end
  end.

(** The callback given to [setInterval]. *)
Definition interval_callback (shot : option Buffer) (a : t) : t :=
  if entry_is_active (activeEntry a) then captureScreenshot shot a else a.

(** The event loop runs the callback of a handle that is still live. *)
Definition timer_fires (shot : option Buffer) (a : t) : t :=
  match screenshotInterval a with
  | Some _ => interval_callback shot a
  | None => a
  end.

(** [cleanup]. *)
Definition cleanup (a : t) : t := stopScreenshotCapture a.

(** [get trackingDuration]; [now] is [Date.now()].  The entry's
    [startTime] arrives as the ISO string of the server's date, and
    [new Date(s).getTime()] gives back its milliseconds. *)
Definition trackingDuration (now : Z) (a : t) : Z :=
  match activeEntry a with
  | None => 0
  | Some e =>
      if negb (TimeEntry.isActive e) then 0
      else now - TimeEntry.startTime e
  end.

(** [get isTracking]. *)
Definition isTracking (a : t) : bool := entry_is_active (activeEntry a).

End TimeTrackingService.

(** The conditions under which the checks pass. *)
Record checks_pass (req : StartTimeTrackingRequest.t) (s : Server)
    (cl : Cleared) : Prop := mkChecksPass {
  pass_token :
    Js.truthy (StartTimeTrackingRequest.userId req)
    = Some (cleared_employee cl);
  pass_idle :
    TimeEntry.findOneActive (cleared_employee cl) (timeentries s) = None;
  pass_project :
    Project.findById (StartTimeTrackingRequest.projectId req) (projects s)
    = Some (cleared_project cl);
  pass_project_member :
    Js.includes (cleared_employee cl)
      (Project.employees (cleared_project cl)) = true;
  pass_task :
    Task.findById (StartTimeTrackingRequest.taskId req) (tasks s)
    = Some (cleared_task cl);
  pass_task_member :
    Js.includes (cleared_employee cl) (Task.employees (cleared_task cl))
    = true
}.

(** The entry that a start has put into the collection. *)
Record created (env : StartEnv) (req : StartTimeTrackingRequest.t)
    (cl : Cleared) (s : Server) (d : TimeEntry.t) : Prop := mkCreated {
  created_id : TimeEntry._id d = fresh_id (TimeEntry.ids (timeentries s));
  created_employee : TimeEntry.employeeId d = cleared_employee cl;
  created_project :
    TimeEntry.projectId d = StartTimeTrackingRequest.projectId req;
  created_task : TimeEntry.taskId d = StartTimeTrackingRequest.taskId req;
  created_start : TimeEntry.startTime d = at_new env;
  created_end : TimeEntry.endTime d = None;
  created_active : TimeEntry.isActive d = true;
  created_shots : (List.length (TimeEntry.screenshots d) <= 1)%nat
}.

(** The entry [d] is [x] after [stop] at time [now]. *)
Record stopped_from (x : TimeEntry.t) (now : Z) (d : TimeEntry.t)
    : Prop := mkStoppedFrom {
  stopped_id : TimeEntry._id d = TimeEntry._id x;
  stopped_employee : TimeEntry.employeeId d = TimeEntry.employeeId x;
  stopped_project : TimeEntry.projectId d = TimeEntry.projectId x;
  stopped_task : TimeEntry.taskId d = TimeEntry.taskId x;
  stopped_start : TimeEntry.startTime d = TimeEntry.startTime x;
  stopped_end : TimeEntry.endTime d = Some now;
  stopped_duration : TimeEntry.duration d = now - TimeEntry.startTime x;
  stopped_inactive : TimeEntry.isActive d = false;
  stopped_shots : TimeEntry.screenshots d = TimeEntry.screenshots x
}.

(** The collection holds session [id], and every document with that id
    has the start time [t0]. *)
Definition session_known (id : ObjectId) (t0 : Z) (s : Server) : Prop :=
  (exists x, In x (timeentries s) /\ TimeEntry._id x = id)
  /\ (forall x, In x (timeentries s) -> TimeEntry._id x = id ->
        TimeEntry.startTime x = t0).

Ltac run_handler :=
  unfold bind, reads, next, ret, createError in *; simpl in *.

(** ** Indexes of the [timeentries] collection

    [TimeEntrySchema.index(...)] in the model file and
    [db.timeentries.createIndex(...)] in the database initialisation
    script.  No call passes [{ unique: true }], so [insertOne] is never
    refused for a duplicate key. *)

Record IndexSpec : Type := mkIndex {
  index_keys : list string;
  index_unique : bool
}.

Definition timeentries_indexes : list IndexSpec :=
  [ mkIndex ["employeeId"] false;
    mkIndex ["projectId"] false;
    mkIndex ["taskId"] false;
    mkIndex ["startTime"] false;
    mkIndex ["endTime"] false;
    mkIndex ["isActive"] false;
    mkIndex ["createdAt"] false;
    mkIndex ["employeeId"; "startTime"] false;
    mkIndex ["projectId"; "startTime"] false;
    mkIndex ["taskId"; "startTime"] false;
    mkIndex ["employeeId"; "isActive"] false ].

(** ** Sequences of requests *)

(** The active entries of one employee. *)
Definition active_of (employee : string) (c : list TimeEntry.t)
    : list TimeEntry.t :=
  filter
    (fun x => TimeEntry.isActive x
              && String.eqb (TimeEntry.employeeId x) employee) c.

(** At most one active entry per employee. *)
Definition unique_active (s : Server) : Prop :=
  forall employee : string,
    (List.length (active_of employee (timeentries s)) <= 1)%nat.

Inductive Request : Type :=
| PostStart (env : StartEnv) (req : StartTimeTrackingRequest.t)
| PostStop (now : Z) (delivers : bool) (req : StopTimeTrackingRequest.t)
| GetActive (userId : option string).

(** The server state after one request has been served to its end. *)
Definition serve (r : Request) (s : Server) : Server :=
  match r with
  | PostStart env req => snd (startTimeTracking env req s)
  | PostStop now delivers req => snd (stopTimeTracking now delivers req s)
  | GetActive userId => snd (getActiveTimeEntries userId s)
  end.

Definition serve_all (rs : list Request) (s : Server) : Server :=
  fold_left (fun acc r => serve r acc) rs s.

(** Start requests served one after the other, with their replies. *)
Fixpoint start_each (calls : list (StartEnv * StartTimeTrackingRequest.t))
    (s : Server) : list (ApiResponse TimeEntry.t + Halt) * Server :=
  match calls with
  | [] => ([], s)
  | (env, req) :: rest =>
      let (r, s1) := startTimeTracking env req s in
      let (rs, s2) := start_each rest s1 in
      (r :: rs, s2)
  end.

Definition conflict : ApiResponse TimeEntry.t + Halt :=
  inr (NextError "Employee already has an active time entry" 400).

(** After the first reply that is a success, every later reply is the
    conflict error. *)
Fixpoint later_calls_conflict (rs : list (ApiResponse TimeEntry.t + Halt))
    : Prop :=
  match rs with
  | [] => True
  | inl _ :: rest => Forall (fun r => r = conflict) rest
  | inr _ :: rest => later_calls_conflict rest
  end.

(** Every call carries the token of [employee]. *)
Definition all_from (employee : string)
    (calls : list (StartEnv * StartTimeTrackingRequest.t)) : Prop :=
  Forall
    (fun c => Js.truthy (StartTimeTrackingRequest.userId (snd c))
              = Some employee) calls.

(** ** Interleaved start requests

    Node runs one handler at a time and switches between handlers at their
    [await]s.  The [timeentries] collection is read by the first [await] of
    [startTimeTracking] and written by its [save]; a call is suspended
    either before its checks or between its checks and its [save]. *)

Module Interleaving.

Inductive Call : Type :=
| Checking (env : StartEnv) (req : StartTimeTrackingRequest.t)
| Creating (env : StartEnv) (req : StartTimeTrackingRequest.t)
           (c : Cleared)
| Replied (r : ApiResponse TimeEntry.t + Halt).

(** The call runs up to its next suspension. *)
Definition advance (c : Call) (s : Server) : Call * Server :=
  match c with
  | Checking env req =>
      match start_checks req s with
      | (inl cl, s') => (Creating env req cl, s')
      | (inr h, s') => (Replied (inr h), s')
      end
  | Creating env req cl =>
      let (r, s') := start_create env req cl s in (Replied r, s')
  | Replied r => (Replied r, s)
  end.

Fixpoint advance_nth (i : nat) (pool : list Call) (s : Server)
    : list Call * Server :=
  match pool, i with
  | [], _ => ([], s)
  | c :: rest, O => let (c', s') := advance c s in (c' :: rest, s')
  | c :: rest, S j =>
      let (rest', s') := advance_nth j rest s in (c :: rest', s')
  end.

(** The scheduler resumes the calls in the order of [schedule]. *)
Fixpoint run (schedule : list nat) (pool : list Call) (s : Server)
    : list Call * Server :=
  match schedule with
  | [] => (pool, s)
  | i :: rest =>
      let (pool', s') := advance_nth i pool s in run rest pool' s'
  end.

(** Every call runs from its checks to its reply before the next one
    starts. *)
Fixpoint serial (first count : nat) : list nat :=
  match count with
  | O => []
  | S k => first :: first :: serial (S first) k
  end.

Definition arrive (calls : list (StartEnv * StartTimeTrackingRequest.t))
    : list Call :=
  map (fun c => Checking (fst c) (snd c)) calls.

End Interleaving.

(** ** Sequences of agent operations *)

Inductive AgentOp : Type :=
| OpInitialize
| OpStartTracking (api : ApiResult TimeEntry.t)
| OpStopTracking (api : ApiResult TimeEntry.t) (timeEntryId : ObjectId)
| OpGetActiveEntry (api : ApiResult (list TimeEntry.t))
| OpTimerFires (shot : option Buffer)
| OpLateCallback (shot : option Buffer)
| OpCleanup.

Definition perform (op : AgentOp) (a : TimeTrackingService.t)
    : TimeTrackingService.t :=
  match op with
  | OpInitialize => TimeTrackingService.initialize a
  | OpStartTracking api => snd (TimeTrackingService.startTracking api a)
  | OpStopTracking api id => snd (TimeTrackingService.stopTracking api id a)
  | OpGetActiveEntry api => snd (TimeTrackingService.getActiveEntry api a)
  | OpTimerFires shot => TimeTrackingService.timer_fires shot a
  | OpLateCallback shot => TimeTrackingService.interval_callback shot a
  | OpCleanup => TimeTrackingService.cleanup a
  end.

Definition perform_all (ops : list AgentOp) (a : TimeTrackingService.t)
    : TimeTrackingService.t :=
  fold_left (fun acc op => perform op acc) ops a.

(** The entry is not session [x] in the active state. *)
Definition not_active_as (x : ObjectId) (e : TimeEntry.t) : bool :=
  negb (Nat.eqb (TimeEntry._id e) x && TimeEntry.isActive e).

(** No reply of the server carried by [op] shows session [x] as active:
    the server never sets [isActive] back to [true]. *)
Definition server_keeps_stopped (x : ObjectId) (op : AgentOp) : bool :=
  match op with
  | OpStartTracking (inl e) => not_active_as x e
  | OpStopTracking (inl e) _ => not_active_as x e
  | OpGetActiveEntry (inl es) => forallb (not_active_as x) es
  | _ => true
  end.

(** The capture attempts of the trace that are for session [x]. *)
Definition begins_for (x : ObjectId) (tr : list AgentEvent) : list AgentEvent :=
  filter
    (fun ev => match ev with
               | CaptureBegins y => Nat.eqb y x
               | _ => false
               end) tr.

(** Neither the service's memory nor its store shows session [x] as
    active. *)
Definition forgotten (x : ObjectId) (a : TimeTrackingService.t) : Prop :=
  (forall e, TimeTrackingService.activeEntry a = Some e ->
             not_active_as x e = true)
  /\ (forall e,
        activeTimeEntry (TimeTrackingService.storeService a) = Some e ->
        not_active_as x e = true).

(** The capture pipeline of [env] fails, whatever it is asked to
    capture. *)
Definition capture_fails (env : CaptureEnv) : Prop :=
  forall (e : string) (id : ObjectId) (p k : string)
         (c : list Screenshot.t),
    ScreenshotService.captureScreenshot env e id p k c = (Resolves None, c).

Ltac quiet_trace :=
  unfold begins_for; simpl; rewrite ?filter_app; simpl;
  rewrite ?app_nil_r; try reflexivity.

(** ** A small installation, for concrete runs *)

Module Sample.

Definition laptop : DeviceInfo :=
  mkDeviceInfo "10.0.0.5" "aa:bb:cc:dd:ee:ff" "Mozilla/5.0" "linux"
    "Linux" "6.1" None None "1920x1080" "UTC" "en-US".

Definition every_two_minutes : ScreenshotSettings :=
  mkScreenshotSettings true 120000 80 "1920x1080".

Definition alpha : Project.t :=
  Project.mk "alpha" "Alpha" ["ann"] (Some every_two_minutes).

Definition beta : Project.t :=
  Project.mk "beta" "Beta" ["ann"; "bob"] None.

Definition design : Task.t := Task.mk "design" "Design" "alpha" ["ann"].

Definition audit : Task.t := Task.mk "audit" "Audit" "beta" ["ann"].

Definition ann : Employee.t := Employee.mk "ann" "ann@example.org" "Ann".

Definition bob : Employee.t := Employee.mk "bob" "bob@example.org" "Bob".

Definition office : Server :=
  mkServer [] [alpha; beta] [design; audit] [ann; bob] [] [].

Definition png : Buffer := [Byte.x89; Byte.x50; Byte.x4e; Byte.x47].

Definition camera : CaptureEnv :=
  mkCaptureEnv (Resolves png) (Resolves png) (Resolves tt) (Resolves tt)
    (Resolves 4) (Resolves (Some 1920, Some 1080)) (Resolves tt) 0.

Definition no_display : CaptureEnv :=
  mkCaptureEnv (Rejects (CaptureFailure "screenshot-desktop"))
    (Resolves png) (Resolves tt) (Resolves tt) (Resolves 4)
    (Resolves (Some 1920, Some 1080)) (Resolves tt) 0.

(** A run of [startTimeTracking] whose clock readings are all [t]. *)
Definition at_time (t : Z) (cam : CaptureEnv) : StartEnv :=
  mkStartEnv t t t laptop cam true.

Definition ann_starts (projectId taskId : string)
    : StartTimeTrackingRequest.t :=
  StartTimeTrackingRequest.mk (Some "ann") projectId taskId None.

Definition ann_stops (timeEntryId : ObjectId)
    : StopTimeTrackingRequest.t :=
  StopTimeTrackingRequest.mk (Some "ann") timeEntryId None.

(** Two starts of Ann arrive together; the second one runs its checks
    before the first one has saved its entry. *)
Definition race : list Interleaving.Call * Server :=
  Interleaving.run [0; 1; 0; 1]%nat
    (Interleaving.arrive
       [(at_time 0 no_display, ann_starts "alpha" "design");
        (at_time 1 no_display, ann_starts "alpha" "design")])
    office.

(** Two starts of Ann for different tasks overlap: the second one runs
    from its checks to its reply while the first one is suspended between
    its checks and its save. *)
Definition overlap : list Interleaving.Call * Server :=
  Interleaving.run [0; 1; 1; 0]%nat
    (Interleaving.arrive
       [(at_time 0 camera, ann_starts "alpha" "design");
        (at_time 1 camera, ann_starts "beta" "audit")])
    office.

(** Ann is tracking "design" since time 0. *)
Definition tracking : Server :=
  snd (startTimeTracking (at_time 0 camera) (ann_starts "alpha" "design")
         office).

(** Ann has stopped that session at time 125000. *)
Definition finished : Server :=
  snd (stopTimeTracking 125000 true (ann_stops 1%nat) tracking).

(** The session as the server returned it to the agent at time 0. *)
Definition session : option TimeEntry.t :=
  Js.first_or_null (timeentries tracking).

(** An agent that has just been installed and logged in. *)
Definition fresh_agent : TimeTrackingService.t :=
  TimeTrackingService.mk None None false
    (mkStore (Some "jwt") None (Some (Settings.mk (Some 300000)))) [].

(** The agent process comes up again with the session still in its
    store; meanwhile the session was stopped from another client. *)
Definition restarted_agent : TimeTrackingService.t :=
  TimeTrackingService.mk None None false
    (mkStore (Some "jwt") session (Some (Settings.mk (Some 300000)))) [].

(** An agent whose stored settings ask for a capture every 30 seconds. *)
Definition impatient_agent : TimeTrackingService.t :=
  TimeTrackingService.mk None None true
    (mkStore (Some "jwt") None (Some (Settings.mk (Some 30000)))) [].

(** The agent of Ann while the session of [tracking] runs. *)
Definition tracking_agent : TimeTrackingService.t :=
  snd (TimeTrackingService.startTracking
         (api_of_reply "Failed to start time tracking"
            (fst (startTimeTracking (at_time 0 camera)
                    (ann_starts "alpha" "design") office)))
         fresh_agent).

End Sample.

(** * Further parts of the code *)

(** ** Virtuals, statics and methods of the TimeEntry model *)

Module TimeEntryExtra.







(** [TimeEntrySchema.methods.removeScreenshot]. *)
Definition removeScreenshot (screenshotId : ObjectId) (now : Z)
    (d : TimeEntry.t) (c : list TimeEntry.t)
    : (TimeEntry.t + Exn) * list TimeEntry.t :=
  TimeEntryMethods.save false now
    (TimeEntry.set_screenshots
       (filter (fun id => negb (Nat.eqb id screenshotId))
          (TimeEntry.screenshots d)) d) c.

(** [{ startTime: { $gte: startDate, $lte: endDate } }]. *)
Definition started_within (startDate endDate : Z) (x : TimeEntry.t) : bool :=
  (startDate <=? TimeEntry.startTime x) && (TimeEntry.startTime x <=? endDate).

(** [TimeEntrySchema.statics.findByEmployee]: the range applies only when
    both dates are given. *)
Definition findByEmployee (employeeId : string) (startDate endDate : option Z)
    (c : list TimeEntry.t) : list TimeEntry.t :=
  match startDate, endDate with
  | Some lo, Some hi =>
      filter
        (fun x => String.eqb (TimeEntry.employeeId x) employeeId
                  && started_within lo hi x) c
  | _, _ =>
      filter (fun x => String.eqb (TimeEntry.employeeId x) employeeId) c
  end.

End TimeEntryExtra.


(** ** More of the controller *)

Record Pagination : Type := mkPagination {
  page : Z;
  limit : Z;
  total : Z;
  pages : Z
}.

Record PagedResponse (A : Type) : Type := mkPaged {
  paged_data : A;
  pagination : Pagination
}.

(** [Math.ceil(total / limit)] on a count and a limit that the route's
    schema keeps between 1 and 100. *)
Definition ceil_div (total limit : Z) : Z := - ((- total) / limit).

(** [GET /api/v1/time-tracking/employee/:employeeId].  [page] and [limit]
    default to 1 and 10.  The sorted, skipped and limited second query is
    awaited but its result is not part of the response. *)
Definition getEmployeeTimeEntries (employeeId : string)
    (startDate endDate page limit : option Z)
    : Handler (PagedResponse (list TimeEntry.t)) :=
  fun s =>
    let page := Js.nullish page 1 in
    let limit := Js.nullish limit 10 in
    let timeEntries :=
      TimeEntryExtra.findByEmployee employeeId startDate endDate
        (timeentries s) in
    let total :=
      Z.of_nat
        (List.length
           (TimeEntryExtra.findByEmployee employeeId startDate endDate
              (timeentries s))) in
    (inl (mkPaged timeEntries
            (mkPagination page limit total (ceil_div total limit))), s).

(** ** Membership methods of the Project and Task models *)

Definition with_projects (c : list Project.t) (s : Server) : Server :=
  mkServer (timeentries s) c (tasks s) (employees s) (screenshots s)
           (outbox s).

Definition with_tasks (c : list Task.t) (s : Server) : Server :=
  mkServer (timeentries s) (projects s) c (employees s) (screenshots s)
           (outbox s).

Module ProjectMethods.

Definition set_employees (v : list string) (p : Project.t) : Project.t :=
  Project.mk (Project._id p) (Project.name p) v
    (Project.screenshotSettings p).

(** [this.save()] of a loaded project: the stored fields are left as
    they are apart from the one that was assigned. *)
Definition save (p : Project.t) (c : list Project.t) : list Project.t :=
  map (fun x => if String.eqb (Project._id x) (Project._id p) then p else x)
    c.

(** [ProjectSchema.methods.addEmployee]. *)
Definition addEmployee (employeeId : string) (p : Project.t)
    (c : list Project.t) : Project.t * list Project.t :=
  let p' :=
    if negb (Js.includes employeeId (Project.employees p))
    then set_employees (Project.employees p ++ [employeeId]) p
    else p in
  (p', save p' c).

(** [ProjectSchema.methods.removeEmployee]. *)
Definition removeEmployee (employeeId : string) (p : Project.t)
    (c : list Project.t) : Project.t * list Project.t :=
  let p' :=
    set_employees
      (filter (fun id => negb (String.eqb id employeeId))
         (Project.employees p)) p in
  (p', save p' c).

End ProjectMethods.

Module TaskMethods.

Definition set_employees (v : list string) (k : Task.t) : Task.t :=
  Task.mk (Task._id k) (Task.name k) (Task.projectId k) v.

Definition save (k : Task.t) (c : list Task.t) : list Task.t :=
  map (fun x => if String.eqb (Task._id x) (Task._id k) then k else x) c.

(** [TaskSchema.methods.addEmployee]. *)
Definition addEmployee (employeeId : string) (k : Task.t) (c : list Task.t)
    : Task.t * list Task.t :=
  let k' :=
    if negb (Js.includes employeeId (Task.employees k))
    then set_employees (Task.employees k ++ [employeeId]) k
    else k in
  (k', save k' c).

(** [TaskSchema.methods.removeEmployee]. *)
Definition removeEmployee (employeeId : string) (k : Task.t)
    (c : list Task.t) : Task.t * list Task.t :=
  let k' :=
    set_employees
      (filter (fun id => negb (String.eqb id employeeId))
         (Task.employees k)) k in
  (k', save k' c).

End TaskMethods.

(** ** Deleting screenshots ([src/services/screenshotService.ts]) *)

Module ScreenshotRetention.

(** [deleteScreenshot]: [false] when no record has the id; otherwise the
    files are unlinked (a failing unlink is ignored) and the record is
    deleted. *)
Definition deleteScreenshot (screenshotId : ObjectId)
    (c : list Screenshot.t) : bool * list Screenshot.t :=
  match find (fun r => Nat.eqb (Screenshot._id r) screenshotId) c with
  | None => (false, c)
  | Some _ =>
      (true,
       filter (fun r => negb (Nat.eqb (Screenshot._id r) screenshotId)) c)
  end.

(** The [for] loop of [cleanupOldScreenshots] over the records found. *)
Fixpoint delete_each (old : list Screenshot.t) (deletedCount : Z)
    (c : list Screenshot.t) : Z * list Screenshot.t :=
  match old with
  | [] => (deletedCount, c)
  | r :: rest =>
      let (deleted, c') := deleteScreenshot (Screenshot._id r) c in
      delete_each rest (if deleted then deletedCount + 1 else deletedCount)
        c'
  end.

(** [cleanupOldScreenshots(daysOld = 90)]; [now] is [Date.now()]. *)
Definition cleanupOldScreenshots (daysOld : option Z) (now : Z)
    (c : list Screenshot.t) : Z * list Screenshot.t :=
  let cutoffDate := now - Js.nullish daysOld 90 * 24 * 60 * 60 * 1000 in
  let oldScreenshots :=
    filter (fun r => Screenshot.takenAt r <? cutoffDate) c in
  delete_each oldScreenshots 0 c.

End ScreenshotRetention.

(** ** The desktop screenshot service
    ([desktop/src/services/ScreenshotService.ts]) *)

Module DesktopScreenshotService.

Record ScreenshotData : Type := mkData {
  file : Buffer;
  width : Z;
  height : Z;
  timestamp : Z
}.

(** [processScreenshot]: the original image when [sharp] fails. *)
Definition processScreenshot (env : CaptureEnv) (img : Buffer)
    : Attempt Buffer :=
  try_catch (sharp_resize env) (fun _ => img).

(** The [try] block of [captureScreenshot]. *)
Definition capture_body (isInitialized : bool) (env : CaptureEnv)
    : Attempt ScreenshotData :=
  and_then
    (if negb isInitialized
     then Rejects (CaptureFailure "Screenshot Service not initialized")
     else Resolves tt) (fun _ =>
  and_then (grab env) (fun img =>
  and_then (processScreenshot env img) (fun processedImg =>
  and_then (sharp_metadata env) (fun metadata =>
  let timestamp := capture_clock env in
  and_then (writeFile env) (fun _ =>
  Resolves
    (mkData processedImg
       (Js.or_default (Js.nullish (fst metadata) 0) 0)
       (Js.or_default (Js.nullish (snd metadata) 0) 0)
       timestamp)))))).

(** [captureScreenshot]: the data, or [null] after any failure. *)
Definition captureScreenshot (isInitialized : bool) (env : CaptureEnv)
    : Attempt (option ScreenshotData) :=
  try_catch (and_then (capture_body isInitialized env)
               (fun d => Resolves (Some d)))
    (fun _ => None).

End DesktopScreenshotService.

(** ** Analytics and deletion handlers
    ([src/controllers/timeTrackingController.ts] and the task
    controller) *)

(** [if (v) query.path = v] on a string path: no condition when the
    parameter is absent or empty. *)
Definition matches (v : option string) (field : string) : bool :=
  match Js.truthy v with
  | Some x => String.eqb field x
  | None => true
  end.

(** The same on a path that holds an ObjectId. *)
Definition matches_id (v : option ObjectId) (field : ObjectId) : bool :=
  match v with
  | Some x => Nat.eqb field x
  | None => true
  end.

(** [{ $gte: startDate, $lte: endDate }]. *)
Definition between (startDate endDate t : Z) : bool :=
  (startDate <=? t) && (t <=? endDate).

Module AnalyticsQuery.
Record t : Type := mk {
  start : Z;
  end_ : Z;
  timezone : option string;
  employeeId : option string;
  teamId : option string;
  projectId : option string;
  taskId : option string;
  shiftId : option ObjectId
}.

Definition set_window (a b : Z) (q : t) : t :=
  mk a b (timezone q) (employeeId q) (teamId q) (projectId q) (taskId q)
    (shiftId q).

Definition set_team_shift (team : option string) (shift : option ObjectId)
    (q : t) : t :=
  mk (start q) (end_ q) (timezone q) (employeeId q) team (projectId q)
    (taskId q) shift.
End AnalyticsQuery.

Module WindowAnalytics.
Record t : Type := mk {
  employeeId : option string;
  teamId : option string;
  projectId : option string;
  taskId : option string;
  shiftId : option ObjectId;
  start : Z;
  end_ : Z;
  timezone : option string;
  totalTime : Z;
  activeTime : Z;
  idleTime : Z;
  screenshots : Z
}.
End WindowAnalytics.

(** [entries.reduce((sum, entry) => sum + entry.duration, 0)]. *)
Definition sum_durations (entries : list TimeEntry.t) : Z :=
  fold_left (fun sum entry => sum + TimeEntry.duration entry) entries 0.

(** [TimeEntrySchema.statics.getTotalDuration]: the [$match] stage, then
    one group over all matched documents; no group when nothing matched. *)
Definition getTotalDuration (employeeId : string)
    (startDate endDate : option Z) (c : list TimeEntry.t) : list Z :=
  let matched :=
    filter
      (fun x =>
         String.eqb (TimeEntry.employeeId x) employeeId
         && negb (TimeEntry.isActive x)
         && match startDate, endDate with
            | Some lo, Some hi => between lo hi (TimeEntry.startTime x)
            | _, _ => true
            end) c in
  match matched with
  | [] => []
  | _ :: _ => [sum_durations matched]
  end.

Section Analytics.

(** The [teamId] path of an employee document. *)
Variable teamId : Employee.t -> string.

(** The query of [getWindowAnalytics] on the time entries. *)
Definition window_query (q : AnalyticsQuery.t) (d : TimeEntry.t) : bool :=
  between (AnalyticsQuery.start q) (AnalyticsQuery.end_ q)
    (TimeEntry.startTime d)
  && negb (TimeEntry.isActive d)
  && matches (AnalyticsQuery.employeeId q) (TimeEntry.employeeId d)
  && matches (AnalyticsQuery.projectId q) (TimeEntry.projectId d)
  && matches (AnalyticsQuery.taskId q) (TimeEntry.taskId d)
  && matches_id (AnalyticsQuery.shiftId q) (TimeEntry._id d).

(** The filter on the populated [employeeId]: an entry whose employee is
    not in the collection has [null] there. *)
Definition in_team (s : Server) (team : option string) (d : TimeEntry.t)
    : bool :=
  match Js.truthy team with
  | None => true
  | Some t =>
      match Employee.findById (TimeEntry.employeeId d) (employees s) with
      | Some e => String.eqb (teamId e) t
      | None => false
      end
  end.

(** The query of [Screenshot.countDocuments] in [getWindowAnalytics]. *)
Definition window_shots (q : AnalyticsQuery.t) (r : Screenshot.t) : bool :=
  between (AnalyticsQuery.start q) (AnalyticsQuery.end_ q)
    (Screenshot.takenAt r)
  && matches (AnalyticsQuery.employeeId q) (Screenshot.employeeId r)
  && matches (AnalyticsQuery.projectId q) (Screenshot.projectId r)
  && matches (AnalyticsQuery.taskId q) (Screenshot.taskId r).

(** [GET /api/v1/analytics/window]. *)
Definition getWindowAnalytics (q : AnalyticsQuery.t)
    : Handler (ApiResponse WindowAnalytics.t) :=
  fun s =>
    let timeEntries := filter (window_query q) (timeentries s) in
    let filteredEntries :=
      filter (in_team s (AnalyticsQuery.teamId q)) timeEntries in
    let totalTime := sum_durations filteredEntries in
    let activeTime := totalTime in
    let idleTime := 0 in
    let screenshotCount :=
      Z.of_nat (List.length (filter (window_shots q) (screenshots s))) in
    (inl (mkResponse 200
            (WindowAnalytics.mk (AnalyticsQuery.employeeId q)
               (AnalyticsQuery.teamId q) (AnalyticsQuery.projectId q)
               (AnalyticsQuery.taskId q) (AnalyticsQuery.shiftId q)
               (AnalyticsQuery.start q) (AnalyticsQuery.end_ q)
               (AnalyticsQuery.timezone q) totalTime activeTime idleTime
               screenshotCount)
            None), s).

End Analytics.

Module ScreenshotQuery.
Record t : Type := mk {
  start : Z;
  end_ : Z;
  taskId : option string;
  shiftId : option ObjectId;
  projectId : option string;
  sortBy : option string;
  limit : option Z;
  next : option string
}.

Definition set_next (token : option string) (q : t) : t :=
  mk (start q) (end_ q) (taskId q) (shiftId q) (projectId q) (sortBy q)
    (limit q) token.
End ScreenshotQuery.

Module ScreenshotResponse.
Record t : Type := mk {
  screenshots : list Screenshot.t;
  total : Z;
  hasMore : bool
}.
End ScreenshotResponse.

(** The [sort] object built from [sortBy]: the path and its direction. *)
Definition sort_spec (sortBy : string) : string * Z :=
  match sortBy with
  | String "-" path => (path, -1)
  | _ => (sortBy, 1)
  end.

(** The query of [getScreenshots] on the screenshots. *)
Definition shot_query (q : ScreenshotQuery.t) (r : Screenshot.t) : bool :=
  between (ScreenshotQuery.start q) (ScreenshotQuery.end_ q)
    (Screenshot.takenAt r)
  && matches (ScreenshotQuery.taskId q) (Screenshot.taskId r)
  && matches_id (ScreenshotQuery.shiftId q) (Screenshot.timeEntryId r)
  && matches (ScreenshotQuery.projectId q) (Screenshot.projectId r).

(** What [res.json] throws while it serialises the reply. *)
Inductive JsonError : Type :=
| TypeError (reading : string).

(** [toJSON] of a screenshot as [getScreenshots] has populated it.  The
    project and the task are loaded with their [name] only, and their
    [employeeCount] virtual reads [this.employees.length]: the screenshot
    is serialised only when neither document exists. *)
Definition serialises (s : Server) (r : Screenshot.t) : bool :=
  match Project.findById (Screenshot.projectId r) (projects s),
        Task.findById (Screenshot.taskId r) (tasks s) with
  | None, None => true
  | _, _ => false
  end.

Section Listing.

(** [cursor.sort(sort)] of the database. *)
Variable sort : string * Z -> list Screenshot.t -> list Screenshot.t.

(** The query of [getScreenshots], sorted and limited.  [sortBy] and
    [limit] default to ['takenAt'] and 15; the route's schema keeps [limit]
    between 1 and 10000. *)
Definition listed (q : ScreenshotQuery.t) (s : Server)
    : list Screenshot.t :=
  let sortBy := Js.nullish (ScreenshotQuery.sortBy q) "takenAt" in
  let limit := Js.nullish (ScreenshotQuery.limit q) 15 in
  firstn (Z.to_nat limit)
    (sort (sort_spec sortBy) (filter (shot_query q) (screenshots s))).

(** [GET /api/v1/analytics/screenshot]: the reply, or the error that
    [res.json] throws and [asyncHandler] forwards. *)
Definition getScreenshots (q : ScreenshotQuery.t) (s : Server)
    : (ApiResponse ScreenshotResponse.t + JsonError) * Server :=
  let limit := Js.nullish (ScreenshotQuery.limit q) 15 in
  let screenshots := listed q s in
  let response :=
    mkResponse 200
      (ScreenshotResponse.mk screenshots
         (Z.of_nat (List.length screenshots))
         (Z.of_nat (List.length screenshots) =? limit))
      None in
  if forallb (serialises s) screenshots then (inl response, s)
  else (inr (TypeError "length"), s).

End Listing.

Local Open Scope handler_scope.

(** [DELETE /api/v1/analytics/screenshot/:id]. *)
Definition deleteScreenshot (id : ObjectId) : Handler (ApiResponse unit) :=
  deleted <-
    (fun s =>
       let (deleted, c) :=
         ScreenshotRetention.deleteScreenshot id (screenshots s) in
       (inl deleted, with_screenshots c s)) ;;
  if negb deleted then next (createError "Screenshot not found" 404)
  else ret (mkResponse 200 tt (Some "Screenshot deleted successfully")).

(** [Task.findByIdAndDelete(id)]. *)
Fixpoint findByIdAndDelete (id : string) (ts : list Task.t) : list Task.t :=
  match ts with
  | [] => []
  | k :: rest =>
      if String.eqb (Task._id k) id then rest
      else k :: findByIdAndDelete id rest
  end.

(** [DELETE /api/v1/task/:id]. *)
Definition deleteTask (id : string) : Handler (ApiResponse unit) :=
  task <- reads (fun s => Task.findById id (tasks s)) ;;
  match task with
  | None => next (createError "Task not found" 404)
  | Some _ =>
      (fun s => (inl tt, with_tasks (findByIdAndDelete id (tasks s)) s)) ;;;
      ret (mkResponse 200 tt (Some "Task deleted successfully"))
  end.

Local Close Scope handler_scope.

(** What the agent's timer callback gets from the desktop screenshot
    service. *)
Definition desktop_shot (isInitialized : bool) (env : CaptureEnv)
    : option Buffer :=
  match DesktopScreenshotService.captureScreenshot isInitialized env with
  | Resolves (Some d) => Some (DesktopScreenshotService.file d)
  | _ => None
  end.




(** ** The response interceptor of [ApiService]
    ([desktop/src/services/ApiService.ts]) *)

(** How a call of [ApiService] that throws has failed:
    [error.response?.status], absent when no response arrived, and the
    message of the [Error] that [ApiService] throws. *)
Record ApiFailure : Type := mkApiFailure {
  response_status : option Z;
  error_message : string
}.

Definition ApiOutcome (A : Type) : Type := (A + ApiFailure)%type.

(** What the caller of [ApiService] gets. *)
Definition api_result {A : Type} (o : ApiOutcome A) : ApiResult A :=
  match o with
  | inl a => inl a
  | inr f => inr (error_message f)
  end.

(** [error.response?.status === 401]. *)
Definition unauthorized {A : Type} (o : ApiOutcome A) : bool :=
  match o with
  | inl _ => false
  | inr f =>
      match response_status f with
      | Some code => code =? 401
      | None => false
      end
  end.

(** [clearStoredToken]: [storeService.delete('auth_token')], back to the
    default, [null]. *)
Definition clearStoredToken (st : StoreService) : StoreService :=
  mkStore None (activeTimeEntry st) (settings st).

(** The response interceptor, on the store that [ApiService] shares with
    the tracking service. *)
Definition response_interceptor {A : Type} (o : ApiOutcome A)
    (st : StoreService) : StoreService :=
  if unauthorized o then clearStoredToken st else st.

(** The tracking service with its server calls made through [ApiService]:
    the interceptor has run when a call returns or throws. *)
Module TrackingOverApi.

Definition intercepted {A : Type} (o : ApiOutcome A)
    (a : TimeTrackingService.t) : TimeTrackingService.t :=
  TimeTrackingService.set_storeService
    (response_interceptor o (TimeTrackingService.storeService a)) a.

(** [startTracking]; [o] is how [apiService.startTimeTracking(data)]
    ends.  No call is made when an entry is held. *)
Definition startTracking (o : ApiOutcome TimeEntry.t)
    (a : TimeTrackingService.t)
    : (TimeEntry.t + string) * TimeTrackingService.t :=
  match TimeTrackingService.activeEntry a with
  | Some _ => TimeTrackingService.startTracking (api_result o) a
  | None =>
      TimeTrackingService.startTracking (api_result o) (intercepted o a)
  end.

(** [stopTracking]; [o] is how [apiService.stopTimeTracking(timeEntryId)]
    ends.  No call is made unless the held entry has the id. *)
Definition stopTracking (o : ApiOutcome TimeEntry.t)
    (timeEntryId : ObjectId) (a : TimeTrackingService.t)
    : (TimeEntry.t + string) * TimeTrackingService.t :=
  match TimeTrackingService.activeEntry a with
  | None => TimeTrackingService.stopTracking (api_result o) timeEntryId a
  | Some current =>
      if negb (Nat.eqb (TimeEntry._id current) timeEntryId)
      then TimeTrackingService.stopTracking (api_result o) timeEntryId a
      else
        TimeTrackingService.stopTracking (api_result o) timeEntryId
          (intercepted o a)
  end.

(** The private [captureScreenshot]; [upload] is how
    [apiService.uploadScreenshot] ends.  A failed upload is caught and
    logged, and [emitScreenshotCaptured] is not reached. *)
Definition captureScreenshot (shot : option Buffer)
    (upload : ApiOutcome unit) (a : TimeTrackingService.t)
    : TimeTrackingService.t :=
  match TimeTrackingService.activeEntry a with
  | None => a
  | Some e =>
      let a1 :=
        TimeTrackingService.emit (CaptureBegins (TimeEntry._id e)) a in
      match shot with
      | Some _ =>
          let a2 :=
            intercepted upload
              (TimeTrackingService.emit
                 (ApiUploadScreenshot (TimeEntry._id e)) a1) in
          match upload with
          | inl _ =>
              TimeTrackingService.emit
                (EmitScreenshotCaptured (TimeEntry._id e)) a2
          | inr _ => a2
          end
      | None => a1
      end
  end.

(** The callback given to [setInterval]. *)
Definition interval_callback (shot : option Buffer)
    (upload : ApiOutcome unit) (a : TimeTrackingService.t)
    : TimeTrackingService.t :=
  if TimeTrackingService.entry_is_active (TimeTrackingService.activeEntry a)
  then captureScreenshot shot upload a
  else a.

(** The event loop runs the callback of a handle that is still live. *)
Definition timer_fires (shot : option Buffer) (upload : ApiOutcome unit)
    (a : TimeTrackingService.t) : TimeTrackingService.t :=
  match TimeTrackingService.screenshotInterval a with
  | Some _ => interval_callback shot upload a
  | None => a
  end.

End TrackingOverApi.

(** What the tracking service holds and writes itself: its fields and the
    keys of the store other than the token. *)
Definition session_state (a : TimeTrackingService.t)
    : option TimeEntry.t * option Timeout * bool * option TimeEntry.t
      * option Settings.t :=
  (TimeTrackingService.activeEntry a,
   TimeTrackingService.screenshotInterval a,
   TimeTrackingService.isInitialized a,
   activeTimeEntry (TimeTrackingService.storeService a),
   settings (TimeTrackingService.storeService a)).

(** Every step of the server's capture that can make it fail resolves;
    resizing and the thumbnail may still fail. *)
Definition capture_succeeds (env : CaptureEnv) : Prop :=
  exists img size info,
    grab env = Resolves img /\ writeFile env = Resolves tt
    /\ stat_size env = Resolves size /\ sharp_metadata env = Resolves info
    /\ record_save env = Resolves tt.

(** [{ takenAt: { $lt: cutoffDate } }]. *)
Definition older_than (cutoffDate : Z) (r : Screenshot.t) : bool :=
  Screenshot.takenAt r <? cutoffDate.

(** ** Predicates on the collection *)

(** The documents of the collection with the id [x]. *)
Definition docs_of (x : ObjectId) (s : Server) : list TimeEntry.t :=
  filter (fun d => Nat.eqb (TimeEntry._id d) x) (timeentries s).

(** The flag and the end time of a document agree, and a stopped document
    has the duration between its two times, which is not negative. *)
Definition coherent (d : TimeEntry.t) : Prop :=
  match TimeEntry.endTime d with
  | Some e =>
      TimeEntry.isActive d = false
      /\ TimeEntry.duration d = e - TimeEntry.startTime d
      /\ 0 <= TimeEntry.duration d
  | None => TimeEntry.isActive d = true
  end.

(** The same run of [startTimeTracking] with another mail transport. *)
Definition with_smtp (delivers : bool) (env : StartEnv) : StartEnv :=
  mkStartEnv (at_new env) (at_save env) (at_addScreenshot env) (device env)
    (capture env) delivers.

(** * Properties *)

Unset Implicit Arguments.

(** ** Lists and collections *)

Section Collections.

Variable A : Type.

Lemma find_none_filter (p q : A -> bool) (c : list A) :
  (forall x, p x = q x) -> find p c = None -> filter q c = [].
Proof.
  intros Hpq. induction c as [|x c IH]; simpl; intros H; [reflexivity|].
  rewrite <- Hpq. destruct (p x); [discriminate|]. now apply IH.
Qed.

Lemma filter_length_app (p : A -> bool) (c1 c2 : list A) :
  List.length (filter p (c1 ++ c2))
  = (List.length (filter p c1) + List.length (filter p c2))%nat.
Proof. now rewrite filter_app, length_app. Qed.

End Collections.

Lemma findOneActive_none_active_of (e : string) (c : list TimeEntry.t) :
  TimeEntry.findOneActive e c = None -> active_of e c = [].
Proof.
  apply find_none_filter. intros x. apply andb_comm.
Qed.

Lemma findOneActive_some_active_of (e : string) (c : list TimeEntry.t)
    (x : TimeEntry.t) :
  TimeEntry.findOneActive e c = Some x -> In x (active_of e c).
Proof.
  intros H. apply find_some in H. destruct H as [Hin Hp].
  unfold active_of. apply filter_In. split; [exact Hin|].
  now rewrite andb_comm.
Qed.

Lemma fresh_id_above (c : list TimeEntry.t) (x : TimeEntry.t) :
  In x c -> (TimeEntry._id x < fresh_id (TimeEntry.ids c))%nat.
Proof.
  intros Hin. unfold fresh_id, TimeEntry.ids.
  assert (H : (list_max (map TimeEntry._id c)
               <= list_max (map TimeEntry._id c))%nat) by lia.
  rewrite list_max_le in H. rewrite Forall_forall in H.
  specialize (H (TimeEntry._id x) (in_map _ _ _ Hin)). lia.
Qed.

Lemma updateOne_absent (d : TimeEntry.t) (c : list TimeEntry.t) :
  (forall x, In x c -> TimeEntry._id x <> TimeEntry._id d) ->
  TimeEntry.updateOne d c = c.
Proof.
  intros H. unfold TimeEntry.updateOne.
  induction c as [|x c IH]; simpl; [reflexivity|].
  destruct (Nat.eqb_spec (TimeEntry._id x) (TimeEntry._id d)) as [E|_].
  - exfalso. apply (H x); [now left | exact E].
  - f_equal. apply IH. intros y Hy. apply H. now right.
Qed.

Lemma updateOne_newest (d d0 : TimeEntry.t) (c : list TimeEntry.t) :
  TimeEntry._id d0 = fresh_id (TimeEntry.ids c) ->
  TimeEntry._id d = TimeEntry._id d0 ->
  TimeEntry.updateOne d (c ++ [d0]) = c ++ [d].
Proof.
  intros Hfresh Hid. unfold TimeEntry.updateOne. rewrite map_app.
  fold (TimeEntry.updateOne d c). rewrite updateOne_absent.
  - simpl. rewrite Hid, Nat.eqb_refl. reflexivity.
  - intros x Hx. apply fresh_id_above in Hx. lia.
Qed.

Lemma active_of_updateOne_inactive (e : string) (d : TimeEntry.t)
    (c : list TimeEntry.t) :
  TimeEntry.isActive d = false ->
  (List.length (active_of e (TimeEntry.updateOne d c))
   <= List.length (active_of e c))%nat.
Proof.
  intros Hd. unfold active_of, TimeEntry.updateOne.
  induction c as [|x c IH]; simpl; [lia|].
  destruct (Nat.eqb (TimeEntry._id x) (TimeEntry._id d)).
  - rewrite Hd. simpl.
    destruct (TimeEntry.isActive x
              && String.eqb (TimeEntry.employeeId x) e); simpl; lia.
  - destruct (TimeEntry.isActive x
              && String.eqb (TimeEntry.employeeId x) e); simpl; lia.
Qed.


Lemma updateOne_twice (d1 d2 : TimeEntry.t) (c : list TimeEntry.t) :
  TimeEntry._id d1 = TimeEntry._id d2 ->
  TimeEntry.updateOne d2 (TimeEntry.updateOne d1 c) = TimeEntry.updateOne d2 c.
Proof.
  intros Hid. unfold TimeEntry.updateOne. rewrite map_map.
  apply map_ext. intros x. rewrite Hid.
  destruct (Nat.eqb (TimeEntry._id x) (TimeEntry._id d2)) eqn:E.
  - now rewrite Hid, Nat.eqb_refl.
  - now rewrite E.
Qed.

Lemma updateOne_In (d x : TimeEntry.t) (c : list TimeEntry.t) :
  In x c -> TimeEntry._id x = TimeEntry._id d ->
  In d (TimeEntry.updateOne d c).
Proof.
  intros Hin Hid. unfold TimeEntry.updateOne. apply in_map_iff.
  exists x. split; [|exact Hin]. now rewrite Hid, Nat.eqb_refl.
Qed.

(** ** The checks of [startTimeTracking] *)

Lemma start_checks_reads_only (req : StartTimeTrackingRequest.t)
    (s : Server) :
  snd (start_checks req s) = s.
Proof.
  unfold start_checks. run_handler.
  destruct (Js.truthy _); [|reflexivity].
  destruct (TimeEntry.findOneActive _ _); [reflexivity|].
  destruct (Project.findById _ _); [|reflexivity].
  destruct (Js.includes _ _); [|reflexivity]. simpl.
  destruct (Task.findById _ _); [|reflexivity].
  destruct (Js.includes _ _); reflexivity.
Qed.

Lemma start_checks_pass_iff (req : StartTimeTrackingRequest.t) (s : Server)
    (cl : Cleared) :
  fst (start_checks req s) = inl cl <-> checks_pass req s cl.
Proof.
  unfold start_checks. run_handler. split.
  - destruct (Js.truthy _) as [e|] eqn:He; [|discriminate].
    destruct (TimeEntry.findOneActive _ _) eqn:Ha; [discriminate|].
    destruct (Project.findById _ _) as [p|] eqn:Hp; [|discriminate].
    destruct (Js.includes e _) eqn:Hpm; [|discriminate]. simpl.
    destruct (Task.findById _ _) as [k|] eqn:Hk; [|discriminate].
    destruct (Js.includes e (Task.employees k)) eqn:Hkm; [|discriminate].
    simpl. intros H. injection H as <-. now constructor.
  - intros [He Ha Hp Hpm Hk Hkm]. rewrite He, Ha, Hp, Hpm. simpl.
    rewrite Hk, Hkm. simpl. now destruct cl.
Qed.

Lemma start_checks_conflict (req : StartTimeTrackingRequest.t) (s : Server)
    (e : string) (x : TimeEntry.t) :
  Js.truthy (StartTimeTrackingRequest.userId req) = Some e ->
  TimeEntry.findOneActive e (timeentries s) = Some x ->
  start_checks req s
  = (inr (NextError "Employee already has an active time entry" 400), s).
Proof.
  intros He Hx. unfold start_checks. run_handler. now rewrite He, Hx.
Qed.

Lemma startTimeTracking_conflict (env : StartEnv)
    (req : StartTimeTrackingRequest.t) (s : Server) (e : string)
    (x : TimeEntry.t) :
  Js.truthy (StartTimeTrackingRequest.userId req) = Some e ->
  TimeEntry.findOneActive e (timeentries s) = Some x ->
  startTimeTracking env req s = (conflict, s).
Proof.
  intros He Hx. unfold startTimeTracking, bind.
  now rewrite (start_checks_conflict req s e x He Hx).
Qed.

Lemma startTimeTracking_rejected (env : StartEnv)
    (req : StartTimeTrackingRequest.t) (s : Server) (h : Halt) :
  fst (start_checks req s) = inr h ->
  startTimeTracking env req s = (inr h, s).
Proof.
  intros H. unfold startTimeTracking, bind.
  pose proof (start_checks_reads_only req s) as Hs.
  destruct (start_checks req s) as [[cl|h'] s']; simpl in *;
    [discriminate|]. now injection H as ->; subst.
Qed.

Lemma startTimeTracking_cleared (env : StartEnv)
    (req : StartTimeTrackingRequest.t) (s : Server) (cl : Cleared) :
  fst (start_checks req s) = inl cl ->
  startTimeTracking env req s = start_create env req cl s.
Proof.
  intros H. unfold startTimeTracking, bind.
  pose proof (start_checks_reads_only req s) as Hs.
  destruct (start_checks req s) as [[cl'|h'] s']; simpl in *;
    [|discriminate]. now injection H as ->; subst.
Qed.

(** ** Creating the entry *)

Lemma notify_outbox (b : bool) (k : MailKind) (e : string) (s : Server) :
  exists o, notify b k e s = (inl tt, with_outbox o s).
Proof.
  unfold notify, sendTimeTrackingNotification. run_handler.
  destruct (Employee.findById e (employees s)).
  - eexists. reflexivity.
  - exists (outbox s). destruct s; reflexivity.
Qed.

Lemma captureScreenshot_resolves (env : CaptureEnv) (e : string)
    (id : ObjectId) (p k : string) (c : list Screenshot.t) :
  exists r, fst (ScreenshotService.captureScreenshot env e id p k c)
            = Resolves r.
Proof.
  unfold ScreenshotService.captureScreenshot. simpl.
  destruct (ScreenshotService.capture_body env e id p k c); simpl;
    eexists; reflexivity.
Qed.

Lemma captureScreenshot_grows (env : CaptureEnv) (e : string)
    (id : ObjectId) (p k : string) (c : list Screenshot.t) :
  (List.length (snd (ScreenshotService.captureScreenshot env e id p k c))
   <= S (List.length c))%nat.
Proof.
  unfold ScreenshotService.captureScreenshot. simpl.
  destruct (ScreenshotService.capture_body env e id p k c); simpl.
  - rewrite length_app. simpl. lia.
  - lia.
Qed.

Lemma await_capture_spec (env : CaptureEnv) (e : string) (id : ObjectId)
    (p k : string) (s : Server) :
  exists r c,
    await_capture env e id p k s = (inl r, with_screenshots c s)
    /\ fst (ScreenshotService.captureScreenshot env e id p k (screenshots s))
       = Resolves r
    /\ (List.length c <= S (List.length (screenshots s)))%nat.
Proof.
  unfold await_capture.
  pose proof (captureScreenshot_resolves env e id p k (screenshots s)) as [r Hr].
  pose proof (captureScreenshot_grows env e id p k (screenshots s)) as Hc.
  destruct (ScreenshotService.captureScreenshot env e id p k (screenshots s))
    as [a c]. simpl in *. subst a. exists r, c. auto.
Qed.

(** The outcome of the capture block: the entry [d1] that is now the last
    document of the collection. *)
Lemma capture_if_enabled_spec (env : StartEnv)
    (req : StartTimeTrackingRequest.t) (cl : Cleared) (d0 : TimeEntry.t)
    (c : list TimeEntry.t) (s : Server) :
  timeentries s = c ++ [d0] ->
  TimeEntry._id d0 = fresh_id (TimeEntry.ids c) ->
  TimeEntry.endTime d0 = None ->
  TimeEntry.isActive d0 = true ->
  TimeEntry.screenshots d0 = [] ->
  exists d1 r s',
    capture_if_enabled env req cl d0 s = (r, s')
    /\ timeentries s' = c ++ [d1]
    /\ projects s' = projects s /\ tasks s' = tasks s
    /\ employees s' = employees s
    /\ (List.length (screenshots s') <= S (List.length (screenshots s)))%nat
    /\ TimeEntry._id d1 = TimeEntry._id d0
    /\ TimeEntry.employeeId d1 = TimeEntry.employeeId d0
    /\ TimeEntry.projectId d1 = TimeEntry.projectId d0
    /\ TimeEntry.taskId d1 = TimeEntry.taskId d0
    /\ TimeEntry.startTime d1 = TimeEntry.startTime d0
    /\ TimeEntry.endTime d1 = None
    /\ TimeEntry.isActive d1 = true
    /\ (List.length (TimeEntry.screenshots d1) <= 1)%nat
    /\ (r = inl d1 \/ exists e, r = inr (Uncaught e)).
Proof.
  intros Hc Hid Hend Hact Hshots.
  unfold capture_if_enabled.
  destruct (Project.screenshotSettings (cleared_project cl)) as [st|].
  2:{ exists d0, (inl d0), s. unfold ret. rewrite Hshots. simpl.
      repeat split; auto. }
  destruct (screenshotEnabled st).
  2:{ exists d0, (inl d0), s. unfold ret. rewrite Hshots. simpl.
      repeat split; auto. }
  unfold bind.
  destruct (await_capture_spec (capture env) (cleared_employee cl)
              (TimeEntry._id d0) (StartTimeTrackingRequest.projectId req)
              (StartTimeTrackingRequest.taskId req) s)
    as (sid & shots & -> & _ & Hlen).
  destruct sid as [sid|].
  2:{ exists d0, (inl d0), (with_screenshots shots s). unfold ret.
      rewrite Hshots. simpl. repeat split; auto. }
  unfold await_entries, TimeEntryMethods.addScreenshot, TimeEntryMethods.save.
  rewrite Hshots. simpl has_id. cbv iota.
  unfold TimeEntry.validate. simpl TimeEntry.duration.
  destruct (TimeEntry.duration d0 <? 0).
  - exists d0, (inr (Uncaught (ValidationError "duration"))),
      (with_timeentries (timeentries (with_screenshots shots s))
         (with_screenshots shots s)).
    rewrite Hshots. simpl. repeat split; eauto.
  - eexists _, _, _. split; [reflexivity|].
    simpl timeentries. rewrite Hc.
    split.
    { apply updateOne_newest; [exact Hid|].
      unfold TimeEntry.pre_save. simpl. rewrite Hend, Hact. reflexivity. }
    unfold TimeEntry.pre_save. simpl. rewrite Hend, Hact. simpl.
    repeat split; auto.
Qed.

Lemma save_new_entry (env : StartEnv) (req : StartTimeTrackingRequest.t)
    (cl : Cleared) (oid : ObjectId) (s : Server) :
  await_entries
    (TimeEntryMethods.save true (at_save env) (new_entry env req cl oid)) s
  = (inl (TimeEntry.pre_save (at_save env) (new_entry env req cl oid)),
     with_timeentries
       (TimeEntry.insertOne
          (TimeEntry.pre_save (at_save env) (new_entry env req cl oid))
          (timeentries s)) s).
Proof. reflexivity. Qed.

Lemma start_create_spec (env : StartEnv) (req : StartTimeTrackingRequest.t)
    (cl : Cleared) (s : Server) :
  exists d r s',
    start_create env req cl s = (r, s')
    /\ created env req cl s d
    /\ timeentries s' = timeentries s ++ [d]
    /\ projects s' = projects s /\ tasks s' = tasks s
    /\ employees s' = employees s
    /\ (List.length (screenshots s') <= S (List.length (screenshots s)))%nat
    /\ (r = inl (mkResponse 201 d
                   (Some "Time tracking started successfully"))
        \/ exists e, r = inr (Uncaught e)).
Proof.
  unfold start_create.
  unfold bind at 1, reads at 1. unfold bind at 1.
  rewrite save_new_entry.
  set (d0 := TimeEntry.pre_save _ _).
  set (s0 := with_timeentries (TimeEntry.insertOne d0 (timeentries s)) s).
  destruct (@capture_if_enabled_spec env req cl d0 (timeentries s) s0)
    as (d1 & r & s1 & Hrun & Hentries & Hp & Hk & He & Hshots & Hid & Hemp
        & Hproj & Htask & Hstart & Hend & Hact & Hlen & Hr);
    try reflexivity.
  unfold bind. rewrite Hrun.
  assert (Hd1 : created env req cl s d1).
  { constructor;
      first [ assumption
            | rewrite ?Hid, ?Hemp, ?Hproj, ?Htask, ?Hstart; reflexivity ]. }
  destruct Hr as [-> | [e ->]].
  - destruct (notify_outbox (smtp env) MailStart (cleared_employee cl) s1)
      as [o ->].
    exists d1, (inl (mkResponse 201 d1
                      (Some "Time tracking started successfully"))),
      (with_outbox o s1).
    unfold ret. simpl. repeat split; auto.
  - exists d1, (inr (Uncaught e)), s1. repeat split; eauto.
Qed.

(** ** What one request does to the collection *)

Lemma startTimeTracking_cases (env : StartEnv)
    (req : StartTimeTrackingRequest.t) (s : Server) :
  (exists h, startTimeTracking env req s = (inr h, s)
             /\ fst (start_checks req s) = inr h)
  \/ (exists cl d r s',
        checks_pass req s cl
        /\ startTimeTracking env req s = (r, s')
        /\ created env req cl s d
        /\ timeentries s' = timeentries s ++ [d]
        /\ projects s' = projects s /\ tasks s' = tasks s
        /\ employees s' = employees s
        /\ (List.length (screenshots s')
            <= S (List.length (screenshots s)))%nat
        /\ (r = inl (mkResponse 201 d
                       (Some "Time tracking started successfully"))
            \/ exists e, r = inr (Uncaught e))).
Proof.
  destruct (fst (start_checks req s)) as [cl|h] eqn:Hc.
  - right. rewrite (startTimeTracking_cleared env req s cl Hc).
    destruct (start_create_spec env req cl s) as (d & r & s' & H).
    exists cl, d, r, s'. split; [now apply start_checks_pass_iff|exact H].
  - left. exists h. split; [|reflexivity].
    now apply startTimeTracking_rejected.
Qed.

(** ** Stopping an entry *)

Lemma with_timeentries_same (s : Server) :
  with_timeentries (timeentries s) s = s.
Proof. now destruct s. Qed.

Lemma stopTimeTracking_unauthenticated (now : Z) (b : bool)
    (req : StopTimeTrackingRequest.t) (s : Server) :
  Js.truthy (StopTimeTrackingRequest.userId req) = None ->
  stopTimeTracking now b req s
  = (inr (NextError "Employee ID not found in token" 401), s).
Proof. intros H. unfold stopTimeTracking. now rewrite H. Qed.

Lemma stopTimeTracking_not_found (now : Z) (b : bool)
    (req : StopTimeTrackingRequest.t) (s : Server) (e : string) :
  Js.truthy (StopTimeTrackingRequest.userId req) = Some e ->
  TimeEntry.findOneActiveById (StopTimeTrackingRequest.timeEntryId req) e
    (timeentries s) = None ->
  stopTimeTracking now b req s
  = (inr (NextError "Active time entry not found" 404), s).
Proof.
  intros He Hx. unfold stopTimeTracking. rewrite He. run_handler.
  now rewrite Hx.
Qed.

Lemma stopTimeTracking_clock_behind (now : Z) (b : bool)
    (req : StopTimeTrackingRequest.t) (s : Server) (e : string)
    (x : TimeEntry.t) :
  Js.truthy (StopTimeTrackingRequest.userId req) = Some e ->
  TimeEntry.findOneActiveById (StopTimeTrackingRequest.timeEntryId req) e
    (timeentries s) = Some x ->
  now < TimeEntry.startTime x ->
  stopTimeTracking now b req s
  = (inr (Uncaught (ValidationError "duration")), s).
Proof.
  intros He Hx Hlt. unfold stopTimeTracking. rewrite He. run_handler.
  rewrite Hx. unfold await_entries, TimeEntryMethods.stop,
    TimeEntryMethods.save, TimeEntry.validate. simpl.
  apply Z.ltb_lt in Hlt.
  replace (now - TimeEntry.startTime x <? 0) with true
    by (symmetry; apply Z.ltb_lt; apply Z.ltb_lt in Hlt; lia).
  now rewrite with_timeentries_same.
Qed.

Lemma stopTimeTracking_found (now : Z) (b : bool)
    (req : StopTimeTrackingRequest.t) (s : Server) (e : string)
    (x : TimeEntry.t) :
  Js.truthy (StopTimeTrackingRequest.userId req) = Some e ->
  TimeEntry.findOneActiveById (StopTimeTrackingRequest.timeEntryId req) e
    (timeentries s) = Some x ->
  TimeEntry.startTime x <= now ->
  exists d o,
    stopTimeTracking now b req s
    = (inl (mkResponse 200 d (Some "Time tracking stopped successfully")),
       with_outbox o
         (with_timeentries (TimeEntry.updateOne d (timeentries s)) s))
    /\ stopped_from x now d.
Proof.
  intros He Hx Hle. unfold stopTimeTracking. rewrite He.
  unfold bind at 1, reads at 1. rewrite Hx.
  unfold bind at 1.
  unfold await_entries at 1, TimeEntryMethods.stop, TimeEntryMethods.save,
    TimeEntry.validate. simpl.
  replace (now - TimeEntry.startTime x <? 0) with false
    by (symmetry; apply Z.ltb_ge; lia).
  set (d1 := TimeEntry.pre_save _ _).
  assert (H1 : stopped_from x now d1) by (constructor; reflexivity).
  destruct (Js.truthy (StopTimeTrackingRequest.description req)) as [text|].
  - unfold bind at 1.
    unfold await_entries, TimeEntryMethods.updateDescription,
      TimeEntryMethods.save, TimeEntry.validate. simpl.
    replace (now - TimeEntry.startTime x <? 0) with false
      by (symmetry; apply Z.ltb_ge; lia).
    set (d2 := TimeEntry.pre_save _ _).
    rewrite updateOne_twice by reflexivity.
    unfold bind.
    match goal with
    | |- context [notify b MailStop e ?s1] =>
        destruct (notify_outbox b MailStop e s1) as [o ->]
    end.
    exists d2, o. split; [reflexivity|]. constructor; reflexivity.
  - unfold bind, ret.
    match goal with
    | |- context [notify b MailStop e ?s1] =>
        destruct (notify_outbox b MailStop e s1) as [o ->]
    end.
    exists d1, o. split; [reflexivity|exact H1].
Qed.

(** ** At most one active entry per employee *)

Lemma active_of_created (env : StartEnv) (req : StartTimeTrackingRequest.t)
    (cl : Cleared) (s : Server) (d : TimeEntry.t) (e : string) :
  checks_pass req s cl -> created env req cl s d ->
  active_of e (timeentries s ++ [d])
  = if String.eqb (cleared_employee cl) e then [d]
    else active_of e (timeentries s).
Proof.
  intros Hpass Hd. unfold active_of. rewrite filter_app. simpl.
  rewrite (created_active Hd), (created_employee Hd). simpl.
  destruct (String.eqb_spec (cleared_employee cl) e) as [<-|_].
  - fold (active_of (cleared_employee cl) (timeentries s)).
    now rewrite (findOneActive_none_active_of _ _ (pass_idle Hpass)).
  - apply app_nil_r.
Qed.

Lemma startTimeTracking_keeps_unique (env : StartEnv)
    (req : StartTimeTrackingRequest.t) (s : Server) :
  unique_active s -> unique_active (snd (startTimeTracking env req s)).
Proof.
  intros Hs.
  destruct (startTimeTracking_cases env req s)
    as [(h & -> & _) | (cl & d & r & s' & Hpass & -> & Hd & Hc & _)];
    [exact Hs|].
  intros e. simpl. rewrite Hc, (active_of_created env req cl s d e Hpass Hd).
  destruct (String.eqb (cleared_employee cl) e); [simpl; lia | apply Hs].
Qed.

Lemma stopTimeTracking_keeps_unique (now : Z) (b : bool)
    (req : StopTimeTrackingRequest.t) (s : Server) :
  unique_active s -> unique_active (snd (stopTimeTracking now b req s)).
Proof.
  intros Hs.
  destruct (Js.truthy (StopTimeTrackingRequest.userId req)) as [e|] eqn:He.
  2:{ now rewrite stopTimeTracking_unauthenticated. }
  destruct (TimeEntry.findOneActiveById
              (StopTimeTrackingRequest.timeEntryId req) e (timeentries s))
    as [x|] eqn:Hx.
  2:{ now rewrite (stopTimeTracking_not_found now b req s e He Hx). }
  destruct (Z.lt_ge_cases now (TimeEntry.startTime x)) as [Hlt|Hge].
  { now rewrite (stopTimeTracking_clock_behind now b req s e x He Hx Hlt). }
  destruct (stopTimeTracking_found now b req s e x He Hx Hge)
    as (d & o & -> & Hd).
  intros e'. simpl.
  pose proof (active_of_updateOne_inactive e' d (timeentries s)
                (stopped_inactive Hd)) as Hle.
  specialize (Hs e'). lia.
Qed.

Lemma getActiveTimeEntries_reads_only (u : option string) (s : Server) :
  snd (getActiveTimeEntries u s) = s.
Proof. unfold getActiveTimeEntries. now destruct (Js.truthy u). Qed.

Lemma serve_keeps_unique (r : Request) (s : Server) :
  unique_active s -> unique_active (serve r s).
Proof.
  destruct r as [env req|now b req|u]; simpl.
  - apply startTimeTracking_keeps_unique.
  - apply stopTimeTracking_keeps_unique.
  - now rewrite getActiveTimeEntries_reads_only.
Qed.

Lemma serve_all_keeps_unique (rs : list Request) (s : Server) :
  unique_active s -> unique_active (serve_all rs s).
Proof.
  revert s. induction rs as [|r rs IH]; intros s Hs; simpl; [exact Hs|].
  apply IH. now apply serve_keeps_unique.
Qed.

(** After a start that succeeded, the employee has exactly the created
    entry active and the active check of a following start finds it. *)
Lemma started_then_busy (env : StartEnv) (req : StartTimeTrackingRequest.t)
    (s : Server) (resp : ApiResponse TimeEntry.t) (e : string) :
  Js.truthy (StartTimeTrackingRequest.userId req) = Some e ->
  fst (startTimeTracking env req s) = inl resp ->
  active_of e (timeentries (snd (startTimeTracking env req s))) = [data resp]
  /\ exists x,
       TimeEntry.findOneActive e
         (timeentries (snd (startTimeTracking env req s))) = Some x.
Proof.
  intros He Hok.
  destruct (startTimeTracking_cases env req s)
    as [(h & Heq & _) | (cl & d & r & s' & Hpass & Heq & Hd & Hc & _ & _
                         & _ & _ & Hr)];
    rewrite Heq in *; simpl in *; [discriminate|].
  assert (Hcl : cleared_employee cl = e).
  { pose proof (pass_token Hpass) as Ht. rewrite He in Ht. congruence. }
  destruct Hr as [-> | [x ->]]; [|discriminate].
  injection Hok as <-. simpl.
  assert (Hact : active_of e (timeentries s') = [d]).
  { rewrite Hc, (active_of_created env req cl s d e Hpass Hd), Hcl.
    now rewrite String.eqb_refl. }
  split; [exact Hact|].
  destruct (TimeEntry.findOneActive e (timeentries s')) as [x|] eqn:Hf;
    [now exists x|].
  apply findOneActive_none_active_of in Hf. rewrite Hf in Hact.
  discriminate.
Qed.

Lemma capture_if_enabled_succeeds (env : StartEnv)
    (req : StartTimeTrackingRequest.t) (cl : Cleared) (d0 : TimeEntry.t)
    (s : Server) :
  TimeEntry.screenshots d0 = [] ->
  0 <= TimeEntry.duration d0 ->
  exists d1 s', capture_if_enabled env req cl d0 s = (inl d1, s').
Proof.
  intros Hshots Hduration. unfold capture_if_enabled.
  destruct (Project.screenshotSettings (cleared_project cl)) as [st|];
    [|now exists d0, s].
  destruct (screenshotEnabled st); [|now exists d0, s].
  unfold bind.
  destruct (await_capture_spec (capture env) (cleared_employee cl)
              (TimeEntry._id d0) (StartTimeTrackingRequest.projectId req)
              (StartTimeTrackingRequest.taskId req) s)
    as (sid & shots & -> & _ & _).
  destruct sid as [sid|]; [|now eexists _, _].
  unfold await_entries, TimeEntryMethods.addScreenshot, TimeEntryMethods.save.
  rewrite Hshots. simpl has_id. cbv iota.
  unfold TimeEntry.validate. simpl TimeEntry.duration.
  destruct (Z.ltb_spec (TimeEntry.duration d0) 0); [lia|].
  eexists _, _. reflexivity.
Qed.

Lemma startTimeTracking_succeeds (env : StartEnv)
    (req : StartTimeTrackingRequest.t) (s : Server) (cl : Cleared) :
  checks_pass req s cl ->
  at_new env <= at_save env ->
  exists resp,
    fst (startTimeTracking env req s) = inl resp /\ status resp = 201.
Proof.
  intros Hpass Hclock. apply start_checks_pass_iff in Hpass.
  rewrite (startTimeTracking_cleared env req s cl Hpass).
  unfold start_create.
  unfold bind at 1, reads at 1. unfold bind at 1.
  rewrite save_new_entry. unfold bind at 1.
  match goal with
  | |- context [capture_if_enabled env req cl ?d0 ?s0] =>
      destruct (capture_if_enabled_succeeds env req cl d0 s0)
        as (d1 & s1 & ->)
  end.
  - reflexivity.
  - simpl. lia.
  - unfold bind.
    destruct (notify_outbox (smtp env) MailStart (cleared_employee cl) s1)
      as [o ->].
    eexists. split; reflexivity.
Qed.

(** C1. While requests are served one after the other, at most one
    [TimeEntry] of every employee is active: the property holds after every
    sequence of start, stop and get-active requests served from a state
    where it holds.  A start whose checks pass, served with a clock that
    does not go back between [new TimeEntry] and [save], is answered with
    201.  When a start has succeeded for an employee, a second start for
    that employee (with no stop in between) leaves through
    [createError('Employee already has an active time entry', 400)], the
    server state is the one the first start left, and exactly one entry
    of the employee is active in it: the entry of the first reply. *)
Theorem one_active_entry_per_employee (s : Server) :
  unique_active s ->
  (forall rs : list Request, unique_active (serve_all rs s))
  /\ (forall (env1 : StartEnv) (req1 : StartTimeTrackingRequest.t)
             (cl : Cleared),
        checks_pass req1 s cl ->
        at_new env1 <= at_save env1 ->
        exists resp1,
          fst (startTimeTracking env1 req1 s) = inl resp1
          /\ status resp1 = 201
          /\ active_of (cleared_employee cl)
               (timeentries (snd (startTimeTracking env1 req1 s)))
             = [data resp1])
  /\ (forall (env1 env2 : StartEnv) (req1 req2 : StartTimeTrackingRequest.t)
        (e : string) (resp1 : ApiResponse TimeEntry.t),
        Js.truthy (StartTimeTrackingRequest.userId req1) = Some e ->
        Js.truthy (StartTimeTrackingRequest.userId req2) = Some e ->
        fst (startTimeTracking env1 req1 s) = inl resp1 ->
        let s1 := snd (startTimeTracking env1 req1 s) in
        startTimeTracking env2 req2 s1
        = (inr (NextError "Employee already has an active time entry" 400),
           s1)
        /\ active_of e (timeentries (snd (startTimeTracking env2 req2 s1)))
           = [data resp1]).
Proof.
  intros Hs. split; [|split].
  - intros rs. now apply serve_all_keeps_unique.
  - intros env1 req1 cl Hpass Hclock.
    destruct (startTimeTracking_succeeds env1 req1 s cl Hpass Hclock)
      as (resp1 & Hok & Hstatus).
    exists resp1. split; [exact Hok|]. split; [exact Hstatus|].
    exact (proj1 (started_then_busy env1 req1 s resp1 (cleared_employee cl)
                    (pass_token Hpass) Hok)).
  - intros env1 env2 req1 req2 e resp1 He1 He2 Hok s1.
    destruct (started_then_busy env1 req1 s resp1 e He1 Hok) as [Hone [x Hx]].
    fold s1 in Hone, Hx.
    pose proof (startTimeTracking_conflict env2 req2 s1 e x He2 Hx) as Hc.
    unfold conflict in Hc. rewrite Hc. simpl. split; [reflexivity|exact Hone].
Qed.

Lemma one_active_entry_per_employee_witness :
  unique_active
    (serve_all
       [PostStart (Sample.at_time 0 Sample.camera)
          (Sample.ann_starts "alpha" "design");
        PostStart (Sample.at_time 5 Sample.camera)
          (Sample.ann_starts "beta" "audit");
        PostStop 125000 true (Sample.ann_stops 1%nat)]
       Sample.office)
  /\ (exists resp1,
        fst (startTimeTracking (Sample.at_time 0 Sample.camera)
               (Sample.ann_starts "alpha" "design") Sample.office)
        = inl resp1
        /\ status resp1 = 201
        /\ startTimeTracking (Sample.at_time 5 Sample.camera)
             (Sample.ann_starts "beta" "audit")
             (snd (startTimeTracking (Sample.at_time 0 Sample.camera)
                     (Sample.ann_starts "alpha" "design") Sample.office))
           = (inr (NextError "Employee already has an active time entry"
                     400),
              snd (startTimeTracking (Sample.at_time 0 Sample.camera)
                     (Sample.ann_starts "alpha" "design") Sample.office))).
Proof.
  assert (H0 : unique_active Sample.office).
  { intros e. simpl. lia. }
  assert (Hpass : checks_pass (Sample.ann_starts "alpha" "design")
                    Sample.office
                    (mkCleared "ann" Sample.alpha Sample.design)).
  { constructor; reflexivity. }
  assert (Hclock : at_new (Sample.at_time 0 Sample.camera)
                   <= at_save (Sample.at_time 0 Sample.camera)).
  { simpl. lia. }
  destruct (one_active_entry_per_employee Sample.office H0)
    as (Hall & Hfirst & Hsecond).
  split; [apply Hall|].
  destruct (Hfirst (Sample.at_time 0 Sample.camera)
              (Sample.ann_starts "alpha" "design") _ Hpass Hclock)
    as (resp1 & Hok & Hstatus & _).
  exists resp1. split; [exact Hok|]. split; [exact Hstatus|].
  exact (proj1 (Hsecond (Sample.at_time 0 Sample.camera)
                  (Sample.at_time 5 Sample.camera)
                  (Sample.ann_starts "alpha" "design")
                  (Sample.ann_starts "beta" "audit")
                  "ann" resp1 eq_refl eq_refl Hok)).
Defined.

(** C1, counterexample. The property does not hold at any time: from a
    state without entries, two starts of one employee that overlap (the
    second is served entirely between the checks and the save of the
    first) are both answered with 201, and the employee then has two
    active entries, on two different tasks. *)
Lemma overlapping_starts_leave_two_active :
  unique_active Sample.office
  /\ (exists r1 r2,
        fst Sample.overlap
        = [Interleaving.Replied (inl r1); Interleaving.Replied (inl r2)]
        /\ status r1 = 201 /\ status r2 = 201
        /\ TimeEntry.taskId (data r1) = "design"
        /\ TimeEntry.taskId (data r2) = "audit")
  /\ map TimeEntry.isActive
       (active_of "ann" (timeentries (snd Sample.overlap)))
     = [true; true]
  /\ ~ unique_active (snd Sample.overlap).
Proof.
  split; [intros e; simpl; lia|]. split; [|split].
  - eexists _, _. split; [vm_compute; reflexivity|].
    repeat split; reflexivity.
  - vm_compute. reflexivity.
  - intros H. specialize (H "ann"). vm_compute in H. lia.
Qed.

(** ** Stop: preconditions and stopping twice *)

Lemma findOneActiveById_some (id : ObjectId) (e : string)
    (c : list TimeEntry.t) (x : TimeEntry.t) :
  TimeEntry.findOneActiveById id e c = Some x ->
  In x c /\ TimeEntry._id x = id /\ TimeEntry.employeeId x = e
  /\ TimeEntry.isActive x = true.
Proof.
  intros H. apply find_some in H. destruct H as [Hin Hp].
  apply andb_prop in Hp. destruct Hp as [Hp Hact].
  apply andb_prop in Hp. destruct Hp as [Hid Hemp].
  apply Nat.eqb_eq in Hid. apply String.eqb_eq in Hemp. auto.
Qed.


(** A stop that succeeded: the entry it found and the state it left. *)
Lemma stopTimeTracking_success (now : Z) (b : bool)
    (req : StopTimeTrackingRequest.t) (s : Server) (e : string)
    (resp : ApiResponse TimeEntry.t) :
  Js.truthy (StopTimeTrackingRequest.userId req) = Some e ->
  fst (stopTimeTracking now b req s) = inl resp ->
  exists x o,
    TimeEntry.findOneActiveById (StopTimeTrackingRequest.timeEntryId req) e
      (timeentries s) = Some x
    /\ TimeEntry.startTime x <= now
    /\ stopped_from x now (data resp)
    /\ status resp = 200
    /\ snd (stopTimeTracking now b req s)
       = with_outbox o
           (with_timeentries
              (TimeEntry.updateOne (data resp) (timeentries s)) s).
Proof.
  intros He Hok.
  destruct (TimeEntry.findOneActiveById
              (StopTimeTrackingRequest.timeEntryId req) e (timeentries s))
    as [x|] eqn:Hx.
  2:{ rewrite (stopTimeTracking_not_found now b req s e He Hx) in Hok.
      discriminate. }
  destruct (Z.lt_ge_cases now (TimeEntry.startTime x)) as [Hlt|Hge].
  { rewrite (stopTimeTracking_clock_behind now b req s e x He Hx Hlt) in Hok.
    discriminate. }
  destruct (stopTimeTracking_found now b req s e x He Hx Hge)
    as (d & o & Heq & Hd).
  rewrite Heq in *. simpl in Hok. injection Hok as <-.
  exists x, o. simpl. auto.
Qed.



(** ** Duration *)

Lemma startTimeTracking_keeps_session (env : StartEnv)
    (req : StartTimeTrackingRequest.t) (s : Server) (id : ObjectId)
    (t0 : Z) :
  session_known id t0 s ->
  session_known id t0 (snd (startTimeTracking env req s)).
Proof.
  intros [[x0 [Hin0 Hid0]] Hall].
  destruct (startTimeTracking_cases env req s)
    as [(h & -> & _) | (cl & d & r & s' & _ & -> & Hd & Hc & _)];
    simpl; [split; eauto|].
  unfold session_known. rewrite Hc. split.
  - exists x0. split; [apply in_or_app; now left|exact Hid0].
  - intros x Hin Hid. apply in_app_or in Hin. destruct Hin as [Hin|Hin].
    + now apply Hall.
    + destruct Hin as [<-|[]]. apply fresh_id_above in Hin0.
      rewrite (created_id Hd) in Hid. lia.
Qed.

Lemma stopTimeTracking_keeps_session (now : Z) (b : bool)
    (req : StopTimeTrackingRequest.t) (s : Server) (id : ObjectId)
    (t0 : Z) :
  session_known id t0 s ->
  session_known id t0 (snd (stopTimeTracking now b req s)).
Proof.
  intros Hs.
  destruct (Js.truthy (StopTimeTrackingRequest.userId req)) as [e|] eqn:He.
  2:{ now rewrite stopTimeTracking_unauthenticated. }
  destruct (TimeEntry.findOneActiveById
              (StopTimeTrackingRequest.timeEntryId req) e (timeentries s))
    as [x|] eqn:Hx.
  2:{ now rewrite (stopTimeTracking_not_found now b req s e He Hx). }
  destruct (Z.lt_ge_cases now (TimeEntry.startTime x)) as [Hlt|Hge].
  { now rewrite (stopTimeTracking_clock_behind now b req s e x He Hx Hlt). }
  destruct (stopTimeTracking_found now b req s e x He Hx Hge)
    as (d & o & -> & Hd).
  apply findOneActiveById_some in Hx. destruct Hx as [Hinx _].
  destruct Hs as [[x0 [Hin0 Hid0]] Hall].
  unfold session_known. simpl. split.
  - destruct (Nat.eqb_spec (TimeEntry._id x0) (TimeEntry._id d)) as [E|E].
    + exists d. split; [now apply (updateOne_In d x0)|congruence].
    + exists x0. split; [|exact Hid0]. unfold TimeEntry.updateOne.
      apply in_map_iff. exists x0. split; [|exact Hin0].
      apply Nat.eqb_neq in E. now rewrite E.
  - intros y Hy Hid. unfold TimeEntry.updateOne in Hy.
    apply in_map_iff in Hy. destruct Hy as [z [Hz Hinz]].
    destruct (Nat.eqb (TimeEntry._id z) (TimeEntry._id d)).
    + subst y. rewrite (stopped_start Hd). apply Hall; [exact Hinx|].
      rewrite <- (stopped_id Hd). exact Hid.
    + subst y. now apply Hall.
Qed.

Lemma serve_all_keeps_session (rs : list Request) (s : Server)
    (id : ObjectId) (t0 : Z) :
  session_known id t0 s -> session_known id t0 (serve_all rs s).
Proof.
  revert s. induction rs as [|r rs IH]; intros s Hs; simpl; [exact Hs|].
  apply IH. destruct r as [env req|now b req|u]; simpl.
  - now apply startTimeTracking_keeps_session.
  - now apply stopTimeTracking_keeps_session.
  - now rewrite getActiveTimeEntries_reads_only.
Qed.

Lemma started_session_known (env : StartEnv)
    (req : StartTimeTrackingRequest.t) (s : Server)
    (resp : ApiResponse TimeEntry.t) :
  fst (startTimeTracking env req s) = inl resp ->
  TimeEntry.startTime (data resp) = at_new env
  /\ TimeEntry.isActive (data resp) = true
  /\ status resp = 201
  /\ session_known (TimeEntry._id (data resp)) (at_new env)
       (snd (startTimeTracking env req s)).
Proof.
  intros Hok.
  destruct (startTimeTracking_cases env req s)
    as [(h & Heq & _) | (cl & d & r & s' & _ & Heq & Hd & Hc & _ & _ & _
                         & _ & Hr)];
    rewrite Heq in *; simpl in *; [discriminate|].
  destruct Hr as [-> | [x ->]]; [|discriminate].
  injection Hok as <-. simpl.
  split; [exact (created_start Hd)|].
  split; [exact (created_active Hd)|]. split; [reflexivity|].
  unfold session_known. rewrite Hc. split.
  - exists d. split; [apply in_or_app; right; now left|reflexivity].
  - intros x Hin Hid. apply in_app_or in Hin. destruct Hin as [Hin|Hin].
    + apply fresh_id_above in Hin. rewrite (created_id Hd) in Hid. lia.
    + destruct Hin as [<-|[]]. exact (created_start Hd).
Qed.

Lemma trackingDuration_active (now : Z) (a : TimeTrackingService.t)
    (e : TimeEntry.t) :
  TimeTrackingService.activeEntry a = Some e ->
  TimeEntry.isActive e = true ->
  TimeTrackingService.trackingDuration now a = now - TimeEntry.startTime e.
Proof.
  intros Ha He. unfold TimeTrackingService.trackingDuration.
  now rewrite Ha, He.
Qed.

(** C5. A session started at [T0] (the [new Date()] of the start) and
    stopped at [T1] (the [new Date()] of the stop), whatever requests were
    served in between, has the duration [T1 - T0] in the stop's reply,
    with [endTime = T1].  While the agent holds an active entry, its
    [trackingDuration] read at time [T] is [T - startTime]; for the entry
    that the server's start returned this is [T - T0]; a later read never
    gives less and, when the clock has advanced, gives more. *)
Theorem duration_is_elapsed_time :
  (forall (env : StartEnv) (req : StartTimeTrackingRequest.t) (s : Server)
          (resp0 : ApiResponse TimeEntry.t) (rs : list Request)
          (T1 : Z) (b : bool) (stop : StopTimeTrackingRequest.t)
          (e : string) (resp1 : ApiResponse TimeEntry.t),
     fst (startTimeTracking env req s) = inl resp0 ->
     Js.truthy (StopTimeTrackingRequest.userId stop) = Some e ->
     StopTimeTrackingRequest.timeEntryId stop = TimeEntry._id (data resp0) ->
     fst (stopTimeTracking T1 b stop
            (serve_all rs (snd (startTimeTracking env req s)))) = inl resp1 ->
     TimeEntry.startTime (data resp0) = at_new env
     /\ TimeEntry.duration (data resp1) = T1 - at_new env
     /\ TimeEntry.endTime (data resp1) = Some T1
     /\ TimeEntry.isActive (data resp1) = false)
  /\ (forall (a : TimeTrackingService.t) (x : TimeEntry.t) (T : Z),
        TimeTrackingService.activeEntry a = Some x ->
        TimeEntry.isActive x = true ->
        TimeTrackingService.trackingDuration T a = T - TimeEntry.startTime x)
  /\ (forall (env : StartEnv) (req : StartTimeTrackingRequest.t)
        (s : Server) (resp0 : ApiResponse TimeEntry.t)
        (a : TimeTrackingService.t) (T : Z),
        fst (startTimeTracking env req s) = inl resp0 ->
        TimeTrackingService.activeEntry a = None ->
        TimeTrackingService.trackingDuration T
          (snd (TimeTrackingService.startTracking
                  (api_of_reply "Failed to start time tracking"
                     (fst (startTimeTracking env req s))) a))
        = T - at_new env)
  /\ (forall (a : TimeTrackingService.t) (T T' : Z),
        T <= T' ->
        TimeTrackingService.trackingDuration T a
        <= TimeTrackingService.trackingDuration T' a)
  /\ (forall (a : TimeTrackingService.t) (T T' : Z),
        TimeTrackingService.isTracking a = true ->
        T < T' ->
        TimeTrackingService.trackingDuration T a
        < TimeTrackingService.trackingDuration T' a).
Proof.
  split; [|split; [|split; [|split]]].
  - intros env req s resp0 rs T1 b stop e resp1 Hstart He Hid Hstop.
    destruct (started_session_known env req s resp0 Hstart)
      as (Ht0 & _ & _ & Hknown).
    apply (serve_all_keeps_session rs) in Hknown.
    destruct (stopTimeTracking_success T1 b stop _ e resp1 He Hstop)
      as (x & o & Hx & _ & Hd & _).
    apply findOneActiveById_some in Hx. destruct Hx as (Hin & Hxid & _).
    destruct Hknown as [_ Hall].
    rewrite Hid in Hxid. specialize (Hall x Hin Hxid).
    split; [exact Ht0|]. split; [|split].
    + rewrite (stopped_duration Hd), Hall. reflexivity.
    + exact (stopped_end Hd).
    + exact (stopped_inactive Hd).
  - intros a x T. apply trackingDuration_active.
  - intros env req s resp0 a T Hstart Hidle.
    destruct (started_session_known env req s resp0 Hstart)
      as (Ht0 & Hact & _).
    rewrite Hstart. simpl.
    unfold TimeTrackingService.startTracking. rewrite Hidle. simpl.
    unfold TimeTrackingService.trackingDuration. simpl.
    assert (Hkeep : forall a0,
      TimeTrackingService.activeEntry
        (TimeTrackingService.startScreenshotCapture a0)
      = TimeTrackingService.activeEntry a0).
    { intros a0. unfold TimeTrackingService.startScreenshotCapture.
      now destruct (TimeTrackingService.screenshotInterval a0). }
    rewrite Hkeep. simpl. now rewrite Hact, Ht0.
  - intros a T T' Hle. unfold TimeTrackingService.trackingDuration.
    destruct (TimeTrackingService.activeEntry a) as [x|]; [|lia].
    destruct (TimeEntry.isActive x); simpl; lia.
  - intros a T T' Hact Hlt.
    unfold TimeTrackingService.isTracking,
      TimeTrackingService.entry_is_active in Hact.
    unfold TimeTrackingService.trackingDuration.
    destruct (TimeTrackingService.activeEntry a) as [x|]; [|discriminate].
    rewrite Hact. simpl. lia.
Qed.

Lemma duration_is_elapsed_time_witness :
  exists resp1,
    fst (stopTimeTracking 125000 true (Sample.ann_stops 1%nat)
           (serve_all [GetActive (Some "ann")] Sample.tracking))
    = inl resp1
    /\ TimeEntry.duration (data resp1) = 125000 - 0.
Proof.
  eassert (H0 : fst (startTimeTracking (Sample.at_time 0 Sample.camera)
                       (Sample.ann_starts "alpha" "design") Sample.office)
                = inl _) by (vm_compute; reflexivity).
  eassert (H1 : fst (stopTimeTracking 125000 true (Sample.ann_stops 1%nat)
                       (serve_all [GetActive (Some "ann")]
                          (snd (startTimeTracking
                                  (Sample.at_time 0 Sample.camera)
                                  (Sample.ann_starts "alpha" "design")
                                  Sample.office))))
                = inl _) by (vm_compute; reflexivity).
  eexists. split; [exact H1|].
  pose proof (proj1 (proj2
      (proj1 duration_is_elapsed_time (Sample.at_time 0 Sample.camera)
         (Sample.ann_starts "alpha" "design") Sample.office _
         [GetActive (Some "ann")] 125000 true (Sample.ann_stops 1%nat) "ann"
         _ H0 eq_refl eq_refl H1))) as K.
  exact K.
Defined.

(** ** Interleaved and serial starts *)

Lemma advance_twice (env : StartEnv) (req : StartTimeTrackingRequest.t)
    (s : Server) :
  Interleaving.advance
    (fst (Interleaving.advance (Interleaving.Checking env req) s))
    (snd (Interleaving.advance (Interleaving.Checking env req) s))
  = (Interleaving.Replied (fst (startTimeTracking env req s)),
     snd (startTimeTracking env req s)).
Proof.
  unfold startTimeTracking, bind. simpl.
  destruct (start_checks req s) as [[cl|h] s']; simpl; [|reflexivity].
  now destruct (start_create env req cl s').
Qed.

Lemma advance_nth_at (done : list Interleaving.Call) (c : Interleaving.Call)
    (rest : list Interleaving.Call) (s : Server) :
  Interleaving.advance_nth (List.length done) (done ++ c :: rest) s
  = (done ++ fst (Interleaving.advance c s) :: rest,
     snd (Interleaving.advance c s)).
Proof.
  induction done as [|d done IH]; simpl.
  - now destruct (Interleaving.advance c s).
  - now rewrite IH.
Qed.

(** The serial schedule is the sequential execution of the handlers. *)
Lemma run_serial (calls : list (StartEnv * StartTimeTrackingRequest.t)) :
  forall (done : list Interleaving.Call) (s : Server),
    Interleaving.run
      (Interleaving.serial (List.length done) (List.length calls))
      (done ++ Interleaving.arrive calls) s
    = (done ++ map Interleaving.Replied (fst (start_each calls s)),
       snd (start_each calls s)).
Proof.
  induction calls as [|[env req] calls IH]; intros done s; simpl.
  - reflexivity.
  - rewrite advance_nth_at.
    pose proof (advance_twice env req s) as H2.
    destruct (Interleaving.advance (Interleaving.Checking env req) s)
      as [c1 s1] eqn:H1. simpl in H2 |- *.
    rewrite advance_nth_at, H2. simpl.
    specialize (IH (done ++ [Interleaving.Replied
                               (fst (startTimeTracking env req s))])
                   (snd (startTimeTracking env req s))).
    rewrite length_app, Nat.add_1_r, <- app_assoc in IH. simpl in IH.
    rewrite IH.
    destruct (startTimeTracking env req s) as [r s2]. simpl.
    destruct (start_each calls s2) as [rs s3]. simpl.
    now rewrite <- app_assoc.
Qed.

Lemma start_each_keeps_unique
    (calls : list (StartEnv * StartTimeTrackingRequest.t)) (s : Server) :
  unique_active s -> unique_active (snd (start_each calls s)).
Proof.
  revert s. induction calls as [|[env req] calls IH]; intros s Hs; simpl;
    [exact Hs|].
  pose proof (startTimeTracking_keeps_unique env req s Hs) as H1.
  destruct (startTimeTracking env req s) as [r s1]. simpl in H1.
  specialize (IH s1 H1). now destruct (start_each calls s1).
Qed.

Lemma start_each_while_busy (e : string)
    (calls : list (StartEnv * StartTimeTrackingRequest.t)) (s : Server)
    (x : TimeEntry.t) :
  all_from e calls ->
  TimeEntry.findOneActive e (timeentries s) = Some x ->
  Forall (fun r => r = conflict) (fst (start_each calls s))
  /\ snd (start_each calls s) = s.
Proof.
  intros Hall Hx. induction Hall as [|[env req] calls He Hall IH]; simpl.
  - auto.
  - simpl in He. rewrite (startTimeTracking_conflict env req s e x He Hx).
    destruct (start_each calls s) as [rs s']. simpl in *.
    destruct IH as [IH1 IH2]. split; [constructor; auto|exact IH2].
Qed.

Lemma start_each_later_conflict (e : string)
    (calls : list (StartEnv * StartTimeTrackingRequest.t)) :
  all_from e calls ->
  forall s : Server, later_calls_conflict (fst (start_each calls s)).
Proof.
  intros Hall. induction Hall as [|[env req] calls He Hall IH]; intros s;
    simpl; [exact I|].
  simpl in He.
  destruct (startTimeTracking env req s) as [r s1] eqn:Hrun.
  destruct r as [resp|h].
  - destruct (started_then_busy env req s resp e He) as [_ [x Hx]];
      [now rewrite Hrun|].
    rewrite Hrun in Hx. simpl in Hx.
    destruct (start_each_while_busy e calls s1 x Hall Hx) as [Hc _].
    destruct (start_each calls s1) as [rs s2]. simpl in *. exact Hc.
  - specialize (IH s1). now destruct (start_each calls s1).
Qed.

(** C2, as the code has it. The [timeentries] collection has no unique
    index and [startTimeTracking] checks and inserts in separate awaited
    steps.  When the calls are served one after the other (each call's
    check and insert run with no other call in between), the outcome is the
    one of the sequential handlers: at most one entry per employee is
    active afterwards and, among calls of one employee, every call after
    the first successful one is answered with the 400 conflict error. *)
Theorem serial_starts_keep_one_active
    (calls : list (StartEnv * StartTimeTrackingRequest.t)) (s : Server) :
  unique_active s ->
  forallb (fun i => negb (index_unique i)) timeentries_indexes = true
  /\ Interleaving.run (Interleaving.serial 0 (List.length calls))
       (Interleaving.arrive calls) s
     = (map Interleaving.Replied (fst (start_each calls s)),
        snd (start_each calls s))
  /\ unique_active
       (snd (Interleaving.run (Interleaving.serial 0 (List.length calls))
               (Interleaving.arrive calls) s))
  /\ (forall e : string, all_from e calls ->
        later_calls_conflict (fst (start_each calls s))).
Proof.
  intros Hs.
  pose proof (run_serial calls [] s) as Hrun. simpl in Hrun.
  split; [reflexivity|]. split; [exact Hrun|]. split.
  - rewrite Hrun. simpl. now apply start_each_keeps_unique.
  - intros e Hall. now apply (start_each_later_conflict e).
Qed.

Lemma serial_starts_keep_one_active_witness :
  unique_active
    (snd (Interleaving.run (Interleaving.serial 0 2)
            (Interleaving.arrive
               [(Sample.at_time 0 Sample.no_display,
                 Sample.ann_starts "alpha" "design");
                (Sample.at_time 1 Sample.no_display,
                 Sample.ann_starts "alpha" "design")])
            Sample.office)).
Proof.
  assert (H0 : unique_active Sample.office).
  { intros e. simpl. lia. }
  exact (proj1 (proj2 (proj2
    (serial_starts_keep_one_active
       [(Sample.at_time 0 Sample.no_display,
         Sample.ann_starts "alpha" "design");
        (Sample.at_time 1 Sample.no_display,
         Sample.ann_starts "alpha" "design")]
       Sample.office H0)))).
Defined.

(** C2, counterexample. Two starts of one employee whose checks both run
    before either insert: both are answered with 201 and the employee has
    two active entries. *)
Lemma interleaved_starts_both_succeed :
  unique_active Sample.office
  /\ (exists r1 r2,
        fst Sample.race
        = [Interleaving.Replied (inl r1); Interleaving.Replied (inl r2)]
        /\ status r1 = 201 /\ status r2 = 201
        /\ TimeEntry.isActive (data r1) = true
        /\ TimeEntry.isActive (data r2) = true
        /\ TimeEntry._id (data r1) <> TimeEntry._id (data r2))
  /\ List.length (active_of "ann" (timeentries (snd Sample.race))) = 2%nat
  /\ ~ unique_active (snd Sample.race).
Proof.
  split; [intros e; simpl; lia|]. split; [|split].
  - eexists _, _. split; [vm_compute; reflexivity|].
    repeat split; try reflexivity. simpl. discriminate.
  - reflexivity.
  - intros H. specialize (H "ann"). vm_compute in H. lia.
Qed.

(** ** Agent start-up *)

(** C3, as the code has it. [initialize], on a service that is not yet
    initialized, makes no server call and leaves the local store as it is.
    With a stored token it loads the cached [activeTimeEntry] and, when
    that entry is present with [isActive] true, a capture timer is running
    afterwards (a new one with the locally configured delay unless one was
    already running); otherwise the timer is left as it was. *)
Theorem initialize_resumes_from_cache (a : TimeTrackingService.t) :
  TimeTrackingService.isInitialized a = false ->
  let a' := TimeTrackingService.initialize a in
  let cache := activeTimeEntry (TimeTrackingService.storeService a) in
  TimeTrackingService.trace a' = TimeTrackingService.trace a
  /\ TimeTrackingService.storeService a' = TimeTrackingService.storeService a
  /\ TimeTrackingService.isInitialized a' = true
  /\ (forall token,
        Js.truthy (auth_token (TimeTrackingService.storeService a))
        = Some token ->
        TimeTrackingService.activeEntry a' = cache
        /\ TimeTrackingService.screenshotInterval a'
           = if TimeTrackingService.entry_is_active cache
             then match TimeTrackingService.screenshotInterval a with
                  | Some running => Some running
                  | None =>
                      Some (mkTimeout
                              (TimeTrackingService.capture_interval
                                 (TimeTrackingService.storeService a)))
                  end
             else TimeTrackingService.screenshotInterval a)
  /\ (Js.truthy (auth_token (TimeTrackingService.storeService a)) = None ->
        TimeTrackingService.activeEntry a'
        = TimeTrackingService.activeEntry a
        /\ TimeTrackingService.screenshotInterval a'
           = TimeTrackingService.screenshotInterval a).
Proof.
  intros Hinit a' cache. subst a' cache.
  unfold TimeTrackingService.initialize. rewrite Hinit.
  destruct (Js.truthy (auth_token (TimeTrackingService.storeService a)))
    as [tok|]; simpl.
  - destruct (TimeTrackingService.entry_is_active
                (activeTimeEntry (TimeTrackingService.storeService a)))
      eqn:Hactive; simpl.
    + unfold TimeTrackingService.startScreenshotCapture. simpl.
      destruct (TimeTrackingService.screenshotInterval a) eqn:Htimer; simpl;
        rewrite ?Htimer;
        (split; [reflexivity|]; split; [reflexivity|];
         split; [reflexivity|]; split; [intros token _; now split|discriminate]).
    + split; [reflexivity|]. split; [reflexivity|]. split; [reflexivity|].
      split; [intros token _; now split|discriminate].
  - split; [reflexivity|]. split; [reflexivity|]. split; [reflexivity|].
    split; [discriminate|intros _; now split].
Qed.

Lemma initialize_resumes_from_cache_witness :
  TimeTrackingService.trace
    (TimeTrackingService.initialize Sample.restarted_agent)
  = TimeTrackingService.trace Sample.restarted_agent.
Proof.
  assert (H : TimeTrackingService.isInitialized Sample.restarted_agent
              = false) by reflexivity.
  exact (proj1 (initialize_resumes_from_cache Sample.restarted_agent H)).
Defined.

(** C3, counterexample. The server has the session stopped and answers the
    active query with an empty list; the agent's store still holds the
    session as active.  [initialize] starts the capture timer, keeps the
    stored session and calls nothing on the server. *)
Lemma initialize_trusts_stale_cache :
  fst (getActiveTimeEntries (Some "ann") Sample.finished)
  = inl (mkResponse 200 [] None)
  /\ activeTimeEntry
       (TimeTrackingService.storeService Sample.restarted_agent)
     = Sample.session
  /\ TimeTrackingService.entry_is_active Sample.session = true
  /\ TimeTrackingService.screenshotInterval
       (TimeTrackingService.initialize Sample.restarted_agent)
     = Some (mkTimeout 300000)
  /\ TimeTrackingService.isTracking
       (TimeTrackingService.initialize Sample.restarted_agent) = true
  /\ activeTimeEntry
       (TimeTrackingService.storeService
          (TimeTrackingService.initialize Sample.restarted_agent))
     = Sample.session
  /\ TimeTrackingService.trace
       (TimeTrackingService.initialize Sample.restarted_agent) = [].
Proof. repeat split; vm_compute; reflexivity. Qed.

(** ** Project and task checks of a start *)

(** C6, as the code has it. For an authenticated employee without an
    active entry, [startTimeTracking] answers 404 when the project is
    missing, 403 when the employee is not in the project's [employees],
    404 when the task is missing and 403 when the employee is not in the
    task's [employees], each time without changing the state.  When both
    memberships hold the entry is created as the last document of the
    collection, active, with the requested project and task; the task's
    own [projectId] is not looked at. *)
Theorem start_checks_project_then_task (env : StartEnv)
    (req : StartTimeTrackingRequest.t) (s : Server) (e : string) :
  Js.truthy (StartTimeTrackingRequest.userId req) = Some e ->
  TimeEntry.findOneActive e (timeentries s) = None ->
  match Project.findById (StartTimeTrackingRequest.projectId req)
          (projects s) with
  | None =>
      startTimeTracking env req s
      = (inr (NextError "Project not found" 404), s)
  | Some project =>
      if negb (Js.includes e (Project.employees project)) then
        startTimeTracking env req s
        = (inr (NextError "Employee not assigned to project" 403), s)
      else
        match Task.findById (StartTimeTrackingRequest.taskId req)
                (tasks s) with
        | None =>
            startTimeTracking env req s
            = (inr (NextError "Task not found" 404), s)
        | Some task =>
            if negb (Js.includes e (Task.employees task)) then
              startTimeTracking env req s
              = (inr (NextError "Employee not assigned to task" 403), s)
            else
              exists d,
                timeentries (snd (startTimeTracking env req s))
                = timeentries s ++ [d]
                /\ TimeEntry.employeeId d = e
                /\ TimeEntry.projectId d
                   = StartTimeTrackingRequest.projectId req
                /\ TimeEntry.taskId d = StartTimeTrackingRequest.taskId req
                /\ TimeEntry.isActive d = true
        end
  end.
Proof.
  intros He Hidle.
  destruct (Project.findById _ _) as [p|] eqn:Hp.
  2:{ apply startTimeTracking_rejected. unfold start_checks. run_handler.
      now rewrite He, Hidle, Hp. }
  destruct (Js.includes e (Project.employees p)) eqn:Hpm; simpl.
  2:{ apply startTimeTracking_rejected. unfold start_checks. run_handler.
      now rewrite He, Hidle, Hp, Hpm. }
  destruct (Task.findById _ _) as [k|] eqn:Hk.
  2:{ apply startTimeTracking_rejected. unfold start_checks. run_handler.
      rewrite He, Hidle, Hp, Hpm. simpl. now rewrite Hk. }
  destruct (Js.includes e (Task.employees k)) eqn:Hkm; simpl.
  2:{ apply startTimeTracking_rejected. unfold start_checks. run_handler.
      rewrite He, Hidle, Hp, Hpm. simpl. now rewrite Hk, Hkm. }
  assert (Hpass : checks_pass req s (mkCleared e p k)) by now constructor.
  apply start_checks_pass_iff in Hpass.
  rewrite (startTimeTracking_cleared env req s _ Hpass).
  destruct (start_create_spec env req (mkCleared e p k) s)
    as (d & r & s' & -> & Hd & Hc & _).
  exists d. simpl. split; [exact Hc|].
  split; [exact (created_employee Hd)|].
  split; [exact (created_project Hd)|].
  split; [exact (created_task Hd)|exact (created_active Hd)].
Qed.

Lemma start_checks_project_then_task_witness :
  startTimeTracking (Sample.at_time 0 Sample.camera)
    (Sample.ann_starts "gamma" "design") Sample.office
  = (inr (NextError "Project not found" 404), Sample.office).
Proof.
  assert (He : Js.truthy (StartTimeTrackingRequest.userId
                            (Sample.ann_starts "gamma" "design"))
               = Some "ann") by reflexivity.
  assert (Hidle : TimeEntry.findOneActive "ann" (timeentries Sample.office)
                  = None) by reflexivity.
  pose proof (start_checks_project_then_task
                (Sample.at_time 0 Sample.camera)
                (Sample.ann_starts "gamma" "design") Sample.office "ann"
                He Hidle) as K.
  vm_compute in K. vm_compute. exact K.
Defined.

(** C6, counterexample. The task "audit" exists and belongs to project
    "beta"; Ann is a member of it and of project "alpha".  Her start for
    project "alpha" with task "audit" is answered with 201 and the entry
    is stored as active. *)
Lemma start_accepts_task_of_other_project :
  Task.findById "audit" (tasks Sample.office) = Some Sample.audit
  /\ Task.projectId Sample.audit = "beta"
  /\ exists resp,
       fst (startTimeTracking (Sample.at_time 0 Sample.no_display)
              (Sample.ann_starts "alpha" "audit") Sample.office)
       = inl resp
       /\ status resp = 201
       /\ TimeEntry.projectId (data resp) = "alpha"
       /\ TimeEntry.taskId (data resp) = "audit"
       /\ TimeEntry.isActive (data resp) = true
       /\ timeentries
            (snd (startTimeTracking (Sample.at_time 0 Sample.no_display)
                    (Sample.ann_starts "alpha" "audit") Sample.office))
          = [data resp].
Proof.
  split; [reflexivity|]. split; [reflexivity|].
  eexists. split; [vm_compute; reflexivity|]. repeat split; reflexivity.
Qed.

(** ** The agent's capture schedule *)

Lemma startScreenshotCapture_timer (a : TimeTrackingService.t) :
  TimeTrackingService.screenshotInterval
    (TimeTrackingService.startScreenshotCapture a)
  = match TimeTrackingService.screenshotInterval a with
    | Some running => Some running
    | None =>
        Some (mkTimeout
                (TimeTrackingService.capture_interval
                   (TimeTrackingService.storeService a)))
    end.
Proof.
  unfold TimeTrackingService.startScreenshotCapture.
  now destruct (TimeTrackingService.screenshotInterval a) eqn:H; simpl.
Qed.

(** C7, as the code has it. After every successful [startTracking] of the
    agent a capture timer is running: a timer that was already running is
    kept, otherwise a new one is created with the delay
    [settings?.screenshotInterval ?? 300000] read from the agent's local
    store, that is the stored value whatever it is, and 300000 ms when the
    settings or the key are absent.  The reply of the server, and with it
    the project's screenshot settings, has no part in the delay. *)
Theorem agent_schedule_uses_local_interval (api : ApiResult TimeEntry.t)
    (a : TimeTrackingService.t) (entry : TimeEntry.t) :
  fst (TimeTrackingService.startTracking api a) = inl entry ->
  let a' := snd (TimeTrackingService.startTracking api a) in
  let store := TimeTrackingService.storeService a in
  TimeTrackingService.screenshotInterval a'
  = match TimeTrackingService.screenshotInterval a with
    | Some running => Some running
    | None => Some (mkTimeout (TimeTrackingService.capture_interval store))
    end
  /\ (forall n, settings store = Some (Settings.mk (Some n)) ->
        TimeTrackingService.capture_interval store = n)
  /\ (settings store = Some (Settings.mk None) ->
        TimeTrackingService.capture_interval store = 300000)
  /\ (settings store = None ->
        TimeTrackingService.capture_interval store = 300000)
  /\ TimeTrackingService.activeEntry a' = Some entry
  /\ activeTimeEntry (TimeTrackingService.storeService a') = Some entry.
Proof.
  intros Hok a' store. subst a' store.
  unfold TimeTrackingService.startTracking in *.
  destruct (TimeTrackingService.activeEntry a) eqn:Hidle; [discriminate|].
  destruct api as [e|msg]; [|discriminate]. simpl in Hok.
  injection Hok as ->.
  unfold TimeTrackingService.startScreenshotCapture,
    TimeTrackingService.store_activeTimeEntry,
    TimeTrackingService.set_activeEntry, TimeTrackingService.set_storeService,
    TimeTrackingService.emit, TimeTrackingService.set_screenshotInterval,
    TimeTrackingService.capture_interval.
  simpl.
  split.
  { destruct (TimeTrackingService.screenshotInterval a); reflexivity. }
  split; [intros n ->; reflexivity|].
  split; [intros ->; reflexivity|].
  split; [intros ->; reflexivity|].
  destruct (TimeTrackingService.screenshotInterval a); simpl; auto.
Qed.

Lemma agent_schedule_uses_local_interval_witness :
  TimeTrackingService.screenshotInterval Sample.tracking_agent
  = Some (mkTimeout 300000).
Proof.
  eassert (H : fst (TimeTrackingService.startTracking
                      (api_of_reply "Failed to start time tracking"
                         (fst (startTimeTracking
                                 (Sample.at_time 0 Sample.camera)
                                 (Sample.ann_starts "alpha" "design")
                                 Sample.office)))
                      Sample.fresh_agent) = inl _)
    by (vm_compute; reflexivity).
  exact (proj1 (agent_schedule_uses_local_interval _ _ _ H)).
Defined.

(** C7, counterexample. Project "alpha" has capture enabled with an
    interval of 120000 ms and the start succeeds on the server; the agent's
    stored settings say 30000 ms.  The capture timer runs every 30000 ms:
    not the project's interval, and below one minute. *)
Lemma schedule_ignores_project_interval :
  Project.screenshotSettings Sample.alpha = Some Sample.every_two_minutes
  /\ screenshotEnabled Sample.every_two_minutes = true
  /\ start_interval Sample.every_two_minutes = 120000
  /\ (exists resp,
        fst (startTimeTracking (Sample.at_time 0 Sample.camera)
               (Sample.ann_starts "alpha" "design") Sample.office)
        = inl resp
        /\ status resp = 201
        /\ fst (TimeTrackingService.startTracking (inl (data resp))
                  Sample.impatient_agent) = inl (data resp)
        /\ TimeTrackingService.screenshotInterval
             (snd (TimeTrackingService.startTracking (inl (data resp))
                     Sample.impatient_agent))
           = Some (mkTimeout 30000))
  /\ 30000 <> 120000 /\ 30000 < 60000.
Proof.
  split; [reflexivity|]. split; [reflexivity|]. split; [reflexivity|].
  split; [|split; [discriminate|reflexivity]].
  eexists. split; [vm_compute; reflexivity|].
  repeat split; vm_compute; reflexivity.
Qed.

(** ** Reading the active session *)

(** C8, as the code has it. [getActiveEntry] answers with at most one
    entry or with absence: the entry held in memory when there is one
    (without a server call), otherwise the first entry of the server's
    list, or absence when the list is empty; it fails only when the server
    call fails.  It never fails because the list has more than one entry.
    The server's [getActiveTimeEntries] answers 200 with every active
    entry of the employee. *)
Theorem getActiveEntry_takes_first (api : ApiResult (list TimeEntry.t))
    (a : TimeTrackingService.t) :
  (forall held, TimeTrackingService.activeEntry a = Some held ->
     TimeTrackingService.getActiveEntry api a = (inl (Some held), a))
  /\ (TimeTrackingService.activeEntry a = None ->
      (forall entries, api = inl entries ->
         fst (TimeTrackingService.getActiveEntry api a)
         = inl (Js.first_or_null entries)
         /\ TimeTrackingService.activeEntry
              (snd (TimeTrackingService.getActiveEntry api a))
            = Js.first_or_null entries)
      /\ (forall msg, api = inr msg ->
            fst (TimeTrackingService.getActiveEntry api a) = inr msg))
  /\ (forall (e : string) (s : Server), Js.truthy (Some e) = Some e ->
        getActiveTimeEntries (Some e) s
        = (inl (mkResponse 200 (active_of e (timeentries s)) None), s)).
Proof.
  split; [|split].
  - intros held H. unfold TimeTrackingService.getActiveEntry.
    now rewrite H.
  - intros H. unfold TimeTrackingService.getActiveEntry. rewrite H.
    split.
    + intros entries ->. simpl. auto.
    + intros msg ->. reflexivity.
  - intros e s He.
    unfold getActiveTimeEntries, TimeEntry.findActiveEntries, bind, reads,
      ret.
    rewrite He. cbv beta iota. rewrite He. reflexivity.
Qed.

Lemma getActiveEntry_takes_first_witness :
  fst (TimeTrackingService.getActiveEntry (inl []) Sample.fresh_agent)
  = inl None.
Proof.
  assert (H : TimeTrackingService.activeEntry Sample.fresh_agent = None)
    by reflexivity.
  exact (proj1 (proj1 (proj1 (proj2
           (getActiveEntry_takes_first (inl []) Sample.fresh_agent)) H)
           [] eq_refl)).
Defined.

(** C8, counterexample. The store holds two active entries of Ann (the
    outcome of the two interleaved starts); the server answers the active
    query with both and the agent returns the first one with success. *)
Lemma getActiveEntry_picks_one_of_two :
  exists e1 e2,
    fst (getActiveTimeEntries (Some "ann") (snd Sample.race))
    = inl (mkResponse 200 [e1; e2] None)
    /\ TimeEntry._id e1 <> TimeEntry._id e2
    /\ fst (TimeTrackingService.getActiveEntry
              (api_of_reply "Failed to get active time entry"
                 (fst (getActiveTimeEntries (Some "ann")
                         (snd Sample.race))))
              Sample.fresh_agent)
       = inl (Some e1).
Proof.
  eexists _, _. split; [vm_compute; reflexivity|].
  split; [simpl; discriminate|vm_compute; reflexivity].
Qed.

(** ** The capture timer after a stop *)

Lemma not_active_as_active (x : ObjectId) (e : TimeEntry.t) :
  not_active_as x e = true -> TimeEntry.isActive e = true ->
  TimeEntry._id e <> x.
Proof.
  unfold not_active_as. intros H Hact. rewrite Hact, andb_true_r in H.
  apply negb_true_iff in H. now apply Nat.eqb_neq.
Qed.

Lemma interval_callback_quiet (x : ObjectId) (shot : option Buffer)
    (a : TimeTrackingService.t) :
  forgotten x a ->
  forgotten x (TimeTrackingService.interval_callback shot a)
  /\ begins_for x
       (TimeTrackingService.trace
          (TimeTrackingService.interval_callback shot a))
     = begins_for x (TimeTrackingService.trace a).
Proof.
  intros Hf. unfold TimeTrackingService.interval_callback.
  destruct (TimeTrackingService.entry_is_active
              (TimeTrackingService.activeEntry a)) eqn:Hact; [|now split].
  unfold TimeTrackingService.captureScreenshot.
  destruct (TimeTrackingService.activeEntry a) as [e|] eqn:He;
    [|now split].
  simpl in Hact.
  pose proof (not_active_as_active x e (proj1 Hf e He) Hact) as Hne.
  assert (Hkeep : forgotten x a) by exact Hf.
  destruct Hf as [Hf1 Hf2].
  apply Nat.eqb_neq in Hne.
  destruct shot as [buf|]; (split;
    [split; simpl; intros e' H'; auto
    |unfold begins_for; simpl; rewrite ?filter_app; simpl; rewrite Hne;
     simpl; rewrite ?app_nil_r; reflexivity]).
Qed.

Lemma perform_quiet (x : ObjectId) (op : AgentOp)
    (a : TimeTrackingService.t) :
  server_keeps_stopped x op = true ->
  forgotten x a ->
  forgotten x (perform op a)
  /\ begins_for x (TimeTrackingService.trace (perform op a))
     = begins_for x (TimeTrackingService.trace a).
Proof.
  intros Hop Hf. destruct op as [|api|api id|api|shot|shot|]; simpl.
  - unfold TimeTrackingService.initialize.
    destruct (TimeTrackingService.isInitialized a); [now split|].
    destruct (Js.truthy _); [|now split].
    destruct Hf as [Hf1 Hf2].
    destruct (TimeTrackingService.entry_is_active _); simpl;
      unfold TimeTrackingService.startScreenshotCapture; simpl;
      try destruct (TimeTrackingService.screenshotInterval a); simpl;
      (split; [split; simpl; auto|reflexivity]).
  - unfold TimeTrackingService.startTracking.
    destruct (TimeTrackingService.activeEntry a) eqn:Ha; [now split|].
    destruct api as [e|msg]; simpl.
    + simpl in Hop.
      unfold TimeTrackingService.startScreenshotCapture. simpl.
      destruct (TimeTrackingService.screenshotInterval a); simpl;
        (split;
         [split; simpl; intros e' H'; injection H' as <-; exact Hop
         |quiet_trace]).
    + destruct Hf as [Hf1 Hf2]. split.
      * split; simpl; intros e' H'; [rewrite Ha in H'; discriminate|auto].
      * quiet_trace.
  - unfold TimeTrackingService.stopTracking.
    destruct (TimeTrackingService.activeEntry a) as [cur|] eqn:Ha;
      [|now split].
    destruct (negb (Nat.eqb (TimeEntry._id cur) id)); [now split|].
    destruct api as [e|msg]; simpl.
    + unfold TimeTrackingService.stopScreenshotCapture. simpl.
      destruct (TimeTrackingService.screenshotInterval a); simpl;
        (split;
         [split; simpl; intros e' H'; discriminate
         |quiet_trace]).
    + destruct Hf as [Hf1 Hf2]. split.
      * split; simpl; intros e' H'; auto.
      * quiet_trace.
  - unfold TimeTrackingService.getActiveEntry.
    destruct (TimeTrackingService.activeEntry a) eqn:Ha; [now split|].
    destruct Hf as [Hf1 Hf2].
    destruct api as [es|msg]; simpl.
    + split.
      * split; simpl; [|auto]. intros e' H'. simpl in Hop.
        destruct es as [|e0 es]; simpl in H'; [discriminate|].
        injection H' as <-. simpl in Hop.
        now apply andb_prop in Hop.
      * quiet_trace.
    + split.
      * split; simpl; intros e' H'; [rewrite Ha in H'; discriminate|auto].
      * quiet_trace.
  - unfold TimeTrackingService.timer_fires.
    destruct (TimeTrackingService.screenshotInterval a); [|now split].
    now apply interval_callback_quiet.
  - now apply interval_callback_quiet.
  - unfold TimeTrackingService.cleanup,
      TimeTrackingService.stopScreenshotCapture.
    destruct (TimeTrackingService.screenshotInterval a); now split.
Qed.

Lemma perform_all_quiet (x : ObjectId) (ops : list AgentOp) :
  forall a : TimeTrackingService.t,
    forallb (server_keeps_stopped x) ops = true ->
    forgotten x a ->
    begins_for x (TimeTrackingService.trace (perform_all ops a))
    = begins_for x (TimeTrackingService.trace a).
Proof.
  induction ops as [|op ops IH]; intros a Hops Hf; simpl; [reflexivity|].
  simpl in Hops. apply andb_prop in Hops. destruct Hops as [Hop Hops].
  destruct (perform_quiet x op a Hop Hf) as [Hf' Htr].
  rewrite (IH (perform op a) Hops Hf'). exact Htr.
Qed.

Lemma timer_fires_without_timer (shots : list (option Buffer)) :
  forall a : TimeTrackingService.t,
    TimeTrackingService.screenshotInterval a = None ->
    perform_all (map OpTimerFires shots) a = a.
Proof.
  induction shots as [|shot shots IH]; intros a Hnone; simpl;
    [reflexivity|].
  unfold TimeTrackingService.timer_fires. rewrite Hnone. now apply IH.
Qed.

(** C9. After [stopTracking] has returned for a session, the capture timer
    is cleared and the service holds no entry, in memory or in its store.
    The event loop then runs no callback, and whatever the agent does
    afterwards (initialize, start, stop, get-active, timer firings, even a
    callback that was already queued when the timer was cleared, cleanup),
    no capture attempt for that session begins, as long as no reply of the
    server shows the stopped session as active again. *)
Theorem no_capture_after_stop (api : ApiResult TimeEntry.t)
    (id : ObjectId) (a : TimeTrackingService.t) (entry : TimeEntry.t) :
  fst (TimeTrackingService.stopTracking api id a) = inl entry ->
  let a' := snd (TimeTrackingService.stopTracking api id a) in
  TimeTrackingService.screenshotInterval a' = None
  /\ TimeTrackingService.activeEntry a' = None
  /\ activeTimeEntry (TimeTrackingService.storeService a') = None
  /\ (forall shots : list (option Buffer),
        perform_all (map OpTimerFires shots) a' = a')
  /\ (forall ops : list AgentOp,
        forallb (server_keeps_stopped id) ops = true ->
        begins_for id (TimeTrackingService.trace (perform_all ops a'))
        = begins_for id (TimeTrackingService.trace a')).
Proof.
  intros Hok a'.
  assert (H3 : TimeTrackingService.screenshotInterval a' = None
               /\ TimeTrackingService.activeEntry a' = None
               /\ activeTimeEntry (TimeTrackingService.storeService a')
                  = None).
  { subst a'. unfold TimeTrackingService.stopTracking in *.
    destruct (TimeTrackingService.activeEntry a) as [cur|];
      [|discriminate].
    destruct (negb (Nat.eqb (TimeEntry._id cur) id)); [discriminate|].
    destruct api as [e|msg]; [|discriminate]. simpl.
    unfold TimeTrackingService.stopScreenshotCapture. simpl.
    destruct (TimeTrackingService.screenshotInterval a) eqn:Ht; simpl;
      rewrite ?Ht; repeat split. }
  destruct H3 as (Ht & Ha & Hs).
  split; [exact Ht|]. split; [exact Ha|]. split; [exact Hs|]. split.
  - intros shots. now apply timer_fires_without_timer.
  - intros ops Hops. apply perform_all_quiet; [exact Hops|].
    split; intros e He; [rewrite Ha in He|rewrite Hs in He]; discriminate.
Qed.

Lemma no_capture_after_stop_witness :
  exists stopped_entry,
    fst (TimeTrackingService.stopTracking
           (api_of_reply "Failed to stop time tracking"
              (fst (stopTimeTracking 125000 true (Sample.ann_stops 1%nat)
                      Sample.tracking)))
           1%nat Sample.tracking_agent) = inl stopped_entry
    /\ begins_for 1%nat
         (TimeTrackingService.trace
            (perform_all
               [OpTimerFires (Some Sample.png);
                OpLateCallback (Some Sample.png);
                OpGetActiveEntry (inl []);
                OpInitialize;
                OpTimerFires None]
               (snd (TimeTrackingService.stopTracking
                       (api_of_reply "Failed to stop time tracking"
                          (fst (stopTimeTracking 125000 true
                                  (Sample.ann_stops 1%nat) Sample.tracking)))
                       1%nat Sample.tracking_agent))))
       = begins_for 1%nat
           (TimeTrackingService.trace
              (snd (TimeTrackingService.stopTracking
                      (api_of_reply "Failed to stop time tracking"
                         (fst (stopTimeTracking 125000 true
                                 (Sample.ann_stops 1%nat) Sample.tracking)))
                      1%nat Sample.tracking_agent))).
Proof.
  eassert (H : fst (TimeTrackingService.stopTracking
                      (api_of_reply "Failed to stop time tracking"
                         (fst (stopTimeTracking 125000 true
                                 (Sample.ann_stops 1%nat) Sample.tracking)))
                      1%nat Sample.tracking_agent) = inl _)
    by (vm_compute; reflexivity).
  eexists. split; [exact H|].
  apply (proj2 (proj2 (proj2 (proj2
           (no_capture_after_stop _ _ _ _ H))))).
  reflexivity.
Defined.

(** ** Capture failures during a start *)

Lemma with_screenshots_same (s : Server) :
  with_screenshots (screenshots s) s = s.
Proof. now destruct s. Qed.

Lemma capture_body_rejects (env : CaptureEnv) (ex : Exn) :
  grab env = Rejects ex \/ writeFile env = Rejects ex
  \/ stat_size env = Rejects ex \/ sharp_metadata env = Rejects ex
  \/ record_save env = Rejects ex ->
  forall (e : string) (id : ObjectId) (p k : string)
         (c : list Screenshot.t),
    exists ex', ScreenshotService.capture_body env e id p k c = Rejects ex'.
Proof.
  intros H e id p k c. unfold ScreenshotService.capture_body,
    ScreenshotService.processScreenshot, ScreenshotService.createThumbnail.
  destruct (grab env) as [img|e0]; [|eexists; reflexivity]. simpl.
  destruct (sharp_resize env); simpl;
    (destruct (writeFile env) as [u|e1]; [|eexists; reflexivity]; simpl;
     destruct (sharp_thumbnail env); simpl;
     (destruct (stat_size env) as [sz|e2]; [|eexists; reflexivity]; simpl;
      destruct (sharp_metadata env) as [info|e3]; [|eexists; reflexivity];
      simpl;
      destruct (record_save env) as [u'|e4]; [|eexists; reflexivity];
      exfalso; destruct H as [H|[H|[H|[H|H]]]]; discriminate)).
Qed.

Lemma rejected_step_fails_capture (env : CaptureEnv) (ex : Exn) :
  grab env = Rejects ex \/ writeFile env = Rejects ex
  \/ stat_size env = Rejects ex \/ sharp_metadata env = Rejects ex
  \/ record_save env = Rejects ex ->
  capture_fails env.
Proof.
  intros H e id p k c.
  destruct (capture_body_rejects env ex H e id p k c) as [ex' Hb].
  unfold ScreenshotService.captureScreenshot. now rewrite Hb.
Qed.

Lemma capture_if_enabled_failed (env : StartEnv)
    (req : StartTimeTrackingRequest.t) (cl : Cleared) (d0 : TimeEntry.t)
    (s : Server) :
  capture_fails (capture env) ->
  capture_if_enabled env req cl d0 s = (inl d0, s).
Proof.
  intros Hfail. unfold capture_if_enabled.
  destruct (Project.screenshotSettings (cleared_project cl)) as [st|];
    [|reflexivity].
  destruct (screenshotEnabled st); [|reflexivity].
  unfold bind, await_capture. rewrite Hfail.
  now rewrite with_screenshots_same.
Qed.

Lemma startTimeTracking_shots (env : StartEnv)
    (req : StartTimeTrackingRequest.t) (s : Server) :
  (List.length (screenshots (snd (startTimeTracking env req s)))
   <= S (List.length (screenshots s)))%nat
  /\ (forall resp, fst (startTimeTracking env req s) = inl resp ->
        (List.length (TimeEntry.screenshots (data resp)) <= 1)%nat).
Proof.
  destruct (startTimeTracking_cases env req s)
    as [(h & -> & _) | (cl & d & r & s' & _ & -> & Hd & _ & _ & _ & _
                        & Hlen & Hr)]; simpl.
  - split; [lia|discriminate].
  - split; [exact Hlen|]. intros resp Hresp.
    destruct Hr as [-> | [x ->]]; [|discriminate].
    injection Hresp as <-. exact (created_shots Hd).
Qed.

(** C10. [captureScreenshot] never rejects: it resolves to an id or to
    [null], and to [null] (inserting no record) as soon as grabbing the
    screen, writing the file, [stat], reading the image metadata or saving
    the record rejects.  A start whose checks pass and whose capture fails
    is answered with 201 and the created entry, which is stored as the
    last document of the collection, active, with no screenshot.  Every
    start adds at most one record to the screenshots collection and the
    entry of its reply lists at most one screenshot. *)
Theorem capture_failure_never_aborts_start :
  (forall (env : CaptureEnv) (e : string) (id : ObjectId) (p k : string)
          (c : list Screenshot.t),
     exists r,
       fst (ScreenshotService.captureScreenshot env e id p k c)
       = Resolves r)
  /\ (forall (env : CaptureEnv) (ex : Exn),
        grab env = Rejects ex \/ writeFile env = Rejects ex
        \/ stat_size env = Rejects ex \/ sharp_metadata env = Rejects ex
        \/ record_save env = Rejects ex ->
        capture_fails env)
  /\ (forall (env : StartEnv) (req : StartTimeTrackingRequest.t)
             (s : Server) (cl : Cleared),
        checks_pass req s cl ->
        capture_fails (capture env) ->
        exists d o,
          startTimeTracking env req s
          = (inl (mkResponse 201 d
                    (Some "Time tracking started successfully")),
             with_outbox o (with_timeentries (timeentries s ++ [d]) s))
          /\ created env req cl s d
          /\ TimeEntry.screenshots d = [])
  /\ (forall (env : StartEnv) (req : StartTimeTrackingRequest.t)
             (s : Server),
        (List.length (screenshots (snd (startTimeTracking env req s)))
         <= S (List.length (screenshots s)))%nat
        /\ (forall resp, fst (startTimeTracking env req s) = inl resp ->
              (List.length (TimeEntry.screenshots (data resp)) <= 1)%nat)).
Proof.
  split; [exact captureScreenshot_resolves|].
  split; [exact rejected_step_fails_capture|].
  split; [|exact startTimeTracking_shots].
  intros env req s cl Hpass Hfail.
  apply start_checks_pass_iff in Hpass.
  rewrite (startTimeTracking_cleared env req s cl Hpass).
  unfold start_create.
  unfold bind at 1, reads at 1. unfold bind at 1.
  rewrite save_new_entry. unfold bind at 1.
  rewrite (capture_if_enabled_failed env req cl _ _ Hfail).
  unfold bind.
  match goal with
  | |- context [notify (smtp env) MailStart (cleared_employee cl) ?s1] =>
      destruct (notify_outbox (smtp env) MailStart (cleared_employee cl) s1)
        as [o ->]
  end.
  eexists _, o. split; [reflexivity|].
  split; [constructor; simpl; auto|reflexivity].
Qed.

Lemma capture_failure_never_aborts_start_witness :
  exists d o,
    startTimeTracking (Sample.at_time 0 Sample.no_display)
      (Sample.ann_starts "alpha" "design") Sample.office
    = (inl (mkResponse 201 d (Some "Time tracking started successfully")),
       with_outbox o
         (with_timeentries (timeentries Sample.office ++ [d])
            Sample.office))
    /\ TimeEntry.isActive d = true
    /\ TimeEntry.screenshots d = [].
Proof.
  assert (Hfail : capture_fails Sample.no_display).
  { apply (proj1 (proj2 capture_failure_never_aborts_start)
             Sample.no_display (CaptureFailure "screenshot-desktop")).
    left. reflexivity. }
  assert (Hpass : checks_pass (Sample.ann_starts "alpha" "design")
                    Sample.office
                    (mkCleared "ann" Sample.alpha Sample.design)).
  { constructor; reflexivity. }
  destruct (proj1 (proj2 (proj2 capture_failure_never_aborts_start))
              (Sample.at_time 0 Sample.no_display)
              (Sample.ann_starts "alpha" "design") Sample.office
              (mkCleared "ann" Sample.alpha Sample.design) Hpass Hfail)
    as (d & o & Heq & Hd & Hshots).
  exists d, o. split; [exact Heq|].
  split; [exact (created_active Hd)|exact Hshots].
Defined.

(** * Further properties *)

(** ** Screenshot lists of an entry *)

Lemma save_result (isNew : bool) (now : Z) (d d1 : TimeEntry.t)
    (c : list TimeEntry.t) :
  fst (TimeEntryMethods.save isNew now d c) = inl d1 ->
  d1 = TimeEntry.pre_save now d.
Proof.
  unfold TimeEntryMethods.save.
  destruct (TimeEntry.validate d); simpl; [discriminate|].
  now intros H; injection H as <-.
Qed.

Lemma pre_save_screenshots (now : Z) (d : TimeEntry.t) :
  TimeEntry.screenshots (TimeEntry.pre_save now d) = TimeEntry.screenshots d.
Proof.
  unfold TimeEntry.pre_save.
  destruct (TimeEntry.endTime d); [reflexivity|].
  now destruct (TimeEntry.isActive d).
Qed.

Lemma has_id_In (x : ObjectId) (l : list ObjectId) :
  has_id x l = true <-> In x l.
Proof.
  unfold has_id. rewrite existsb_exists. split.
  - intros [y [Hy E]]. apply Nat.eqb_eq in E. now subst.
  - intros H. exists x. split; [exact H|apply Nat.eqb_refl].
Qed.

Lemma addScreenshot_list (sid : ObjectId) (now : Z) (d d1 : TimeEntry.t)
    (c : list TimeEntry.t) :
  fst (TimeEntryMethods.addScreenshot sid now d c) = inl d1 ->
  TimeEntry.screenshots d1
  = if has_id sid (TimeEntry.screenshots d) then TimeEntry.screenshots d
    else TimeEntry.screenshots d ++ [sid].
Proof.
  unfold TimeEntryMethods.addScreenshot. intros H.
  apply save_result in H. subst d1. rewrite pre_save_screenshots.
  now destruct (has_id sid (TimeEntry.screenshots d)).
Qed.

(** [addScreenshot] keeps the list of an entry free of duplicates: after
    it the id is in the list, a list without duplicates stays so, and
    adding the same id again leaves the list as it is. *)
Theorem addScreenshot_never_duplicates (sid : ObjectId) (now : Z)
    (d d1 : TimeEntry.t) (c : list TimeEntry.t) :
  fst (TimeEntryMethods.addScreenshot sid now d c) = inl d1 ->
  In sid (TimeEntry.screenshots d1)
  /\ (NoDup (TimeEntry.screenshots d) -> NoDup (TimeEntry.screenshots d1))
  /\ (forall (now' : Z) (c' : list TimeEntry.t) (d2 : TimeEntry.t),
        fst (TimeEntryMethods.addScreenshot sid now' d1 c') = inl d2 ->
        TimeEntry.screenshots d2 = TimeEntry.screenshots d1).
Proof.
  intros H. pose proof (addScreenshot_list sid now d d1 c H) as Hl.
  assert (Hin : In sid (TimeEntry.screenshots d1)).
  { rewrite Hl. destruct (has_id sid (TimeEntry.screenshots d)) eqn:E.
    - now apply has_id_In.
    - apply in_or_app. right. now left. }
  split; [exact Hin|]. split.
  - intros Hnd. rewrite Hl.
    destruct (has_id sid (TimeEntry.screenshots d)) eqn:E; [exact Hnd|].
    apply NoDup_app; [exact Hnd|repeat constructor; intros []|].
    intros x Hx [<-|[]]. apply has_id_In in Hx. congruence.
  - intros now' c' d2 H2.
    rewrite (addScreenshot_list sid now' d1 d2 c' H2).
    apply has_id_In in Hin. now rewrite Hin.
Qed.

Lemma addScreenshot_never_duplicates_witness :
  exists d1,
    fst (TimeEntryMethods.addScreenshot 7%nat 10
           (new_entry (Sample.at_time 0 Sample.camera)
              (Sample.ann_starts "alpha" "design")
              (mkCleared "ann" Sample.alpha Sample.design) 1%nat) [])
    = inl d1
    /\ In 7%nat (TimeEntry.screenshots d1).
Proof.
  eassert (H : fst (TimeEntryMethods.addScreenshot 7%nat 10
                      (new_entry (Sample.at_time 0 Sample.camera)
                         (Sample.ann_starts "alpha" "design")
                         (mkCleared "ann" Sample.alpha Sample.design)
                         1%nat) []) = inl _)
    by (vm_compute; reflexivity).
  eexists. split; [exact H|].
  exact (proj1 (addScreenshot_never_duplicates _ _ _ _ _ H)).
Defined.

Lemma filter_other_app (sid : ObjectId) (l : list ObjectId) :
  ~ In sid l ->
  filter (fun id => negb (Nat.eqb id sid)) (l ++ [sid]) = l.
Proof.
  intros Hn. rewrite filter_app. simpl. rewrite Nat.eqb_refl. simpl.
  rewrite app_nil_r. induction l as [|x l IH]; simpl; [reflexivity|].
  destruct (Nat.eqb_spec x sid) as [->|_]; simpl.
  - exfalso. apply Hn. now left.
  - f_equal. apply IH. intros H. apply Hn. now right.
Qed.

(** [removeScreenshot] removes every occurrence of the id and nothing
    else; removing an id that [addScreenshot] has just appended gives the
    list back. *)
Theorem removeScreenshot_undoes_addScreenshot (sid : ObjectId) (now : Z)
    (d d1 : TimeEntry.t) (c : list TimeEntry.t) :
  fst (TimeEntryExtra.removeScreenshot sid now d c) = inl d1 ->
  ~ In sid (TimeEntry.screenshots d1)
  /\ (forall x, x <> sid ->
        (In x (TimeEntry.screenshots d1) <-> In x (TimeEntry.screenshots d)))
  /\ (forall (now0 : Z) (d0 : TimeEntry.t) (c0 : list TimeEntry.t),
        ~ In sid (TimeEntry.screenshots d0) ->
        fst (TimeEntryMethods.addScreenshot sid now0 d0 c0) = inl d ->
        TimeEntry.screenshots d1 = TimeEntry.screenshots d0).
Proof.
  unfold TimeEntryExtra.removeScreenshot. intros H.
  apply save_result in H. subst d1. rewrite pre_save_screenshots. simpl.
  split; [|split].
  - intros Hin. apply filter_In in Hin. destruct Hin as [_ Hne].
    now rewrite Nat.eqb_refl in Hne.
  - intros x Hx. rewrite filter_In. split; [tauto|].
    intros Hin. split; [exact Hin|].
    apply negb_true_iff. now apply Nat.eqb_neq.
  - intros now0 d0 c0 Hn Hadd.
    rewrite (addScreenshot_list sid now0 d0 d c0 Hadd).
    destruct (has_id sid (TimeEntry.screenshots d0)) eqn:E.
    + apply has_id_In in E. contradiction.
    + now apply filter_other_app.
Qed.

Lemma removeScreenshot_undoes_addScreenshot_witness :
  exists d1,
    fst (TimeEntryExtra.removeScreenshot 1%nat 20
           (Js.nullish Sample.session
              (new_entry (Sample.at_time 0 Sample.camera)
                 (Sample.ann_starts "alpha" "design")
                 (mkCleared "ann" Sample.alpha Sample.design) 1%nat))
           (timeentries Sample.tracking)) = inl d1
    /\ ~ In 1%nat (TimeEntry.screenshots d1).
Proof.
  eassert (H : fst (TimeEntryExtra.removeScreenshot 1%nat 20
                      (Js.nullish Sample.session
                         (new_entry (Sample.at_time 0 Sample.camera)
                            (Sample.ann_starts "alpha" "design")
                            (mkCleared "ann" Sample.alpha Sample.design)
                            1%nat))
                      (timeentries Sample.tracking)) = inl _)
    by (vm_compute; reflexivity).
  eexists. split; [exact H|].
  exact (proj1 (removeScreenshot_undoes_addScreenshot _ _ _ _ _ H)).
Defined.

(** ** Formatted durations *)



(** ** Invariants of the collection *)

Lemma Forall_updateOne (P : TimeEntry.t -> Prop) (d : TimeEntry.t)
    (c : list TimeEntry.t) :
  Forall P c -> P d -> Forall P (TimeEntry.updateOne d c).
Proof.
  intros Hc Hd. unfold TimeEntry.updateOne. apply Forall_map.
  apply (Forall_impl _ (P := P)); [|exact Hc].
  intros x Hx. now destruct (Nat.eqb (TimeEntry._id x) (TimeEntry._id d)).
Qed.

Lemma serve_keeps_coherent (r : Request) (s : Server) :
  Forall coherent (timeentries s) ->
  Forall coherent (timeentries (serve r s)).
Proof.
  intros Hs. destruct r as [env req|now b req|u]; simpl.
  - destruct (startTimeTracking_cases env req s)
      as [(h & -> & _) | (cl & d & r & s' & _ & -> & Hd & Hc & _)];
      simpl; [exact Hs|].
    rewrite Hc. apply Forall_app. split; [exact Hs|].
    constructor; [|constructor]. unfold coherent.
    now rewrite (created_end Hd), (created_active Hd).
  - destruct (Js.truthy (StopTimeTrackingRequest.userId req)) as [e|] eqn:He.
    2:{ now rewrite stopTimeTracking_unauthenticated. }
    destruct (TimeEntry.findOneActiveById
                (StopTimeTrackingRequest.timeEntryId req) e (timeentries s))
      as [x|] eqn:Hx.
    2:{ now rewrite (stopTimeTracking_not_found now b req s e He Hx). }
    destruct (Z.lt_ge_cases now (TimeEntry.startTime x)) as [Hlt|Hge].
    { now rewrite (stopTimeTracking_clock_behind now b req s e x He Hx
                     Hlt). }
    destruct (stopTimeTracking_found now b req s e x He Hx Hge)
      as (d & o & -> & Hd). simpl.
    apply Forall_updateOne; [exact Hs|]. unfold coherent.
    rewrite (stopped_end Hd), (stopped_inactive Hd), (stopped_duration Hd),
      (stopped_start Hd). repeat split; lia.
  - now rewrite getActiveTimeEntries_reads_only.
Qed.

(** The flag and the end time of every stored entry stay in agreement
    under any sequence of start, stop and get-active requests: an entry
    without end time is active, an entry with an end time is inactive and
    its duration is the end time minus the start time, which is not
    negative. *)
Theorem stored_entries_stay_coherent (rs : list Request) (s : Server) :
  Forall coherent (timeentries s) ->
  Forall coherent (timeentries (serve_all rs s)).
Proof.
  revert s. induction rs as [|r rs IH]; intros s Hs; simpl; [exact Hs|].
  apply IH. now apply serve_keeps_coherent.
Qed.

Lemma stored_entries_stay_coherent_witness :
  Forall coherent
    (timeentries
       (serve_all
          [PostStart (Sample.at_time 0 Sample.camera)
             (Sample.ann_starts "alpha" "design");
           PostStop 125000 true (Sample.ann_stops 1%nat)]
          Sample.office)).
Proof.
  assert (H : Forall coherent (timeentries Sample.office))
    by constructor.
  exact (stored_entries_stay_coherent _ _ H).
Defined.

Lemma docs_of_app (x : ObjectId) (c1 c2 : list TimeEntry.t) (s : Server) :
  docs_of x (with_timeentries (c1 ++ c2) s)
  = docs_of x (with_timeentries c1 s) ++ docs_of x (with_timeentries c2 s).
Proof. unfold docs_of. simpl. apply filter_app. Qed.

Lemma filter_id_updateOne (x : ObjectId) (d : TimeEntry.t)
    (c : list TimeEntry.t) :
  TimeEntry._id d <> x ->
  filter (fun y => Nat.eqb (TimeEntry._id y) x) (TimeEntry.updateOne d c)
  = filter (fun y => Nat.eqb (TimeEntry._id y) x) c.
Proof.
  intros Hne. unfold TimeEntry.updateOne.
  induction c as [|y c IH]; simpl; [reflexivity|].
  destruct (Nat.eqb_spec (TimeEntry._id y) (TimeEntry._id d)) as [E|E].
  - apply Nat.eqb_neq in Hne. rewrite Hne.
    rewrite E, Hne. exact IH.
  - destruct (Nat.eqb (TimeEntry._id y) x); [f_equal|]; exact IH.
Qed.

Lemma serve_keeps_stopped_docs (x : ObjectId) (r : Request) (s : Server) :
  docs_of x s <> [] ->
  (forall d, In d (docs_of x s) -> TimeEntry.isActive d = false) ->
  docs_of x (serve r s) = docs_of x s.
Proof.
  intros Hex Hstopped. destruct r as [env req|now b req|u]; simpl.
  - destruct (startTimeTracking_cases env req s)
      as [(h & -> & _) | (cl & d & r & s' & _ & -> & Hd & Hc & _)];
      simpl; [reflexivity|].
    unfold docs_of. rewrite Hc, filter_app. simpl.
    destruct (Nat.eqb_spec (TimeEntry._id d) x) as [E|_];
      [|apply app_nil_r].
    exfalso. destruct (docs_of x s) as [|y l] eqn:Hy; [now apply Hex|].
    assert (Hin : In y (docs_of x s)) by (rewrite Hy; now left).
    unfold docs_of in Hin. apply filter_In in Hin.
    destruct Hin as [Hin Hid]. apply Nat.eqb_eq in Hid.
    apply fresh_id_above in Hin. rewrite (created_id Hd) in E. lia.
  - destruct (Js.truthy (StopTimeTrackingRequest.userId req)) as [e|] eqn:He.
    2:{ now rewrite stopTimeTracking_unauthenticated. }
    destruct (TimeEntry.findOneActiveById
                (StopTimeTrackingRequest.timeEntryId req) e (timeentries s))
      as [y|] eqn:Hy.
    2:{ now rewrite (stopTimeTracking_not_found now b req s e He Hy). }
    destruct (Z.lt_ge_cases now (TimeEntry.startTime y)) as [Hlt|Hge].
    { now rewrite (stopTimeTracking_clock_behind now b req s e y He Hy
                     Hlt). }
    destruct (stopTimeTracking_found now b req s e y He Hy Hge)
      as (d & o & -> & Hd). simpl.
    unfold docs_of. simpl. apply filter_id_updateOne.
    intros E. apply findOneActiveById_some in Hy.
    destruct Hy as (Hin & _ & _ & Hact).
    assert (Hdoc : In y (docs_of x s)).
    { unfold docs_of. apply filter_In. split; [exact Hin|].
      apply Nat.eqb_eq. rewrite <- (stopped_id Hd). exact E. }
    specialize (Hstopped y Hdoc). congruence.
  - now rewrite getActiveTimeEntries_reads_only.
Qed.

(** A stopped entry is final: once the collection holds a session and its
    documents are inactive, no sequence of start, stop and get-active
    requests changes them; the session is not restarted, deleted or
    re-timed. *)
Theorem stopped_entries_are_final (x : ObjectId) (rs : list Request)
    (s : Server) :
  docs_of x s <> [] ->
  (forall d, In d (docs_of x s) -> TimeEntry.isActive d = false) ->
  docs_of x (serve_all rs s) = docs_of x s.
Proof.
  revert s. induction rs as [|r rs IH]; intros s Hex Hstopped; simpl;
    [reflexivity|].
  pose proof (serve_keeps_stopped_docs x r s Hex Hstopped) as Hstep.
  rewrite IH; [exact Hstep| |]; rewrite Hstep; assumption.
Qed.

Lemma stopped_entries_are_final_witness :
  docs_of 1%nat
    (serve_all
       [PostStop 130000 true (Sample.ann_stops 1%nat);
        PostStart (Sample.at_time 140000 Sample.camera)
          (Sample.ann_starts "alpha" "design")]
       Sample.finished)
  = docs_of 1%nat Sample.finished.
Proof.
  eassert (E : docs_of 1%nat Sample.finished = [_])
    by (vm_compute; reflexivity).
  assert (Hex : docs_of 1%nat Sample.finished <> [])
    by (rewrite E; discriminate).
  assert (Hst : forall d, In d (docs_of 1%nat Sample.finished) ->
                          TimeEntry.isActive d = false).
  { intros d Hd. rewrite E in Hd. destruct Hd as [<-|[]]. reflexivity. }
  exact (stopped_entries_are_final 1%nat
           [PostStop 130000 true (Sample.ann_stops 1%nat);
            PostStart (Sample.at_time 140000 Sample.camera)
              (Sample.ann_starts "alpha" "design")]
           Sample.finished Hex Hst).
Defined.

(** ** Replies and writes *)

(** A request that is rejected writes nothing: a start that leaves through
    [createError] (401, 400, 404, 403) and a stop that fails in any way
    return the server state they found, and the active query never
    writes. *)
Theorem rejected_requests_write_nothing :
  (forall (env : StartEnv) (req : StartTimeTrackingRequest.t) (s : Server)
          (m : string) (code : Z),
     fst (startTimeTracking env req s) = inr (NextError m code) ->
     snd (startTimeTracking env req s) = s)
  /\ (forall (now : Z) (b : bool) (req : StopTimeTrackingRequest.t)
             (s : Server) (h : Halt),
        fst (stopTimeTracking now b req s) = inr h ->
        snd (stopTimeTracking now b req s) = s)
  /\ (forall (u : option string) (s : Server),
        snd (getActiveTimeEntries u s) = s).
Proof.
  split; [|split].
  - intros env req s m code H.
    destruct (startTimeTracking_cases env req s)
      as [(h & Heq & _) | (cl & d & r & s' & _ & Heq & _ & _ & _ & _ & _
                           & _ & Hr)];
      rewrite Heq in *; simpl in *; [reflexivity|].
    destruct Hr as [-> | [x ->]]; discriminate.
  - intros now b req s h H.
    destruct (Js.truthy (StopTimeTrackingRequest.userId req)) as [e|] eqn:He.
    2:{ now rewrite stopTimeTracking_unauthenticated. }
    destruct (TimeEntry.findOneActiveById
                (StopTimeTrackingRequest.timeEntryId req) e (timeentries s))
      as [y|] eqn:Hy.
    2:{ now rewrite (stopTimeTracking_not_found now b req s e He Hy). }
    destruct (Z.lt_ge_cases now (TimeEntry.startTime y)) as [Hlt|Hge].
    { now rewrite (stopTimeTracking_clock_behind now b req s e y He Hy
                     Hlt). }
    destruct (stopTimeTracking_found now b req s e y He Hy Hge)
      as (d & o & Heq & _).
    rewrite Heq in H. discriminate.
  - exact getActiveTimeEntries_reads_only.
Qed.

Lemma rejected_requests_write_nothing_witness :
  snd (startTimeTracking (Sample.at_time 5 Sample.camera)
         (Sample.ann_starts "beta" "audit") Sample.tracking)
  = Sample.tracking.
Proof.
  eassert (H : fst (startTimeTracking (Sample.at_time 5 Sample.camera)
                      (Sample.ann_starts "beta" "audit") Sample.tracking)
               = inr (NextError _ _)) by (vm_compute; reflexivity).
  exact (proj1 rejected_requests_write_nothing _ _ _ _ _ H).
Defined.

Lemma capture_if_enabled_with_smtp (b : bool) (env : StartEnv)
    (req : StartTimeTrackingRequest.t) (cl : Cleared) (d : TimeEntry.t) :
  capture_if_enabled (with_smtp b env) req cl d
  = capture_if_enabled env req cl d.
Proof. reflexivity. Qed.

Lemma with_outbox_same (s : Server) : with_outbox (outbox s) s = s.
Proof. now destruct s. Qed.

Lemma start_create_shape (env : StartEnv) (req : StartTimeTrackingRequest.t)
    (cl : Cleared) (s : Server) :
  exists r s', forall b : bool, exists o,
    start_create (with_smtp b env) req cl s = (r, with_outbox o s').
Proof.
  pose (d0 := TimeEntry.pre_save (at_save env)
                (new_entry env req cl
                   (fresh_id (TimeEntry.ids (timeentries s))))).
  pose (s0 := with_timeentries (TimeEntry.insertOne d0 (timeentries s)) s).
  destruct (capture_if_enabled env req cl d0 s0) as [[d1|h] s1] eqn:Hc.
  - exists (inl (mkResponse 201 d1
                   (Some "Time tracking started successfully"))), s1.
    intros b. unfold start_create.
    change (new_entry (with_smtp b env) req cl)
      with (new_entry env req cl).
    change (at_save (with_smtp b env)) with (at_save env).
    change (smtp (with_smtp b env)) with b.
    unfold bind at 1, reads at 1. unfold bind at 1.
    rewrite save_new_entry. unfold bind at 1.
    rewrite capture_if_enabled_with_smtp. fold d0. fold s0. rewrite Hc.
    unfold bind.
    destruct (notify_outbox b MailStart (cleared_employee cl) s1)
      as [o ->].
    exists o. reflexivity.
  - exists (inr h), s1. intros b. unfold start_create.
    change (new_entry (with_smtp b env) req cl)
      with (new_entry env req cl).
    change (at_save (with_smtp b env)) with (at_save env).
    unfold bind at 1, reads at 1. unfold bind at 1.
    rewrite save_new_entry. unfold bind at 1.
    rewrite capture_if_enabled_with_smtp. fold d0. fold s0. rewrite Hc.
    exists (outbox s1). now rewrite with_outbox_same.
Qed.

Lemma with_smtp_same (env : StartEnv) : with_smtp (smtp env) env = env.
Proof. now destruct env. Qed.

Lemma start_create_with_smtp (b : bool) (env : StartEnv)
    (req : StartTimeTrackingRequest.t) (cl : Cleared) (s : Server) :
  fst (start_create (with_smtp b env) req cl s)
  = fst (start_create env req cl s)
  /\ with_outbox [] (snd (start_create (with_smtp b env) req cl s))
     = with_outbox [] (snd (start_create env req cl s)).
Proof.
  destruct (start_create_shape env req cl s) as (r & s' & H).
  destruct (H b) as [o1 H1]. destruct (H (smtp env)) as [o2 H2].
  rewrite with_smtp_same in H2. rewrite H1, H2. split; reflexivity.
Qed.

Lemma stopTimeTracking_shape (now : Z) (req : StopTimeTrackingRequest.t)
    (s : Server) :
  exists r s', forall b : bool, exists o,
    stopTimeTracking now b req s = (r, with_outbox o s').
Proof.
  unfold stopTimeTracking.
  destruct (Js.truthy (StopTimeTrackingRequest.userId req)) as [e|].
  2:{ eexists _, s. intros b. exists (outbox s).
      now rewrite with_outbox_same. }
  unfold bind at 1, reads at 1.
  destruct (TimeEntry.findOneActiveById _ _ _) as [x|].
  2:{ eexists _, s. intros b. exists (outbox s).
      now rewrite with_outbox_same. }
  unfold bind at 1.
  destruct (await_entries (TimeEntryMethods.stop None now x) s)
    as [[d|h] s1].
  2:{ exists (inr h), s1. intros b. exists (outbox s1).
      now rewrite with_outbox_same. }
  unfold bind at 1.
  match goal with
  | |- context [match ?m s1 with _ => _ end] =>
      destruct (m s1) as [[d1|h] s2]
  end.
  2:{ exists (inr h), s2. intros b. exists (outbox s2).
      now rewrite with_outbox_same. }
  exists (inl (mkResponse 200 d1
                 (Some "Time tracking stopped successfully"))), s2.
  intros b. unfold bind.
  destruct (notify_outbox b MailStop e s2) as [o ->].
  exists o. reflexivity.
Qed.

(** Whether the notification mail can be delivered changes neither the
    reply of a start or a stop nor what they write outside the outbox. *)
Theorem mail_delivery_does_not_change_replies :
  (forall (b : bool) (env : StartEnv) (req : StartTimeTrackingRequest.t)
          (s : Server),
     fst (startTimeTracking (with_smtp b env) req s)
     = fst (startTimeTracking env req s)
     /\ with_outbox [] (snd (startTimeTracking (with_smtp b env) req s))
        = with_outbox [] (snd (startTimeTracking env req s)))
  /\ (forall (now : Z) (b b' : bool) (req : StopTimeTrackingRequest.t)
             (s : Server),
        fst (stopTimeTracking now b req s)
        = fst (stopTimeTracking now b' req s)
        /\ with_outbox [] (snd (stopTimeTracking now b req s))
           = with_outbox [] (snd (stopTimeTracking now b' req s))).
Proof.
  split.
  - intros b env req s. unfold startTimeTracking, bind.
    destruct (start_checks req s) as [[cl|h] s1]; [|split; reflexivity].
    apply start_create_with_smtp.
  - intros now b b' req s.
    destruct (stopTimeTracking_shape now req s) as (r & s' & H).
    destruct (H b) as [o1 ->]. destruct (H b') as [o2 ->].
    split; reflexivity.
Qed.

(** ** Start, stop, read back *)

Lemma truthy_some (u : option string) (e : string) :
  Js.truthy u = Some e -> Js.truthy (Some e) = Some e.
Proof.
  destruct u as [[|a r]|]; simpl; try discriminate.
  now intros H; injection H as <-.
Qed.

Lemma active_of_updateOne_filter (e : string) (d : TimeEntry.t)
    (c : list TimeEntry.t) :
  TimeEntry.isActive d = false ->
  active_of e (TimeEntry.updateOne d c)
  = filter (fun y => negb (Nat.eqb (TimeEntry._id y) (TimeEntry._id d)))
      (active_of e c).
Proof.
  intros Hd. unfold active_of, TimeEntry.updateOne.
  induction c as [|y c IH]; simpl; [reflexivity|].
  destruct (Nat.eqb (TimeEntry._id y) (TimeEntry._id d)) eqn:E.
  - rewrite Hd. simpl.
    destruct (TimeEntry.isActive y
              && String.eqb (TimeEntry.employeeId y) e); simpl;
      [rewrite E; simpl|]; exact IH.
  - destruct (TimeEntry.isActive y
              && String.eqb (TimeEntry.employeeId y) e); simpl;
      [rewrite E; simpl; f_equal|]; exact IH.
Qed.

(** Start, then stop of the entry that the start returned, then the active
    query: the server answers 200 with an empty list, whatever was served
    for other sessions before the start. *)
Theorem start_stop_leaves_nothing_active (env : StartEnv)
    (req : StartTimeTrackingRequest.t) (s : Server)
    (resp0 : ApiResponse TimeEntry.t) (T1 : Z) (b : bool)
    (stop : StopTimeTrackingRequest.t) (e : string)
    (resp1 : ApiResponse TimeEntry.t) :
  Js.truthy (StartTimeTrackingRequest.userId req) = Some e ->
  fst (startTimeTracking env req s) = inl resp0 ->
  Js.truthy (StopTimeTrackingRequest.userId stop) = Some e ->
  StopTimeTrackingRequest.timeEntryId stop = TimeEntry._id (data resp0) ->
  fst (stopTimeTracking T1 b stop (snd (startTimeTracking env req s)))
  = inl resp1 ->
  let s2 :=
    snd (stopTimeTracking T1 b stop (snd (startTimeTracking env req s))) in
  getActiveTimeEntries (Some e) s2 = (inl (mkResponse 200 [] None), s2).
Proof.
  intros He Hstart He' Hid Hstop s2.
  destruct (started_then_busy env req s resp0 e He Hstart) as [Hone _].
  destruct (stopTimeTracking_success T1 b stop _ e resp1 He' Hstop)
    as (x & o & Hx & _ & Hd & _ & Hs2).
  fold s2 in Hs2.
  assert (Hnone : active_of e (timeentries s2) = []).
  { rewrite Hs2. simpl.
    rewrite (active_of_updateOne_filter e _ _ (stopped_inactive Hd)).
    rewrite Hone. simpl.
    apply findOneActiveById_some in Hx. destruct Hx as (_ & Hxid & _).
    rewrite (stopped_id Hd), Hxid, Hid, Nat.eqb_refl. reflexivity. }
  pose proof (truthy_some _ _ He) as Ht.
  unfold getActiveTimeEntries, TimeEntry.findActiveEntries, bind, reads, ret.
  rewrite Ht. cbv beta iota. rewrite Ht.
  fold (active_of e (timeentries s2)). now rewrite Hnone.
Qed.

Lemma start_stop_leaves_nothing_active_witness :
  getActiveTimeEntries (Some "ann") Sample.finished
  = (inl (mkResponse 200 [] None), Sample.finished).
Proof.
  eassert (H0 : fst (startTimeTracking (Sample.at_time 0 Sample.camera)
                       (Sample.ann_starts "alpha" "design") Sample.office)
                = inl _) by (vm_compute; reflexivity).
  eassert (H1 : fst (stopTimeTracking 125000 true (Sample.ann_stops 1%nat)
                       (snd (startTimeTracking
                               (Sample.at_time 0 Sample.camera)
                               (Sample.ann_starts "alpha" "design")
                               Sample.office))) = inl _)
    by (vm_compute; reflexivity).
  exact (start_stop_leaves_nothing_active
           (Sample.at_time 0 Sample.camera)
           (Sample.ann_starts "alpha" "design") Sample.office _ 125000 true
           (Sample.ann_stops 1%nat) "ann" _ eq_refl H0 eq_refl eq_refl H1).
Defined.

(** ** Paging of an employee's entries *)

Lemma ceil_div_bounds (total limit : Z) :
  1 <= limit ->
  (ceil_div total limit - 1) * limit < total <= ceil_div total limit * limit.
Proof.
  intros Hl. unfold ceil_div.
  pose proof (Z.div_mod (- total) limit ltac:(lia)) as H1.
  pose proof (Z.mod_pos_bound (- total) limit ltac:(lia)) as H2.
  nia.
Qed.

(** [getEmployeeTimeEntries] answers with every entry of the employee (in
    the date range when both dates are given), whatever page and limit
    are asked for; [total] counts these entries and, for a limit of at
    least 1, [pages] is the least number of pages of that size that hold
    them.  The handler writes nothing. *)
Theorem employee_entries_ignore_paging (employeeId : string)
    (startDate endDate page limit : option Z) (s : Server) :
  1 <= Js.nullish limit 10 ->
  exists r,
    getEmployeeTimeEntries employeeId startDate endDate page limit s
    = (inl r, s)
    /\ (forall page' limit' : option Z,
          exists r',
            getEmployeeTimeEntries employeeId startDate endDate page'
              limit' s = (inl r', s)
            /\ paged_data r' = paged_data r)
    /\ (forall x,
          In x (paged_data r) <->
          In x (timeentries s)
          /\ TimeEntry.employeeId x = employeeId
          /\ (forall lo hi, startDate = Some lo -> endDate = Some hi ->
                lo <= TimeEntry.startTime x <= hi))
    /\ total (pagination r) = Z.of_nat (List.length (paged_data r))
    /\ (pages (pagination r) - 1) * Js.nullish limit 10
       < total (pagination r)
       <= pages (pagination r) * Js.nullish limit 10.
Proof.
  intros Hl. unfold getEmployeeTimeEntries. eexists. split; [reflexivity|].
  simpl. split; [|split; [|split; [reflexivity|now apply ceil_div_bounds]]].
  - intros page' limit'. eexists. split; reflexivity.
  - intros x. unfold TimeEntryExtra.findByEmployee.
    destruct startDate as [lo|], endDate as [hi|]; rewrite filter_In.
    + unfold TimeEntryExtra.started_within.
      rewrite !andb_true_iff, String.eqb_eq, !Z.leb_le. split.
      * intros (Hin & He & H1 & H2). repeat split; auto;
          injection H as <-; injection H0 as <-; assumption.
      * intros (Hin & He & Hr). specialize (Hr lo hi eq_refl eq_refl).
        tauto.
    + rewrite String.eqb_eq. split; [|tauto].
      intros [Hin He]. repeat split; auto; discriminate.
    + rewrite String.eqb_eq. split; [|tauto].
      intros [Hin He]. repeat split; auto; discriminate.
    + rewrite String.eqb_eq. split; [|tauto].
      intros [Hin He]. repeat split; auto; discriminate.
Qed.

Lemma employee_entries_ignore_paging_witness :
  exists r,
    getEmployeeTimeEntries "ann" None None (Some 3) (Some 1) (snd Sample.race)
    = (inl r, snd Sample.race)
    /\ total (pagination r) = Z.of_nat (List.length (paged_data r)).
Proof.
  assert (H : 1 <= Js.nullish (Some 1) 10) by (simpl; lia).
  destruct (employee_entries_ignore_paging "ann" None None (Some 3) (Some 1)
              (snd Sample.race) H) as (r & Hr & _ & _ & Ht & _).
  exists r. split; [exact Hr|exact Ht].
Defined.

(** ** The description given to a stop *)












(** ** The agent: failures, repeated calls, round trip *)

(** A [startTracking] or [stopTracking] of the agent that fails (because
    of its own guard or because the server call failed) keeps the session:
    the entry in memory, the capture timer and the cached entry and
    settings of the store are as before, so after a failed stop the
    capture timer keeps running.  When the guard fails, no server call is
    made and nothing at all changes.  When the call is made and fails, the
    store changes exactly if the reply was a 401: the response interceptor
    of [ApiService] then deletes the token. *)
Theorem failed_agent_calls_keep_the_session :
  (forall (o : ApiOutcome TimeEntry.t) (a : TimeTrackingService.t)
          (msg : string),
     fst (TrackingOverApi.startTracking o a) = inr msg ->
     let a' := snd (TrackingOverApi.startTracking o a) in
     session_state a' = session_state a
     /\ (TimeTrackingService.activeEntry a <> None ->
         TrackingOverApi.startTracking o a
         = (inr "Time tracking is already active", a))
     /\ (TimeTrackingService.activeEntry a = None ->
         In ApiStartTimeTracking (TimeTrackingService.trace a')
         /\ auth_token (TimeTrackingService.storeService a')
            = if unauthorized o then None
              else auth_token (TimeTrackingService.storeService a)))
  /\ (forall (o : ApiOutcome TimeEntry.t) (id : ObjectId)
             (a : TimeTrackingService.t) (msg : string),
        fst (TrackingOverApi.stopTracking o id a) = inr msg ->
        let a' := snd (TrackingOverApi.stopTracking o id a) in
        session_state a' = session_state a
        /\ ((forall held, TimeTrackingService.activeEntry a = Some held ->
                          TimeEntry._id held <> id) ->
            TrackingOverApi.stopTracking o id a
            = (inr "No active time entry found", a))
        /\ (forall held, TimeTrackingService.activeEntry a = Some held ->
                         TimeEntry._id held = id ->
            In (ApiStopTimeTracking id) (TimeTrackingService.trace a')
            /\ auth_token (TimeTrackingService.storeService a')
               = if unauthorized o then None
                 else auth_token (TimeTrackingService.storeService a))).
Proof.
  split.
  - intros o a msg H a'. subst a'.
    unfold TrackingOverApi.startTracking in *.
    destruct (TimeTrackingService.activeEntry a) as [held|] eqn:Ha.
    + unfold TimeTrackingService.startTracking in *. rewrite Ha in *.
      split; [reflexivity|]. split; [reflexivity|discriminate].
    + assert (Hi : TimeTrackingService.activeEntry
                     (TrackingOverApi.intercepted o a) = None) by exact Ha.
      unfold TimeTrackingService.startTracking in *. rewrite Hi in *.
      destruct o as [e|f]; [discriminate|].
      cbn [api_result snd].
      unfold TrackingOverApi.intercepted, response_interceptor.
      destruct (@unauthorized TimeEntry.t (inr f)).
      * split; [unfold session_state; simpl; now rewrite Ha|].
        split; [intros Hn; now destruct Hn|]. intros _.
        split; [apply in_or_app; right; now left|reflexivity].
      * split; [unfold session_state; simpl; now rewrite Ha|].
        split; [intros Hn; now destruct Hn|]. intros _.
        split; [apply in_or_app; right; now left|reflexivity].
  - intros o id a msg H a'. subst a'.
    unfold TrackingOverApi.stopTracking in *.
    destruct (TimeTrackingService.activeEntry a) as [held|] eqn:Ha.
    + destruct (Nat.eqb (TimeEntry._id held) id) eqn:E; cbn [negb] in *.
      * assert (Hi : TimeTrackingService.activeEntry
                       (TrackingOverApi.intercepted o a) = Some held)
          by exact Ha.
        unfold TimeTrackingService.stopTracking in *. rewrite Hi, E in *.
        cbn [negb] in *.
        destruct o as [e|f]; [discriminate|].
        cbn [api_result snd].
        unfold TrackingOverApi.intercepted, response_interceptor.
        apply Nat.eqb_eq in E.
        destruct (@unauthorized TimeEntry.t (inr f)).
        -- split; [unfold session_state; simpl; now rewrite Ha|].
           split; [intros Hn; now destruct (Hn held eq_refl)|].
           intros held' _ _.
           split; [apply in_or_app; right; now left|reflexivity].
        -- split; [unfold session_state; simpl; now rewrite Ha|].
           split; [intros Hn; now destruct (Hn held eq_refl)|].
           intros held' _ _.
           split; [apply in_or_app; right; now left|reflexivity].
      * unfold TimeTrackingService.stopTracking in *. rewrite Ha, E in *.
        cbn [negb snd] in *.
        split; [reflexivity|]. split; [reflexivity|].
        intros held' Hh E'. injection Hh as <-.
        apply Nat.eqb_neq in E. contradiction.
    + unfold TimeTrackingService.stopTracking in *. rewrite Ha in *.
      split; [reflexivity|]. split; [reflexivity|discriminate].
Qed.

Lemma failed_agent_calls_keep_the_session_witness :
  session_state
    (snd (TrackingOverApi.stopTracking
            (inr (mkApiFailure (Some 401) "Invalid token")) 1%nat
            Sample.tracking_agent))
  = session_state Sample.tracking_agent.
Proof.
  eassert (H : fst (TrackingOverApi.stopTracking
                      (inr (mkApiFailure (Some 401) "Invalid token")) 1%nat
                      Sample.tracking_agent) = inr _)
    by (vm_compute; reflexivity).
  exact (proj1 (proj2 failed_agent_calls_keep_the_session _ _ _ _ H)).
Defined.

(** [initialize] and [cleanup] may be called again without effect: a
    second [initialize] changes nothing, and after [cleanup] no timer
    runs, a further [cleanup] changes nothing and the event loop fires no
    capture, while the held entry and the store stay as they were. *)
Theorem initialize_and_cleanup_are_idempotent (a : TimeTrackingService.t) :
  TimeTrackingService.initialize (TimeTrackingService.initialize a)
  = TimeTrackingService.initialize a
  /\ TimeTrackingService.cleanup (TimeTrackingService.cleanup a)
     = TimeTrackingService.cleanup a
  /\ TimeTrackingService.screenshotInterval (TimeTrackingService.cleanup a)
     = None
  /\ (forall shot,
        TimeTrackingService.timer_fires shot (TimeTrackingService.cleanup a)
        = TimeTrackingService.cleanup a)
  /\ TimeTrackingService.activeEntry (TimeTrackingService.cleanup a)
     = TimeTrackingService.activeEntry a
  /\ TimeTrackingService.storeService (TimeTrackingService.cleanup a)
     = TimeTrackingService.storeService a.
Proof.
  assert (Hclean : TimeTrackingService.screenshotInterval
                     (TimeTrackingService.cleanup a) = None).
  { unfold TimeTrackingService.cleanup,
      TimeTrackingService.stopScreenshotCapture.
    now destruct (TimeTrackingService.screenshotInterval a) eqn:E. }
  split; [|split; [|split; [exact Hclean|split; [|split]]]].
  - unfold TimeTrackingService.initialize at 1.
    assert (Hinit : TimeTrackingService.isInitialized a = false ->
                    TimeTrackingService.isInitialized
                      (TimeTrackingService.initialize a) = true).
    { intros Hf. unfold TimeTrackingService.initialize. now rewrite Hf. }
    destruct (TimeTrackingService.isInitialized a) eqn:Ha.
    + unfold TimeTrackingService.initialize. now rewrite Ha, Ha.
    + now rewrite (Hinit eq_refl).
  - unfold TimeTrackingService.cleanup at 1,
      TimeTrackingService.stopScreenshotCapture at 1.
    now rewrite Hclean.
  - intros shot. unfold TimeTrackingService.timer_fires.
    now rewrite Hclean.
  - unfold TimeTrackingService.cleanup,
      TimeTrackingService.stopScreenshotCapture.
    now destruct (TimeTrackingService.screenshotInterval a).
  - unfold TimeTrackingService.cleanup,
      TimeTrackingService.stopScreenshotCapture.
    now destruct (TimeTrackingService.screenshotInterval a).
Qed.

(** An idle agent that starts tracking and then stops the entry it got is
    idle again: it holds no entry, no timer runs, the stored entry is
    cleared and [trackingDuration] reads 0; the server was called exactly
    once to start and once to stop. *)
Theorem agent_start_then_stop_is_idle (a : TimeTrackingService.t)
    (started_entry stopped_entry : TimeEntry.t) :
  TimeTrackingService.activeEntry a = None ->
  let a1 :=
    snd (TimeTrackingService.startTracking (inl started_entry) a) in
  let a2 :=
    snd (TimeTrackingService.stopTracking (inl stopped_entry)
           (TimeEntry._id started_entry) a1) in
  fst (TimeTrackingService.startTracking (inl started_entry) a)
  = inl started_entry
  /\ fst (TimeTrackingService.stopTracking (inl stopped_entry)
            (TimeEntry._id started_entry) a1) = inl stopped_entry
  /\ TimeTrackingService.activeEntry a2 = None
  /\ TimeTrackingService.screenshotInterval a2 = None
  /\ activeTimeEntry (TimeTrackingService.storeService a2) = None
  /\ TimeTrackingService.isTracking a2 = false
  /\ (forall now, TimeTrackingService.trackingDuration now a2 = 0)
  /\ TimeTrackingService.trace a2
     = TimeTrackingService.trace a
       ++ [ApiStartTimeTracking; EmitTimeTrackingUpdate started;
           ApiStopTimeTracking (TimeEntry._id started_entry);
           EmitTimeTrackingUpdate stopped].
Proof.
  intros Hidle a1 a2. subst a2 a1.
  unfold TimeTrackingService.startTracking. rewrite Hidle. simpl.
  unfold TimeTrackingService.stopTracking,
    TimeTrackingService.startScreenshotCapture,
    TimeTrackingService.stopScreenshotCapture,
    TimeTrackingService.trackingDuration, TimeTrackingService.isTracking.
  simpl.
  destruct (TimeTrackingService.screenshotInterval a) eqn:Ht; simpl;
    rewrite ?Ht; simpl; rewrite Nat.eqb_refl; simpl; rewrite ?Ht; simpl;
    rewrite <- ?app_assoc; simpl; repeat split; reflexivity.
Qed.

Lemma agent_start_then_stop_is_idle_witness :
  TimeTrackingService.isTracking
    (snd (TimeTrackingService.stopTracking
            (inl (new_entry (Sample.at_time 0 Sample.camera)
                    (Sample.ann_starts "alpha" "design")
                    (mkCleared "ann" Sample.alpha Sample.design) 1%nat))
            1%nat
            (snd (TimeTrackingService.startTracking
                    (inl (new_entry (Sample.at_time 0 Sample.camera)
                            (Sample.ann_starts "alpha" "design")
                            (mkCleared "ann" Sample.alpha Sample.design)
                            1%nat))
                    Sample.fresh_agent))))
  = false.
Proof.
  assert (H : TimeTrackingService.activeEntry Sample.fresh_agent = None)
    by reflexivity.
  exact (proj1 (proj2 (proj2 (proj2 (proj2 (proj2
           (agent_start_then_stop_is_idle Sample.fresh_agent
              (new_entry (Sample.at_time 0 Sample.camera)
                 (Sample.ann_starts "alpha" "design")
                 (mkCleared "ann" Sample.alpha Sample.design) 1%nat)
              (new_entry (Sample.at_time 0 Sample.camera)
                 (Sample.ann_starts "alpha" "design")
                 (mkCleared "ann" Sample.alpha Sample.design) 1%nat)
              H))))))).
Defined.

(** ** A tick of the capture timer *)

Lemma desktop_capture_resolves (isInitialized : bool) (env : CaptureEnv) :
  exists r,
    DesktopScreenshotService.captureScreenshot isInitialized env
    = Resolves r.
Proof.
  unfold DesktopScreenshotService.captureScreenshot.
  destruct (DesktopScreenshotService.capture_body isInitialized env);
    simpl; eexists; reflexivity.
Qed.

(** The desktop [captureScreenshot] never rejects and gives [null] when
    the service is not initialized, whatever the screen would deliver.  A
    tick of the capture timer keeps the session (the timer keeps running
    after a failed capture or a failed upload); the token of the store
    changes only when an upload was made and answered with 401, which
    deletes it.  The tick begins a capture only for the entry held in
    memory and only while that entry is active, it uploads nothing when
    the capture gave [null], and it reports a captured screenshot only
    after an upload that succeeded, in which case it does what the service
    does without the interceptor. *)
Theorem tick_keeps_schedule_running (isInitialized : bool)
    (env : CaptureEnv) (upload : ApiOutcome unit)
    (a : TimeTrackingService.t) :
  let shot := desktop_shot isInitialized env in
  let a' := TrackingOverApi.timer_fires shot upload a in
  (exists r,
     DesktopScreenshotService.captureScreenshot isInitialized env
     = Resolves r)
  /\ (isInitialized = false ->
      DesktopScreenshotService.captureScreenshot isInitialized env
      = Resolves None)
  /\ session_state a' = session_state a
  /\ (auth_token (TimeTrackingService.storeService a')
      <> auth_token (TimeTrackingService.storeService a) ->
      unauthorized upload = true /\ shot <> None
      /\ auth_token (TimeTrackingService.storeService a') = None)
  /\ (forall x, In (CaptureBegins x) (TimeTrackingService.trace a') ->
        In (CaptureBegins x) (TimeTrackingService.trace a)
        \/ exists e, TimeTrackingService.activeEntry a = Some e
                     /\ TimeEntry._id e = x
                     /\ TimeEntry.isActive e = true)
  /\ (shot = None ->
      forall x, In (ApiUploadScreenshot x) (TimeTrackingService.trace a') ->
                In (ApiUploadScreenshot x) (TimeTrackingService.trace a))
  /\ (forall x,
        In (EmitScreenshotCaptured x) (TimeTrackingService.trace a') ->
        In (EmitScreenshotCaptured x) (TimeTrackingService.trace a)
        \/ exists u, upload = inl u)
  /\ (forall u, upload = inl u ->
        a' = TimeTrackingService.timer_fires shot a).
Proof.
  intros shot a'. subst a'.
  split; [apply desktop_capture_resolves|]. split.
  { intros ->. reflexivity. }
  unfold TrackingOverApi.timer_fires, TrackingOverApi.interval_callback,
    TrackingOverApi.captureScreenshot, TimeTrackingService.timer_fires,
    TimeTrackingService.interval_callback,
    TimeTrackingService.captureScreenshot.
  destruct (TimeTrackingService.screenshotInterval a) eqn:Ht;
    [|split; [reflexivity|];
      split; [intros Hn; now destruct Hn|];
      split; [intros x Hx; now left|];
      split; [intros _ x Hx; exact Hx|];
      split; [intros x Hx; now left|];
      intros u _; reflexivity].
  destruct (TimeTrackingService.activeEntry a) as [e|] eqn:Ha;
    cbn [TimeTrackingService.entry_is_active];
    [|split; [reflexivity|];
      split; [intros Hn; now destruct Hn|];
      split; [intros x Hx; now left|];
      split; [intros _ x Hx; exact Hx|];
      split; [intros x Hx; now left|];
      intros u _; reflexivity].
  destruct (TimeEntry.isActive e) eqn:He;
    [|split; [reflexivity|];
      split; [intros Hn; now destruct Hn|];
      split; [intros x Hx; now left|];
      split; [intros _ x Hx; exact Hx|];
      split; [intros x Hx; now left|];
      intros u _; reflexivity].
  destruct shot as [buf|] eqn:Hs.
  - unfold TrackingOverApi.intercepted, response_interceptor.
    destruct upload as [u|f].
    + cbn [unauthorized].
      split; [unfold session_state; simpl; now rewrite Ht, Ha|].
      split; [intros H; now destruct H|]. split.
      { intros x Hin. simpl in Hin. rewrite !in_app_iff in Hin.
        simpl in Hin.
        destruct Hin as [[[Hin|[Heq|[]]]|[Heq|[]]]|[Heq|[]]];
          try discriminate; [now left|].
        injection Heq as <-. right. now exists e. }
      split; [discriminate|]. split; [intros x _; right; now exists u|].
      intros u' _. now destruct a.
    + destruct (@unauthorized unit (inr f)).
      * split; [unfold session_state; simpl; now rewrite Ht, Ha|].
        split; [intros _; repeat split; discriminate|]. split.
        { intros x Hin. simpl in Hin. rewrite !in_app_iff in Hin.
          simpl in Hin.
          destruct Hin as [[Hin|[Heq|[]]]|[Heq|[]]];
            try discriminate; [now left|].
          injection Heq as <-. right. now exists e. }
        split; [discriminate|]. split; [|discriminate].
        intros x Hin. left. simpl in Hin. rewrite !in_app_iff in Hin.
        simpl in Hin.
        destruct Hin as [[Hin|[Heq|[]]]|[Heq|[]]];
          try discriminate; exact Hin.
      * split; [unfold session_state; simpl; now rewrite Ht, Ha|].
        split; [intros H; now destruct H|]. split.
        { intros x Hin. simpl in Hin. rewrite !in_app_iff in Hin.
          simpl in Hin.
          destruct Hin as [[Hin|[Heq|[]]]|[Heq|[]]];
            try discriminate; [now left|].
          injection Heq as <-. right. now exists e. }
        split; [discriminate|]. split; [|discriminate].
        intros x Hin. left. simpl in Hin. rewrite !in_app_iff in Hin.
        simpl in Hin.
        destruct Hin as [[Hin|[Heq|[]]]|[Heq|[]]];
          try discriminate; exact Hin.
  - split; [unfold session_state; simpl; now rewrite Ht, Ha|].
    split; [intros H; now destruct H|]. split.
    { intros x Hin. simpl in Hin. rewrite in_app_iff in Hin. simpl in Hin.
      destruct Hin as [Hin|[Heq|[]]]; [now left|].
      injection Heq as <-. right. now exists e. }
    split.
    { intros _ x Hin. simpl in Hin. rewrite in_app_iff in Hin.
      simpl in Hin.
      destruct Hin as [Hin|[Heq|[]]]; [exact Hin|discriminate]. }
    split; [|reflexivity].
    intros x Hin. left. simpl in Hin. rewrite in_app_iff in Hin.
    simpl in Hin.
    destruct Hin as [Hin|[Heq|[]]]; [exact Hin|discriminate].
Qed.

Lemma tick_keeps_schedule_running_witness :
  DesktopScreenshotService.captureScreenshot false Sample.camera
  = Resolves None.
Proof.
  exact (proj1 (proj2 (tick_keeps_schedule_running false Sample.camera
                         (inl tt) Sample.tracking_agent)) eq_refl).
Defined.

(** ** Membership changes and the checks of a start *)

Lemma includes_In (x : string) (l : list string) :
  Js.includes x l = true <-> In x l.
Proof.
  unfold Js.includes. rewrite existsb_exists. split.
  - intros [y [Hy E]]. apply String.eqb_eq in E. now subst.
  - intros H. exists x. split; [exact H|apply String.eqb_refl].
Qed.

Lemma includes_after_remove (x : string) (l : list string) :
  Js.includes x (filter (fun id => negb (String.eqb id x)) l) = false.
Proof.
  destruct (Js.includes x (filter _ l)) eqn:E; [|reflexivity].
  apply includes_In in E. apply filter_In in E. destruct E as [_ E].
  now rewrite String.eqb_refl in E.
Qed.

Lemma project_findById_save (id : string) (p p' : Project.t)
    (c : list Project.t) :
  Project.findById id c = Some p ->
  Project._id p' = Project._id p ->
  Project.findById id (ProjectMethods.save p' c) = Some p'.
Proof.
  unfold Project.findById, ProjectMethods.save. intros Hf Hid.
  induction c as [|y c IH]; simpl in *; [discriminate|].
  destruct (String.eqb_spec (Project._id y) id) as [E|E].
  - injection Hf as <-. rewrite Hid, String.eqb_refl.
    rewrite Hid, E, String.eqb_refl. reflexivity.
  - destruct (String.eqb_spec (Project._id y) (Project._id p')) as [E'|E'].
    + assert (Hp : Project._id p = id).
      { clear IH. induction c as [|z c IHc]; simpl in Hf; [discriminate|].
        destruct (String.eqb_spec (Project._id z) id) as [Ez|Ez].
        - now injection Hf as <-.
        - now apply IHc. }
      congruence.
    + apply String.eqb_neq in E. rewrite E. now apply IH.
Qed.

Lemma task_findById_save (id : string) (k k' : Task.t) (c : list Task.t) :
  Task.findById id c = Some k ->
  Task._id k' = Task._id k ->
  Task.findById id (TaskMethods.save k' c) = Some k'.
Proof.
  unfold Task.findById, TaskMethods.save. intros Hf Hid.
  induction c as [|y c IH]; simpl in *; [discriminate|].
  destruct (String.eqb_spec (Task._id y) id) as [E|E].
  - injection Hf as <-. rewrite Hid, String.eqb_refl.
    rewrite Hid, E, String.eqb_refl. reflexivity.
  - destruct (String.eqb_spec (Task._id y) (Task._id k')) as [E'|E'].
    + assert (Hk : Task._id k = id).
      { clear IH. induction c as [|z c IHc]; simpl in Hf; [discriminate|].
        destruct (String.eqb_spec (Task._id z) id) as [Ez|Ez].
        - now injection Hf as <-.
        - now apply IHc. }
      congruence.
    + apply String.eqb_neq in E. rewrite E. now apply IH.
Qed.

(** Membership decides a start.  After [removeEmployee] on the project, a
    start of that employee for the project is answered with 403
    "Employee not assigned to project", and after [removeEmployee] on the
    task (with the project membership in place) with 403 "Employee not
    assigned to task".  After [addEmployee] on both the project and the
    task, the checks of the start pass. *)
Theorem membership_decides_start (env : StartEnv)
    (req : StartTimeTrackingRequest.t) (s : Server) (e : string)
    (p : Project.t) (k : Task.t) :
  Js.truthy (StartTimeTrackingRequest.userId req) = Some e ->
  TimeEntry.findOneActive e (timeentries s) = None ->
  Project.findById (StartTimeTrackingRequest.projectId req) (projects s)
  = Some p ->
  Task.findById (StartTimeTrackingRequest.taskId req) (tasks s) = Some k ->
  (let s' :=
     with_projects (snd (ProjectMethods.removeEmployee e p (projects s))) s
   in startTimeTracking env req s'
      = (inr (NextError "Employee not assigned to project" 403), s'))
  /\ (Js.includes e (Project.employees p) = true ->
      let s' :=
        with_tasks (snd (TaskMethods.removeEmployee e k (tasks s))) s in
      startTimeTracking env req s'
      = (inr (NextError "Employee not assigned to task" 403), s'))
  /\ (let s' :=
        with_tasks (snd (TaskMethods.addEmployee e k (tasks s)))
          (with_projects
             (snd (ProjectMethods.addEmployee e p (projects s))) s) in
      exists cl, checks_pass req s' cl /\ cleared_employee cl = e).
Proof.
  intros He Hidle Hp Hk. split; [|split].
  - intros s'. subst s'. apply startTimeTracking_rejected.
    unfold start_checks, bind, reads, next, ret, createError.
    rewrite He. cbn [timeentries projects tasks with_projects with_tasks].
    rewrite Hidle.
    unfold ProjectMethods.removeEmployee.
    cbn [snd timeentries projects tasks with_projects with_tasks].
    rewrite (project_findById_save _ p _ _ Hp) by reflexivity.
    cbn [Project.employees ProjectMethods.set_employees].
    now rewrite includes_after_remove.
  - intros Hpm s'. subst s'. apply startTimeTracking_rejected.
    unfold start_checks, bind, reads, next, ret, createError.
    rewrite He. cbn [timeentries projects tasks with_projects with_tasks].
    rewrite Hidle.
    cbn [snd timeentries projects tasks with_projects with_tasks].
    rewrite Hp, Hpm.
    cbn [negb snd timeentries projects tasks with_projects with_tasks].
    unfold TaskMethods.removeEmployee.
    cbn [snd timeentries projects tasks with_projects with_tasks].
    rewrite (task_findById_save _ k _ _ Hk) by reflexivity.
    cbn [Task.employees TaskMethods.set_employees].
    now rewrite includes_after_remove.
  - intros s'. subst s'.
    set (p' := fst (ProjectMethods.addEmployee e p (projects s))).
    set (k' := fst (TaskMethods.addEmployee e k (tasks s))).
    exists (mkCleared e p' k'). split; [|reflexivity].
    constructor; simpl.
    + exact He.
    + exact Hidle.
    + apply (project_findById_save _ p); [exact Hp|].
      unfold p'. simpl.
      now destruct (Js.includes e (Project.employees p)).
    + unfold p'. simpl.
      destruct (Js.includes e (Project.employees p)) eqn:E; simpl;
        [exact E|].
      apply includes_In. apply in_or_app. right. now left.
    + apply (task_findById_save _ k); [exact Hk|].
      unfold k'. simpl. now destruct (Js.includes e (Task.employees k)).
    + unfold k'. simpl.
      destruct (Js.includes e (Task.employees k)) eqn:E; simpl; [exact E|].
      apply includes_In. apply in_or_app. right. now left.
Qed.

Lemma membership_decides_start_witness :
  startTimeTracking (Sample.at_time 0 Sample.camera)
    (Sample.ann_starts "alpha" "design")
    (with_projects
       (snd (ProjectMethods.removeEmployee "ann" Sample.alpha
               (projects Sample.office))) Sample.office)
  = (inr (NextError "Employee not assigned to project" 403),
     with_projects
       (snd (ProjectMethods.removeEmployee "ann" Sample.alpha
               (projects Sample.office))) Sample.office).
Proof.
  assert (He : Js.truthy (StartTimeTrackingRequest.userId
                            (Sample.ann_starts "alpha" "design"))
               = Some "ann") by reflexivity.
  assert (Hidle : TimeEntry.findOneActive "ann" (timeentries Sample.office)
                  = None) by reflexivity.
  assert (Hp : Project.findById
                 (StartTimeTrackingRequest.projectId
                    (Sample.ann_starts "alpha" "design"))
                 (projects Sample.office) = Some Sample.alpha)
    by reflexivity.
  assert (Hk : Task.findById
                 (StartTimeTrackingRequest.taskId
                    (Sample.ann_starts "alpha" "design"))
                 (tasks Sample.office) = Some Sample.design)
    by reflexivity.
  exact (proj1 (membership_decides_start (Sample.at_time 0 Sample.camera)
                  (Sample.ann_starts "alpha" "design") Sample.office "ann"
                  Sample.alpha Sample.design He Hidle Hp Hk)).
Defined.

(** ** Cleaning up old screenshots *)

Lemma filter_filter_and (A : Type) (f g : A -> bool) (l : list A) :
  filter f (filter g l) = filter (fun x => g x && f x) l.
Proof.
  induction l as [|x l IH]; simpl; [reflexivity|].
  destruct (g x); simpl; [destruct (f x); simpl; now rewrite IH|exact IH].
Qed.

Lemma filter_all (A : Type) (f : A -> bool) (l : list A) :
  (forall x, In x l -> f x = true) -> filter f l = l.
Proof.
  induction l as [|x l IH]; simpl; intros H; [reflexivity|].
  rewrite (H x) by now left. f_equal. apply IH. intros y Hy. apply H.
  now right.
Qed.

Lemma NoDup_ids_inj (l : list Screenshot.t) (x y : Screenshot.t) :
  NoDup (map Screenshot._id l) -> In x l -> In y l ->
  Screenshot._id x = Screenshot._id y -> x = y.
Proof.
  induction l as [|z l IH]; simpl; intros Hnd Hx Hy E; [contradiction|].
  inversion Hnd as [|? ? Hnotin Hnd']; subst.
  destruct Hx as [<-|Hx], Hy as [<-|Hy]; auto.
  - exfalso. apply Hnotin. rewrite E. now apply in_map.
  - exfalso. apply Hnotin. rewrite <- E. now apply in_map.
Qed.

Lemma NoDup_ids_filter (f : Screenshot.t -> bool) (l : list Screenshot.t) :
  NoDup (map Screenshot._id l) ->
  NoDup (map Screenshot._id (filter f l)).
Proof.
  induction l as [|z l IH]; simpl; intros Hnd; [constructor|].
  inversion Hnd as [|? ? Hnotin Hnd']; subst.
  destruct (f z); simpl; [|now apply IH].
  constructor; [|now apply IH].
  intros Hin. apply Hnotin. apply in_map_iff in Hin.
  destruct Hin as [y [Ey Hy]]. apply filter_In in Hy.
  rewrite <- Ey. apply in_map. tauto.
Qed.

Lemma deleteScreenshot_present (id : ObjectId) (c : list Screenshot.t) :
  In id (map Screenshot._id c) ->
  ScreenshotRetention.deleteScreenshot id c
  = (true, filter (fun r => negb (Nat.eqb (Screenshot._id r) id)) c).
Proof.
  intros Hin. unfold ScreenshotRetention.deleteScreenshot.
  destruct (find (fun r => Nat.eqb (Screenshot._id r) id) c) eqn:Hf;
    [reflexivity|].
  apply in_map_iff in Hin. destruct Hin as [r [E Hr]].
  pose proof (find_none _ _ Hf r Hr) as Hn. simpl in Hn.
  rewrite E, Nat.eqb_refl in Hn. discriminate.
Qed.

Lemma delete_each_spec (old : list Screenshot.t) :
  forall (n : Z) (cur : list Screenshot.t),
    NoDup (map Screenshot._id old) ->
    (forall r, In r old -> In (Screenshot._id r) (map Screenshot._id cur)) ->
    ScreenshotRetention.delete_each old n cur
    = (n + Z.of_nat (List.length old),
       filter
         (fun r => negb (has_id (Screenshot._id r)
                           (map Screenshot._id old))) cur).
Proof.
  induction old as [|r rest IH]; intros n cur Hnd Hin; simpl.
  - rewrite Z.add_0_r. f_equal. symmetry. now apply filter_all.
  - inversion Hnd as [|? ? Hnotin Hnd']; subst.
    rewrite deleteScreenshot_present by (apply Hin; now left).
    rewrite IH; [| exact Hnd' |].
    + f_equal; [lia|]. rewrite filter_filter_and. apply filter_ext.
      intros x. unfold has_id. simpl. now rewrite negb_orb.
    + intros r2 Hr2. specialize (Hin r2 (or_intror Hr2)).
      apply in_map_iff in Hin. destruct Hin as [y [Ey Hy]].
      apply in_map_iff. exists y. split; [exact Ey|].
      apply filter_In. split; [exact Hy|].
      apply negb_true_iff. apply Nat.eqb_neq. rewrite Ey.
      intros E. apply Hnotin. rewrite <- E. now apply in_map.
Qed.

(** [cleanupOldScreenshots] on a collection with unique ids deletes
    exactly the records taken before the cut-off ([daysOld] days before
    now, 90 by default): the records taken at or after the cut-off stay,
    in their order, and the count it returns is the number of records it
    deleted. *)
Theorem cleanup_deletes_exactly_the_old (daysOld : option Z) (now : Z)
    (c : list Screenshot.t) :
  NoDup (map Screenshot._id c) ->
  let cutoffDate := now - Js.nullish daysOld 90 * 24 * 60 * 60 * 1000 in
  ScreenshotRetention.cleanupOldScreenshots daysOld now c
  = (Z.of_nat (List.length (filter (older_than cutoffDate) c)),
     filter (fun r => negb (older_than cutoffDate r)) c)
  /\ (forall r,
        In r (snd (ScreenshotRetention.cleanupOldScreenshots daysOld now c))
        <-> In r c /\ cutoffDate <= Screenshot.takenAt r)
  /\ fst (ScreenshotRetention.cleanupOldScreenshots daysOld now c)
     = Z.of_nat (List.length c)
       - Z.of_nat
           (List.length
              (snd (ScreenshotRetention.cleanupOldScreenshots daysOld now
                      c))).
Proof.
  intros Hnd cutoffDate.
  assert (Heq :
    ScreenshotRetention.cleanupOldScreenshots daysOld now c
    = (Z.of_nat (List.length (filter (older_than cutoffDate) c)),
       filter (fun r => negb (older_than cutoffDate r)) c)).
  { unfold ScreenshotRetention.cleanupOldScreenshots. fold cutoffDate.
    fold (older_than cutoffDate).
    rewrite delete_each_spec.
    - f_equal. apply filter_ext_in. intros r Hr. f_equal.
      destruct (older_than cutoffDate r) eqn:Ho.
      + apply has_id_In. apply in_map. apply filter_In. now split.
      + destruct (has_id _ _) eqn:Hh; [|reflexivity].
        apply has_id_In in Hh. apply in_map_iff in Hh.
        destruct Hh as [y [Ey Hy]]. apply filter_In in Hy.
        destruct Hy as [Hy Hold].
        rewrite (NoDup_ids_inj c y r Hnd Hy Hr Ey) in Hold. congruence.
    - now apply NoDup_ids_filter.
    - intros r Hr. apply in_map. apply filter_In in Hr. tauto. }
  split; [exact Heq|]. rewrite Heq. simpl. split.
  - intros r. rewrite filter_In. unfold older_than.
    rewrite negb_true_iff, Z.ltb_ge. tauto.
  - rewrite <- (filter_length (older_than cutoffDate) c). lia.
Qed.

Lemma cleanup_deletes_exactly_the_old_witness :
  fst (ScreenshotRetention.cleanupOldScreenshots (Some 30) 8000000000
         (screenshots Sample.tracking))
  = 1.
Proof.
  assert (H : NoDup (map Screenshot._id (screenshots Sample.tracking))).
  { vm_compute. repeat constructor. intros []. }
  pose proof (proj1 (cleanup_deletes_exactly_the_old (Some 30) 8000000000
                       (screenshots Sample.tracking) H)) as K.
  rewrite K. vm_compute. reflexivity.
Defined.

(** ** A start whose capture succeeds *)

Lemma capture_body_succeeds (env : CaptureEnv) (e : string)
    (id : ObjectId) (p k : string) (c : list Screenshot.t) :
  capture_succeeds env ->
  exists r,
    ScreenshotService.capture_body env e id p k c = Resolves r
    /\ Screenshot._id r = fresh_id (map Screenshot._id c)
    /\ Screenshot.employeeId r = e /\ Screenshot.timeEntryId r = id
    /\ Screenshot.projectId r = p /\ Screenshot.taskId r = k
    /\ Screenshot.hasPermission r = true
    /\ Screenshot.takenAt r = capture_clock env.
Proof.
  intros (img & size & info & Hg & Hw & Hs & Hm & Hr).
  unfold ScreenshotService.capture_body,
    ScreenshotService.processScreenshot, ScreenshotService.createThumbnail.
  rewrite Hg, Hw, Hs, Hm, Hr.
  destruct (sharp_resize env); destruct (sharp_thumbnail env); simpl;
    eexists; repeat split.
Qed.

Lemma fresh_id_not_in (ids : list ObjectId) : ~ In (fresh_id ids) ids.
Proof.
  intros Hin. unfold fresh_id in Hin.
  assert (H : (list_max ids <= list_max ids)%nat) by lia.
  rewrite list_max_le in H. rewrite Forall_forall in H.
  specialize (H _ Hin). lia.
Qed.

(** When the project has screenshots enabled, every step of the capture
    that can fail resolves and the clock has not gone back between
    [new TimeEntry] and its [save], a start whose checks pass is answered
    with 201; it adds exactly one record to the screenshots collection,
    with an id no earlier record has, and the entry of the reply, stored as
    the last document of the time entries, lists exactly that id.  The
    record carries the entry's id, employee, project and task, and
    [hasPermission] true; the stored duration is the time from
    [new TimeEntry] to the pre-save hook of [addScreenshot]. *)
Theorem successful_capture_is_linked (env : StartEnv)
    (req : StartTimeTrackingRequest.t) (s : Server) (cl : Cleared)
    (st : ScreenshotSettings) :
  checks_pass req s cl ->
  Project.screenshotSettings (cleared_project cl) = Some st ->
  screenshotEnabled st = true ->
  capture_succeeds (capture env) ->
  at_new env <= at_save env ->
  exists d r o,
    startTimeTracking env req s
    = (inl (mkResponse 201 d (Some "Time tracking started successfully")),
       with_outbox o
         (with_timeentries (timeentries s ++ [d])
            (with_screenshots (screenshots s ++ [r]) s)))
    /\ TimeEntry.screenshots d = [Screenshot._id r]
    /\ ~ In (Screenshot._id r) (map Screenshot._id (screenshots s))
    /\ Screenshot.timeEntryId r = TimeEntry._id d
    /\ Screenshot.employeeId r = TimeEntry.employeeId d
    /\ Screenshot.projectId r = TimeEntry.projectId d
    /\ Screenshot.taskId r = TimeEntry.taskId d
    /\ Screenshot.hasPermission r = true
    /\ TimeEntry.isActive d = true
    /\ TimeEntry.duration d = at_addScreenshot env - at_new env.
Proof.
  intros Hpass Hst Hen Hcap Hclock.
  apply start_checks_pass_iff in Hpass.
  rewrite (startTimeTracking_cleared env req s cl Hpass).
  unfold start_create.
  unfold bind at 1, reads at 1. unfold bind at 1.
  rewrite save_new_entry.
  set (oid := fresh_id (TimeEntry.ids (timeentries s))).
  set (d0 := TimeEntry.pre_save (at_save env) (new_entry env req cl oid)).
  unfold bind at 1. unfold capture_if_enabled. rewrite Hst, Hen.
  unfold bind at 1, await_capture, ScreenshotService.captureScreenshot.
  destruct (capture_body_succeeds (capture env) (cleared_employee cl)
              (TimeEntry._id d0) (StartTimeTrackingRequest.projectId req)
              (StartTimeTrackingRequest.taskId req)
              (screenshots
                 (with_timeentries
                    (TimeEntry.insertOne d0 (timeentries s)) s)) Hcap)
    as (r & Hb & Hrid & Hre & Hrt & Hrp & Hrk & Hrperm & _).
  rewrite Hb. cbn [and_then try_catch].
  unfold await_entries, TimeEntryMethods.addScreenshot,
    TimeEntryMethods.save.
  assert (Hno : has_id (Screenshot._id r) (TimeEntry.screenshots d0)
                = false) by reflexivity.
  rewrite Hno.
  assert (Hval : TimeEntry.validate
                   (TimeEntry.set_screenshots
                      (TimeEntry.screenshots d0 ++ [Screenshot._id r]) d0)
                 = None).
  { unfold TimeEntry.validate. simpl.
    destruct (Z.ltb_spec (at_save env - at_new env) 0); [lia|reflexivity]. }
  rewrite Hval.
  set (d := TimeEntry.pre_save (at_addScreenshot env) _).
  cbn [timeentries with_screenshots with_timeentries].
  unfold TimeEntry.insertOne.
  rewrite (updateOne_newest d d0 (timeentries s)) by reflexivity.
  unfold bind.
  match goal with
  | |- context [notify (smtp env) MailStart (cleared_employee cl) ?s1] =>
      destruct (notify_outbox (smtp env) MailStart (cleared_employee cl) s1)
        as [o ->]
  end.
  exists d, r, o. split; [reflexivity|].
  split; [reflexivity|].
  split; [rewrite Hrid; apply fresh_id_not_in|].
  repeat split; try assumption; try reflexivity.
Qed.

Lemma successful_capture_is_linked_witness :
  exists d r o,
    startTimeTracking (Sample.at_time 5 Sample.camera)
      (Sample.ann_starts "alpha" "design") Sample.office
    = (inl (mkResponse 201 d (Some "Time tracking started successfully")),
       with_outbox o
         (with_timeentries (timeentries Sample.office ++ [d])
            (with_screenshots (screenshots Sample.office ++ [r])
               Sample.office)))
    /\ TimeEntry.screenshots d = [Screenshot._id r]
    /\ Screenshot.timeEntryId r = TimeEntry._id d.
Proof.
  assert (Hpass : checks_pass (Sample.ann_starts "alpha" "design")
                    Sample.office
                    (mkCleared "ann" Sample.alpha Sample.design)).
  { constructor; reflexivity. }
  assert (Hcap : capture_succeeds (capture (Sample.at_time 5 Sample.camera))).
  { exists Sample.png, 4, (Some 1920, Some 1080). repeat split. }
  assert (Hclock : at_new (Sample.at_time 5 Sample.camera)
                   <= at_save (Sample.at_time 5 Sample.camera)).
  { simpl. lia. }
  destruct (successful_capture_is_linked (Sample.at_time 5 Sample.camera)
              (Sample.ann_starts "alpha" "design") Sample.office
              (mkCleared "ann" Sample.alpha Sample.design)
              Sample.every_two_minutes Hpass eq_refl eq_refl Hcap Hclock)
    as (d & r & o & Hrun & Hshots & _ & Hlink & _).
  exists d, r, o. split; [exact Hrun|]. split; [exact Hshots|exact Hlink].
Defined.

(** ** Deleting a task that is being tracked *)

Lemma findByIdAndDelete_gone (id : string) (ts : list Task.t) :
  NoDup (map Task._id ts) ->
  Task.findById id (findByIdAndDelete id ts) = None.
Proof.
  unfold Task.findById.
  induction ts as [|k rest IH]; simpl; intros Hnd; [reflexivity|].
  inversion Hnd as [|? ? Hnotin Hnd']; subst.
  destruct (String.eqb_spec (Task._id k) id) as [E|N].
  - destruct (find _ rest) as [k'|] eqn:Hf; [|reflexivity].
    apply find_some in Hf. destruct Hf as [Hin Hk'].
    apply String.eqb_eq in Hk'. exfalso. apply Hnotin.
    rewrite E, <- Hk'. now apply in_map.
  - simpl. destruct (String.eqb_spec (Task._id k) id); [contradiction|].
    now apply IH.
Qed.

Lemma stopTimeTracking_with_tasks (now : Z) (b : bool)
    (req : StopTimeTrackingRequest.t) (ts : list Task.t) (s : Server) :
  stopTimeTracking now b req (with_tasks ts s)
  = (fst (stopTimeTracking now b req s),
     with_tasks ts (snd (stopTimeTracking now b req s))).
Proof.
  destruct s as [te pr tk em sh ob].
  cbv beta iota zeta delta
    [stopTimeTracking bind reads ret next await_entries notify
     sendTimeTrackingNotification with_tasks with_timeentries with_outbox
     timeentries projects tasks employees screenshots outbox fst snd].
  destruct (Js.truthy (StopTimeTrackingRequest.userId req)) as [e|];
    [|reflexivity].
  destruct (TimeEntry.findOneActiveById _ _ _) as [x|]; [|reflexivity].
  destruct (TimeEntryMethods.stop None now x te) as [[d|ex] c];
    [|reflexivity].
  destruct (Js.truthy (StopTimeTrackingRequest.description req)) as [text|].
  - destruct (TimeEntryMethods.updateDescription text now d c)
      as [[d1|ex] c1]; [|reflexivity].
    destruct (Employee.findById e em); reflexivity.
  - destruct (Employee.findById e em); reflexivity.
Qed.

(** [deleteTask] answers 200 for a task that exists and removes it without
    looking at the time entries: entries being tracked on the task stay
    active and listed, every stop gets the reply it would have got before,
    a further start on the task gets 404 "Task not found" once its other
    checks pass, and so does deleting the task again. *)
Theorem deleteTask_keeps_its_entries (id : string) (s : Server)
    (k : Task.t) :
  Task.findById id (tasks s) = Some k ->
  NoDup (map Task._id (tasks s)) ->
  exists s',
    deleteTask id s
    = (inl (mkResponse 200 tt (Some "Task deleted successfully")), s')
    /\ timeentries s' = timeentries s
    /\ (forall u, fst (getActiveTimeEntries u s')
                  = fst (getActiveTimeEntries u s))
    /\ (forall now b req,
          fst (stopTimeTracking now b req s')
          = fst (stopTimeTracking now b req s)
          /\ timeentries (snd (stopTimeTracking now b req s'))
             = timeentries (snd (stopTimeTracking now b req s)))
    /\ (forall env req e p,
          StartTimeTrackingRequest.taskId req = id ->
          Js.truthy (StartTimeTrackingRequest.userId req) = Some e ->
          TimeEntry.findOneActive e (timeentries s) = None ->
          Project.findById (StartTimeTrackingRequest.projectId req)
            (projects s) = Some p ->
          Js.includes e (Project.employees p) = true ->
          startTimeTracking env req s'
          = (inr (NextError "Task not found" 404), s'))
    /\ deleteTask id s' = (inr (NextError "Task not found" 404), s').
Proof.
  intros Hk Hnd.
  exists (with_tasks (findByIdAndDelete id (tasks s)) s).
  assert (Hgone : Task.findById id (findByIdAndDelete id (tasks s)) = None)
    by now apply findByIdAndDelete_gone.
  split.
  { unfold deleteTask, bind, reads, ret. now rewrite Hk. }
  split; [reflexivity|].
  split.
  { intros u. unfold getActiveTimeEntries.
    destruct (Js.truthy u); reflexivity. }
  split.
  { intros now b req. rewrite stopTimeTracking_with_tasks.
    split; [reflexivity|]. cbn [snd]. now destruct (snd _). }
  split.
  { intros env req e p Htask He Hidle Hp Hmem.
    apply startTimeTracking_rejected.
    unfold start_checks, bind, reads, next, ret, createError.
    rewrite He. cbn [timeentries projects tasks with_tasks].
    rewrite Hidle. cbn [snd timeentries projects tasks with_tasks].
    rewrite Hp, Hmem. cbn [negb snd timeentries projects tasks with_tasks].
    rewrite Htask, Hgone. reflexivity. }
  unfold deleteTask, bind, reads, next. cbn beta iota delta [tasks with_tasks].
  now rewrite Hgone.
Qed.

Lemma deleteTask_keeps_its_entries_witness :
  exists s',
    deleteTask "design" Sample.tracking
    = (inl (mkResponse 200 tt (Some "Task deleted successfully")), s')
    /\ fst (getActiveTimeEntries (Some "ann") s')
       = fst (getActiveTimeEntries (Some "ann") Sample.tracking)
    /\ deleteTask "design" s' = (inr (NextError "Task not found" 404), s').
Proof.
  assert (Hk : Task.findById "design" (tasks Sample.tracking)
               = Some Sample.design) by (vm_compute; reflexivity).
  assert (Hnd : NoDup (map Task._id (tasks Sample.tracking))).
  { vm_compute. repeat constructor; simpl; intuition discriminate. }
  destruct (deleteTask_keeps_its_entries "design" Sample.tracking
              Sample.design Hk Hnd)
    as (s' & Hrun & _ & Hactive & _ & _ & Hagain).
  exists s'. split; [exact Hrun|]. split; [apply Hactive|exact Hagain].
Defined.

(** ** Deleting a screenshot that an entry lists *)

Lemma deleteScreenshot_absent (id : ObjectId) (c : list Screenshot.t) :
  ~ In id (map Screenshot._id c) ->
  ScreenshotRetention.deleteScreenshot id c = (false, c).
Proof.
  intros Hnot. unfold ScreenshotRetention.deleteScreenshot.
  destruct (find _ c) as [r|] eqn:Hf; [|reflexivity].
  apply find_some in Hf. destruct Hf as [Hin E].
  apply Nat.eqb_eq in E. exfalso. apply Hnot. rewrite <- E.
  now apply in_map.
Qed.

Lemma ids_after_delete (id : ObjectId) (c : list Screenshot.t) :
  ~ In id
      (map Screenshot._id
         (filter (fun r => negb (Nat.eqb (Screenshot._id r) id)) c)).
Proof.
  intros Hin. apply in_map_iff in Hin. destruct Hin as [r [E Hr]].
  apply filter_In in Hr. destruct Hr as [_ Hr].
  rewrite E, Nat.eqb_refl in Hr. discriminate.
Qed.

(** The handler [deleteScreenshot] answers 404 and writes nothing when no
    record has the id.  When a record has it, the answer is 200, the
    records with that id are gone and the others stay; the time entries are
    not touched, so an entry that listed the screenshot still lists it, and
    asking again gets 404. *)
Theorem deleted_screenshot_stays_listed :
  (forall (sid : ObjectId) (s : Server),
     ~ In sid (map Screenshot._id (screenshots s)) ->
     deleteScreenshot sid s
     = (inr (NextError "Screenshot not found" 404), s))
  /\ (forall (sid : ObjectId) (s : Server) (d : TimeEntry.t),
        In d (timeentries s) ->
        In sid (TimeEntry.screenshots d) ->
        In sid (map Screenshot._id (screenshots s)) ->
        exists s',
          deleteScreenshot sid s
          = (inl (mkResponse 200 tt
                    (Some "Screenshot deleted successfully")), s')
          /\ (forall r, In r (screenshots s')
                        <-> In r (screenshots s)
                            /\ Screenshot._id r <> sid)
          /\ timeentries s' = timeentries s
          /\ In d (timeentries s')
          /\ ~ In sid (map Screenshot._id (screenshots s'))
          /\ deleteScreenshot sid s'
             = (inr (NextError "Screenshot not found" 404), s')).
Proof.
  split.
  - intros sid s Hnot. unfold deleteScreenshot, bind.
    rewrite (deleteScreenshot_absent sid (screenshots s) Hnot).
    now rewrite with_screenshots_same.
  - intros sid s d Hd Hlisted Hrec.
    exists (with_screenshots
              (filter (fun r => negb (Nat.eqb (Screenshot._id r) sid))
                 (screenshots s)) s).
    split.
    { unfold deleteScreenshot, bind.
      now rewrite (deleteScreenshot_present sid (screenshots s) Hrec). }
    split.
    { intros r. cbn [screenshots with_screenshots]. rewrite filter_In.
      rewrite negb_true_iff, Nat.eqb_neq. tauto. }
    split; [reflexivity|]. split; [exact Hd|].
    split; [apply ids_after_delete|].
    unfold deleteScreenshot, bind. cbn [screenshots with_screenshots].
    rewrite (deleteScreenshot_absent sid _ (ids_after_delete sid _)).
    reflexivity.
Qed.

Lemma deleted_screenshot_stays_listed_witness :
  exists s',
    deleteScreenshot 1%nat Sample.tracking
    = (inl (mkResponse 200 tt (Some "Screenshot deleted successfully")), s')
    /\ timeentries s' = timeentries Sample.tracking
    /\ deleteScreenshot 1%nat s'
       = (inr (NextError "Screenshot not found" 404), s').
Proof.
  assert (H : exists d, In d (timeentries Sample.tracking)
                        /\ In 1%nat (TimeEntry.screenshots d)).
  { destruct (timeentries Sample.tracking) as [|d l] eqn:E;
      [vm_compute in E; discriminate|].
    exists d. split; [now left|].
    vm_compute in E. injection E as <- _. now left. }
  destruct H as (d & Hd & Hlisted).
  assert (Hrec : In 1%nat (map Screenshot._id (screenshots Sample.tracking)))
    by (vm_compute; left; reflexivity).
  destruct (proj2 deleted_screenshot_stays_listed 1%nat Sample.tracking d
              Hd Hlisted Hrec)
    as (s' & Hrun & _ & Hentries & _ & _ & Hagain).
  exists s'. split; [exact Hrun|]. split; [exact Hentries|exact Hagain].
Defined.

(** ** Listing screenshots *)

Lemma In_firstn (A : Type) (n : nat) (l : list A) (x : A) :
  In x (firstn n l) -> In x l.
Proof.
  revert l. induction n as [|n IH]; intros [|y l]; simpl; try tauto.
  intros [E|H]; [now left|right; now apply IH].
Qed.

(** [getScreenshots], over any [sort] of the database that reorders its
    input, and for a [limit] the route's schema accepts.  The handler
    writes nothing.  The screenshots it finds are stored records taken
    inside the window, as many as the smaller of [limit] and the number of
    matching records.  When one of them belongs to a project or a task
    that exists, no reply is sent: [res.json] throws a TypeError.
    Otherwise the reply is 200 with these screenshots, [total] is their
    number, and [hasMore] is true exactly when at least [limit] records
    match, so also when exactly [limit] match and the reply holds all of
    them.  The [next] token of the request has no effect. *)
Theorem screenshot_listing_has_more
    (sort : string * Z -> list Screenshot.t -> list Screenshot.t)
    (q : ScreenshotQuery.t) (s : Server) :
  (forall k l, List.length (sort k l) = List.length l) ->
  (forall k l x, In x (sort k l) <-> In x l) ->
  1 <= Js.nullish (ScreenshotQuery.limit q) 15 ->
  let limit := Js.nullish (ScreenshotQuery.limit q) 15 in
  let matching :=
    Z.of_nat (List.length (filter (shot_query q) (screenshots s))) in
  snd (getScreenshots sort q s) = s
  /\ Z.of_nat (List.length (listed sort q s)) = Z.min limit matching
  /\ (forall x, In x (listed sort q s) ->
        In x (screenshots s)
        /\ ScreenshotQuery.start q <= Screenshot.takenAt x
           <= ScreenshotQuery.end_ q)
  /\ ((exists x,
         In x (listed sort q s)
         /\ (Project.findById (Screenshot.projectId x) (projects s) <> None
             \/ Task.findById (Screenshot.taskId x) (tasks s) <> None)) ->
      fst (getScreenshots sort q s) = inr (TypeError "length"))
  /\ ((forall x,
         In x (listed sort q s) ->
         Project.findById (Screenshot.projectId x) (projects s) = None
         /\ Task.findById (Screenshot.taskId x) (tasks s) = None) ->
      exists r,
        fst (getScreenshots sort q s) = inl (mkResponse 200 r None)
        /\ ScreenshotResponse.screenshots r = listed sort q s
        /\ ScreenshotResponse.total r = Z.min limit matching
        /\ (ScreenshotResponse.hasMore r = true <-> limit <= matching))
  /\ (forall token,
        getScreenshots sort (ScreenshotQuery.set_next token q) s
        = getScreenshots sort q s).
Proof.
  intros Hlen Hin Hlimit limit matching.
  assert (Hcount : Z.of_nat (List.length (listed sort q s))
                   = Z.min limit matching).
  { unfold listed. rewrite length_firstn, Hlen. unfold limit, matching.
    lia. }
  split.
  { unfold getScreenshots. now destruct (forallb _ _). }
  split; [exact Hcount|]. split.
  { intros x Hx. unfold listed in Hx. apply In_firstn in Hx.
    apply Hin in Hx. apply filter_In in Hx.
    destruct Hx as [Hx Hq]. split; [exact Hx|].
    unfold shot_query in Hq.
    do 3 (apply andb_true_iff in Hq; destruct Hq as [Hq _]).
    unfold between in Hq. apply andb_true_iff in Hq.
    destruct Hq as [Ha Hb]. apply Z.leb_le in Ha. apply Z.leb_le in Hb.
    lia. }
  split.
  { intros (x & Hx & Hdoc). unfold getScreenshots.
    destruct (forallb (serialises s) (listed sort q s)) eqn:Hall;
      [|reflexivity].
    rewrite forallb_forall in Hall. specialize (Hall x Hx).
    unfold serialises in Hall.
    destruct (Project.findById _ _), (Task.findById _ _);
      try discriminate.
    destruct Hdoc as [Hdoc|Hdoc]; now destruct Hdoc. }
  split.
  { intros Hgone. unfold getScreenshots.
    assert (Hall : forallb (serialises s) (listed sort q s) = true).
    { apply forallb_forall. intros x Hx. unfold serialises.
      destruct (Hgone x Hx) as [-> ->]. reflexivity. }
    rewrite Hall. eexists. split; [reflexivity|].
    cbn [ScreenshotResponse.total ScreenshotResponse.screenshots
         ScreenshotResponse.hasMore].
    split; [reflexivity|]. split; [exact Hcount|].
    fold limit. rewrite Z.eqb_eq, Hcount. lia. }
  intros token. reflexivity.
Qed.

Lemma screenshot_listing_has_more_witness :
  exists r,
    fst (getScreenshots (fun _ l => l)
           (ScreenshotQuery.mk 0 10 None None None None (Some 1) None)
           (with_tasks [] (with_projects [] Sample.tracking)))
    = inl (mkResponse 200 r None)
    /\ ScreenshotResponse.total r = 1
    /\ ScreenshotResponse.hasMore r = true.
Proof.
  assert (Hlimit :
    1 <= Js.nullish
           (ScreenshotQuery.limit
              (ScreenshotQuery.mk 0 10 None None None None (Some 1) None))
           15) by (simpl; lia).
  assert (Hfound :
    Z.of_nat
      (List.length
         (filter
            (shot_query
               (ScreenshotQuery.mk 0 10 None None None None (Some 1) None))
            (screenshots
               (with_tasks [] (with_projects [] Sample.tracking))))) = 1)
    by (vm_compute; reflexivity).
  destruct (screenshot_listing_has_more (fun _ l => l)
              (ScreenshotQuery.mk 0 10 None None None None (Some 1) None)
              (with_tasks [] (with_projects [] Sample.tracking))
              (fun _ _ => eq_refl)
              (fun _ _ _ => conj (fun H => H) (fun H => H)) Hlimit)
    as (_ & _ & _ & _ & Hreply & _).
  destruct Hreply as (r & Hrun & _ & Htotal & Hmore).
  { intros x _. split; reflexivity. }
  exists r. split; [exact Hrun|].
  rewrite Hfound in Htotal, Hmore. split.
  - rewrite Htotal. reflexivity.
  - apply Hmore. simpl. lia.
Defined.

(** ** Analytics over a window *)

Lemma fold_durations_from (l : list TimeEntry.t) (n : Z) :
  fold_left (fun sum entry => sum + TimeEntry.duration entry) l n
  = n + sum_durations l.
Proof.
  unfold sum_durations. revert n.
  induction l as [|d l IH]; intros n; simpl; [lia|].
  rewrite (IH (n + TimeEntry.duration d)), (IH (TimeEntry.duration d)).
  lia.
Qed.

Lemma sum_durations_cons (d : TimeEntry.t) (l : list TimeEntry.t) :
  sum_durations (d :: l) = TimeEntry.duration d + sum_durations l.
Proof.
  unfold sum_durations at 1. simpl. now rewrite fold_durations_from.
Qed.

Lemma sum_durations_split (f g h : TimeEntry.t -> bool)
    (l : list TimeEntry.t) :
  (forall d, f d = g d || h d) ->
  (forall d, g d && h d = false) ->
  sum_durations (filter f l)
  = sum_durations (filter g l) + sum_durations (filter h l).
Proof.
  intros Hor Hdisjoint.
  induction l as [|d l IH]; simpl; [reflexivity|].
  specialize (Hor d). specialize (Hdisjoint d). rewrite Hor.
  destruct (g d), (h d); simpl in *; try discriminate;
    rewrite ?sum_durations_cons; lia.
Qed.

Lemma sum_durations_nonneg (l : list TimeEntry.t) :
  Forall (fun d => 0 <= TimeEntry.duration d) l -> 0 <= sum_durations l.
Proof.
  induction 1 as [|d l Hd _ IH]; [reflexivity|].
  rewrite sum_durations_cons. lia.
Qed.

Lemma length_filter_split (A : Type) (f g h : A -> bool) (l : list A) :
  (forall x, f x = g x || h x) ->
  (forall x, g x && h x = false) ->
  List.length (filter f l)
  = (List.length (filter g l) + List.length (filter h l))%nat.
Proof.
  intros Hor Hdisjoint.
  induction l as [|x l IH]; simpl; [reflexivity|].
  specialize (Hor x). specialize (Hdisjoint x). rewrite Hor.
  destruct (g x), (h x); simpl in *; try discriminate; lia.
Qed.

Lemma between_split (a m b t : Z) :
  a <= m <= b ->
  between a b t = between a m t || between (m + 1) b t
  /\ between a m t && between (m + 1) b t = false.
Proof.
  intros Hm. unfold between.
  destruct (Z.leb_spec a t), (Z.leb_spec t b), (Z.leb_spec t m),
    (Z.leb_spec (m + 1) t); simpl; split; try reflexivity; lia.
Qed.

(** [getWindowAnalytics] over a collection whose entries are coherent.  It
    answers 200 without writing; [totalTime] is not negative, [activeTime]
    equals it and [idleTime] is 0.  Entries are taken by their start time
    alone and with their whole duration, so the total of a window is the
    sum of the totals of the two windows it is cut into at any instant
    inside it, and so is its screenshot count.  The screenshot count does
    not depend on the [teamId] and [shiftId] of the request. *)
Theorem window_analytics_totals (teamId : Employee.t -> string)
    (q : AnalyticsQuery.t) (s : Server) :
  Forall coherent (timeentries s) ->
  exists a,
    getWindowAnalytics teamId q s = (inl (mkResponse 200 a None), s)
    /\ 0 <= WindowAnalytics.totalTime a
    /\ WindowAnalytics.activeTime a = WindowAnalytics.totalTime a
    /\ WindowAnalytics.idleTime a = 0
    /\ (forall mid a1 a2,
          AnalyticsQuery.start q <= mid <= AnalyticsQuery.end_ q ->
          fst (getWindowAnalytics teamId
                 (AnalyticsQuery.set_window (AnalyticsQuery.start q) mid q)
                 s)
          = inl (mkResponse 200 a1 None) ->
          fst (getWindowAnalytics teamId
                 (AnalyticsQuery.set_window (mid + 1)
                    (AnalyticsQuery.end_ q) q) s)
          = inl (mkResponse 200 a2 None) ->
          WindowAnalytics.totalTime a
          = WindowAnalytics.totalTime a1 + WindowAnalytics.totalTime a2
          /\ WindowAnalytics.screenshots a
             = WindowAnalytics.screenshots a1
               + WindowAnalytics.screenshots a2)
    /\ (forall team shift a',
          fst (getWindowAnalytics teamId
                 (AnalyticsQuery.set_team_shift team shift q) s)
          = inl (mkResponse 200 a' None) ->
          WindowAnalytics.screenshots a' = WindowAnalytics.screenshots a).
Proof.
  intros Hcoherent. unfold getWindowAnalytics.
  eexists. split; [reflexivity|].
  cbn [WindowAnalytics.totalTime WindowAnalytics.activeTime
       WindowAnalytics.idleTime WindowAnalytics.screenshots fst].
  split.
  { apply sum_durations_nonneg. apply Forall_forall. intros d Hd.
    apply filter_In in Hd. destruct Hd as [Hd _].
    apply filter_In in Hd. destruct Hd as [Hd Hq].
    rewrite Forall_forall in Hcoherent. specialize (Hcoherent d Hd).
    unfold coherent in Hcoherent. unfold window_query in Hq.
    do 4 (apply andb_true_iff in Hq; destruct Hq as [Hq _]).
    apply andb_true_iff in Hq. destruct Hq as [_ Hstopped].
    destruct (TimeEntry.endTime d); [tauto|].
    rewrite Hcoherent in Hstopped. discriminate. }
  split; [reflexivity|]. split; [reflexivity|]. split.
  { intros mid a1 a2 Hmid H1 H2.
    injection H1 as <-. injection H2 as <-.
    cbn [WindowAnalytics.totalTime WindowAnalytics.screenshots].
    split.
    - rewrite !filter_filter_and. apply sum_durations_split.
      + intros d. unfold window_query, AnalyticsQuery.set_window.
        cbn [AnalyticsQuery.start AnalyticsQuery.end_
             AnalyticsQuery.employeeId AnalyticsQuery.projectId
             AnalyticsQuery.taskId AnalyticsQuery.shiftId
             AnalyticsQuery.teamId].
        destruct (between_split _ _ _ (TimeEntry.startTime d) Hmid)
          as [-> _].
        destruct (between _ mid _), (between (mid + 1) _ _),
          (TimeEntry.isActive d),
          (matches _ (TimeEntry.employeeId d)),
          (matches _ (TimeEntry.projectId d)),
          (matches _ (TimeEntry.taskId d)),
          (matches_id _ (TimeEntry._id d)), (in_team teamId s _ d);
          reflexivity.
      + intros d. unfold window_query, AnalyticsQuery.set_window.
        cbn [AnalyticsQuery.start AnalyticsQuery.end_
             AnalyticsQuery.employeeId AnalyticsQuery.projectId
             AnalyticsQuery.taskId AnalyticsQuery.shiftId
             AnalyticsQuery.teamId].
        destruct (between_split _ _ _ (TimeEntry.startTime d) Hmid)
          as [_ Hd].
        destruct (between _ mid _), (between (mid + 1) _ _);
          try discriminate; simpl; rewrite ?andb_false_r; reflexivity.
    - rewrite <- Nat2Z.inj_add. f_equal. apply length_filter_split.
      + intros r. unfold window_shots, AnalyticsQuery.set_window.
        cbn [AnalyticsQuery.start AnalyticsQuery.end_
             AnalyticsQuery.employeeId AnalyticsQuery.projectId
             AnalyticsQuery.taskId].
        destruct (between_split _ _ _ (Screenshot.takenAt r) Hmid)
          as [-> _].
        destruct (between _ mid _), (between (mid + 1) _ _),
          (matches _ (Screenshot.employeeId r)),
          (matches _ (Screenshot.projectId r)),
          (matches _ (Screenshot.taskId r)); reflexivity.
      + intros r. unfold window_shots, AnalyticsQuery.set_window.
        cbn [AnalyticsQuery.start AnalyticsQuery.end_
             AnalyticsQuery.employeeId AnalyticsQuery.projectId
             AnalyticsQuery.taskId].
        destruct (between_split _ _ _ (Screenshot.takenAt r) Hmid)
          as [_ Hd].
        destruct (between _ mid _), (between (mid + 1) _ _);
          try discriminate; simpl; rewrite ?andb_false_r; reflexivity. }
  intros team shift a' H. injection H as <-. reflexivity.
Qed.

Lemma window_analytics_totals_witness :
  exists a,
    getWindowAnalytics (fun _ => "core")
      (AnalyticsQuery.mk 0 200000 None None None None None None)
      Sample.finished
    = (inl (mkResponse 200 a None), Sample.finished)
    /\ 0 <= WindowAnalytics.totalTime a
    /\ WindowAnalytics.idleTime a = 0.
Proof.
  assert (H : Forall coherent (timeentries Sample.finished)).
  { destruct (timeentries Sample.finished) as [|d l] eqn:E;
      [constructor|].
    vm_compute in E. injection E as <- <-.
    constructor; [|constructor].
    unfold coherent. simpl. repeat split; lia. }
  destruct (window_analytics_totals (fun _ => "core")
              (AnalyticsQuery.mk 0 200000 None None None None None None)
              Sample.finished H)
    as (a & Hrun & Hpos & _ & Hidle & _).
  exists a. split; [exact Hrun|]. split; [exact Hpos|exact Hidle].
Defined.

(** ** The total duration of an employee *)

Lemma matches_some (e field : string) :
  e <> EmptyString -> matches (Some e) field = String.eqb field e.
Proof. intros He. unfold matches. now destruct e. Qed.

(** [getTotalDuration] gives no group exactly when no stopped entry of
    the employee started in the range, and otherwise one total: the sum of
    the durations of the stopped entries that [findByEmployee] finds, which
    is also the [totalTime] that [getWindowAnalytics] reports for this
    employee and window.  Entries that are still active do not count:
    appending one leaves the result as it is. *)
Theorem total_duration_counts_stopped_entries (e : string) (lo hi : Z)
    (c : list TimeEntry.t) :
  e <> EmptyString ->
  let stopped :=
    filter (fun x => negb (TimeEntry.isActive x))
      (TimeEntryExtra.findByEmployee e (Some lo) (Some hi) c) in
  (getTotalDuration e (Some lo) (Some hi) c = [] <-> stopped = [])
  /\ (stopped <> [] ->
      getTotalDuration e (Some lo) (Some hi) c = [sum_durations stopped])
  /\ (forall (teamId : Employee.t -> string) (s : Server) a,
        timeentries s = c ->
        fst (getWindowAnalytics teamId
               (AnalyticsQuery.mk lo hi None (Some e) None None None None)
               s)
        = inl (mkResponse 200 a None) ->
        WindowAnalytics.totalTime a = sum_durations stopped)
  /\ (forall d,
        TimeEntry.isActive d = true ->
        getTotalDuration e (Some lo) (Some hi) (c ++ [d])
        = getTotalDuration e (Some lo) (Some hi) c).
Proof.
  intros He stopped.
  assert (Hsame :
    filter
      (fun x =>
         String.eqb (TimeEntry.employeeId x) e
         && negb (TimeEntry.isActive x)
         && between lo hi (TimeEntry.startTime x)) c = stopped).
  { unfold stopped, TimeEntryExtra.findByEmployee.
    rewrite filter_filter_and. apply filter_ext. intros x.
    unfold TimeEntryExtra.started_within, between.
    destruct (String.eqb _ e), (TimeEntry.isActive x),
      (lo <=? TimeEntry.startTime x), (TimeEntry.startTime x <=? hi);
      reflexivity. }
  unfold getTotalDuration. rewrite Hsame.
  split; [destruct stopped; split; intros H; congruence|].
  split; [destruct stopped; [congruence|reflexivity]|].
  split.
  - intros teamId s a Hc Ha. unfold getWindowAnalytics in Ha.
    injection Ha as <-. cbn [WindowAnalytics.totalTime].
    rewrite Hc, <- Hsame. f_equal.
    rewrite filter_filter_and. apply filter_ext. intros x.
    unfold window_query, in_team.
    cbn [AnalyticsQuery.start AnalyticsQuery.end_
         AnalyticsQuery.employeeId AnalyticsQuery.projectId
         AnalyticsQuery.taskId AnalyticsQuery.shiftId
         AnalyticsQuery.teamId Js.truthy matches_id].
    rewrite (matches_some e _ He). unfold matches. cbn [Js.truthy].
    destruct (between lo hi _), (TimeEntry.isActive x),
      (String.eqb _ e); reflexivity.
  - intros d Hd. rewrite filter_app. cbn [filter]. rewrite Hd.
    rewrite andb_false_r. cbn [negb andb]. rewrite app_nil_r.
    now rewrite Hsame.
Qed.

Lemma total_duration_counts_stopped_entries_witness :
  getTotalDuration "ann" (Some 0) (Some 200000)
    (timeentries Sample.finished)
  = [125000].
Proof.
  assert (He : "ann" <> EmptyString) by discriminate.
  assert (Hne :
    filter (fun x => negb (TimeEntry.isActive x))
      (TimeEntryExtra.findByEmployee "ann" (Some 0) (Some 200000)
         (timeentries Sample.finished)) <> []).
  { vm_compute. discriminate. }
  rewrite (proj1 (proj2 (total_duration_counts_stopped_entries "ann" 0
                           200000 (timeentries Sample.finished) He))
             Hne).
  vm_compute. reflexivity.
Defined.
